(** * dx-toolkit: app builder and org membership commands

    A shallow embedding of [src/python/dxpy/app_builder.py] and of the
    membership commands of [src/python/dxpy/cli/org.py].

    The Python code is a sequence of local reads and remote API calls.  It is
    embedded in a state-and-exception monad: the state holds the platform (an
    arbitrary transition system answering each call) and the log of the calls
    issued so far; an exception aborts the computation and is carried in the
    outcome.  Manifests are JSON objects, Python dicts are finite maps, and
    the answers of the platform are typed by what the code reads in them.
    Diagnostics ([logging], the messages on [sys.stderr]) are left out, except
    where building the message can raise. *)

From stdpp Require Import gmap strings list fin_maps.
From Stdlib Require Import ZArith Ascii String.

Open Scope string_scope.
Open Scope Z_scope.
Open Scope list_scope.

(** ** JSON documents (the result of [json.load]) *)

#[warnings="-register-all"]
Inductive json : Type :=
| JNull
| JBool (b : bool)
| JNum (z : Z)
| JStr (s : string)
| JArr (l : list json)
| JObj (m : gmap string json).

(** A Python dict with string keys. *)
Abbreviation object := (gmap string json).

(** ** Exceptions *)

Inductive exn : Type :=
| DXAPIError (name msg : string)          (* dxpy.exceptions.DXAPIError *)
| AppletBuilderException (msg : string)   (* app_builder.AppletBuilderException *)
| EnvironmentError (msg : string)         (* the built-in raised by create_app *)
| DXCLIError (msg : string)               (* dxpy.exceptions.DXCLIError *)
| PyError (cls msg : string).             (* any other built-in: IOError, KeyError,
                                             TypeError, AttributeError, ... *)

Inductive outcome (A : Type) : Type :=
| Ret (a : A)
| Raise (e : exn).
Arguments Ret {A} a.
Arguments Raise {A} e.

(** ** Requests of the org commands *)

(** The argparse namespace handed to the org commands.  [set_bill_to] is
    [None] when the attribute is not in the namespace. *)
Record org_args : Type := {
  org_id : string;
  username : string;
  level : string;
  set_bill_to : option bool;
  allow_billable_activities : bool;
  app_access : bool;
  project_access : string;
  no_email : bool;
  brief : bool;
  confirm : bool;
  revoke_project_permissions : bool;
  revoke_app_permissions : bool
}.

Record org_invite_args : Type := {
  invitee : string;
  inv_level : string;
  inv_allowBillableActivities : bool;
  inv_appAccess : bool;
  inv_projectAccess : string;
  inv_suppressEmailNotification : bool
}.

Record org_remove_member_args : Type := {
  rm_user : string;
  rm_revokeProjectPermissions : bool;
  rm_revokeAppPermissions : bool
}.

(** What [/org-x/removeMember] answers: the id, and the keys of its
    ["projects"] and ["apps"] hashes. *)
Record org_remove_member_result : Type := {
  res_id : string;
  res_projects : list string;
  res_apps : list string
}.

(** ** Calls *)

(** Every call the code issues to something outside itself, with the
    arguments it passes.  The log of a run is a list of these. *)
Inductive call : Type :=
(* app_builder: local tools *)
| NamedTemporaryFile (suffix : string)
| Tar (dir out : string)
(* app_builder: remote *)
| NewFolder (project folder : json)
| UploadLocalFile (filename : string) (project folder : json)
| FindDataObjects (classname name : string) (project : json)
| RemoveObjects (project : json) (ids : list string)
| AppletNew (spec : object)
| AppletSetProperties (applet_id : string) (project : json) (properties : object)
| AppletAddTags (applet_id : string) (project : json) (tags : json)
| AppletDescribe (applet_id : string)
| AppDescribe (app : string) (alias : json)
| AppNew (spec : object)
| AppUpdate (app : string) (version : json) (spec : object)
| AppAddCategories (app_id : string) (categories : json)
| AppPublish (app_id : string) (makeDefault : bool)
(* org: remote *)
| OrgGetMemberAccess (org user : string)
| OrgInvite (org : string) (args : org_invite_args)
| OrgRemoveMember (org : string) (args : org_remove_member_args)
(* org: terminal *)
| PromptForYN (question : string)
| Print (line : string).

(** The calls that change something on the platform. *)
Definition is_mutation (c : call) : bool :=
  match c with
  | NewFolder _ _ | UploadLocalFile _ _ _ | RemoveObjects _ _ | AppletNew _
  | AppletSetProperties _ _ _ | AppletAddTags _ _ _ | AppNew _
  | AppUpdate _ _ _ | AppAddCategories _ _ | AppPublish _ _
  | OrgInvite _ _ | OrgRemoveMember _ _ => true
  | _ => false
  end.

Definition is_app_update (c : call) : bool :=
  match c with AppUpdate _ _ _ => true | _ => false end.

Definition is_applet_new (c : call) : bool :=
  match c with AppletNew _ => true | _ => false end.

Definition is_remove_objects (c : call) : bool :=
  match c with RemoveObjects _ _ => true | _ => false end.

Definition is_org_remove_member (c : call) : bool :=
  match c with OrgRemoveMember _ _ => true | _ => false end.

Definition is_org_invite (c : call) : bool :=
  match c with OrgInvite _ _ => true | _ => false end.

(** ** The platform and the local machine *)

(** What [appDescribe] answers, as far as the code looks: the ["published"]
    timestamp, when the hash has one. *)
Record app_description : Type := { published : option Z }.

(** What [DXApplet.describe(incl_properties=True)] answers, as far as the
    code looks. *)
Record applet_description : Type := {
  ad_name : string;
  ad_properties : object
}.

(** The platform, the local tools and the terminal as a transition system on
    a world [W]: each operation answers or raises, and moves the world.
    Nothing else is assumed of it, so a world may change between two looks
    (another publisher, a user at the prompt). *)
Record Platform (W : Type) : Type := {
  named_temporary_file : string -> W -> outcome string * W;
  tar : string -> string -> W -> outcome unit * W;
  new_folder : json -> json -> W -> outcome unit * W;
  upload_local_file : string -> json -> json -> W -> outcome string * W;
  find_data_objects : string -> string -> json -> W -> outcome (list string) * W;
  remove_objects : json -> list string -> W -> outcome unit * W;
  appletNew : object -> W -> outcome string * W;
  appletSetProperties : string -> json -> object -> W -> outcome unit * W;
  add_tags : string -> json -> json -> W -> outcome unit * W;
  applet_describe : string -> W -> outcome applet_description * W;
  appDescribe : string -> json -> W -> outcome app_description * W;
  appNew : object -> W -> outcome string * W;
  appUpdate : string -> json -> object -> W -> outcome string * W;
  appAddCategories : string -> json -> W -> outcome unit * W;
  appPublish : string -> bool -> W -> outcome unit * W;
  org_get_member_access : string -> string -> W -> outcome unit * W;
  org_invite : string -> org_invite_args -> W -> outcome unit * W;
  org_remove_member :
    string -> org_remove_member_args -> W -> outcome org_remove_member_result * W;
  prompt_for_yn : string -> W -> outcome bool * W
}.
Arguments named_temporary_file {W} _ _ _.
Arguments tar {W} _ _ _ _.
Arguments new_folder {W} _ _ _ _.
Arguments upload_local_file {W} _ _ _ _ _.
Arguments find_data_objects {W} _ _ _ _ _.
Arguments remove_objects {W} _ _ _ _.
Arguments appletNew {W} _ _ _.
Arguments appletSetProperties {W} _ _ _ _ _.
Arguments add_tags {W} _ _ _ _ _.
Arguments applet_describe {W} _ _ _.
Arguments appDescribe {W} _ _ _ _.
Arguments appNew {W} _ _ _.
Arguments appUpdate {W} _ _ _ _ _.
Arguments appAddCategories {W} _ _ _ _.
Arguments appPublish {W} _ _ _ _.
Arguments org_get_member_access {W} _ _ _ _.
Arguments org_invite {W} _ _ _ _.
Arguments org_remove_member {W} _ _ _ _.
Arguments prompt_for_yn {W} _ _ _.

(** What the code reads locally and the ambient module values.  The file
    system is read, never written, by the functions embedded here (the
    archive goes through [Tar]). *)
Record Local : Type := {
  load_json : string -> outcome object;   (* open(path) and json.load *)
  read_file : string -> outcome string;   (* open(path) and fh.read() *)
  path_exists : string -> bool;           (* os.path.exists *)
  listdir : string -> outcome (list string);   (* os.listdir *)
  abspath : string -> outcome string;     (* os.path.abspath *)
  WORKSPACE_ID : json;                    (* dxpy.WORKSPACE_ID *)
  API_VERSION : json;                     (* dxpy.API_VERSION *)
  dxlink : string -> json;                (* dxpy.dxlink *)
  py_str : json -> string;                (* str() of a value that is not a string *)
  fill : string -> string                 (* dxpy.utils.printing.fill *)
}.

(** ** The monad *)

Record state (W : Type) : Type := { world : W; trace : list call }.
Arguments world {W} _.
Arguments trace {W} _.

Definition M (W A : Type) : Type := state W -> outcome A * state W.

Definition ret {W A} (a : A) : M W A := fun s => (Ret a, s).

Definition raise {W A} (e : exn) : M W A := fun s => (Raise e, s).

Definition bind {W A B} (m : M W A) (k : A -> M W B) : M W B :=
  fun s => match m s with
           | (Ret a, s') => k a s'
           | (Raise e, s') => (Raise e, s')
           end.

(** [try: m except: h e]; the handler re-raises what it does not handle. *)
Definition catch {W A} (m : M W A) (h : exn -> M W A) : M W A :=
  fun s => match m s with
           | (Ret a, s') => (Ret a, s')
           | (Raise e, s') => h e s'
           end.

(** A pure read that may raise. *)
Definition lift {W A} (o : outcome A) : M W A := fun s => (o, s).

(** Issue call [c], answered by [f], and log it. *)
Definition invoke {W A} (c : call) (f : W -> outcome A * W) : M W A :=
  fun s => let (r, w) := f (world s) in
           (r, {| world := w; trace := trace s ++ [c] |}).

Definition log {W} (c : call) : M W unit :=
  fun s => (Ret tt, {| world := world s; trace := trace s ++ [c] |}).

(** [new_calls s s' l]: the run from [s] to [s'] issued exactly the calls [l]. *)
Definition new_calls {W} (s s' : state W) (l : list call) : Prop :=
  trace s' = trace s ++ l.

(** [issues_only ok m]: from every state, a run of [m] issues only calls that
    [ok] accepts. *)
Definition issues_only {W A} (ok : call -> bool) (m : M W A) : Prop :=
  forall s, exists new, new_calls s (m s).2 new /\ Forall (fun c => ok c = true) new.

(** [occurs_in v msg]: the text [msg] contains [v]. *)
Definition occurs_in (v msg : string) : Prop :=
  exists before after, msg = before +:+ v +:+ after.

#[global] Instance M_ret {W} : MRet (M W) := fun A a => ret a.
#[global] Instance M_bind {W} : MBind (M W) := fun A B k m => bind m k.

#[global] Instance outcome_ret : MRet outcome := fun A a => Ret a.
#[global] Instance outcome_bind : MBind outcome :=
  fun A B k o => match o with Ret a => k a | Raise e => Raise e end.

(** ** Python built-ins the code relies on *)

(** [key in d] for a dict. *)
Definition has_key (d : object) (key : string) : bool :=
  match d !! key with Some _ => true | None => false end.

(** [d[key]] for a dict. *)
Definition getitem (d : object) (key : string) : outcome json :=
  match d !! key with
  | Some v => Ret v
  | None => Raise (PyError "KeyError" key)
  end.

(** [d.setdefault(key, v)] for a dict, as the dict it leaves. *)
Definition setdefault (d : object) (key : string) (v : json) : object :=
  if has_key d key then d else <[key := v]> d.

(** [x == s] for a string literal [s], [x] the result of [d.get(..)]. *)
Definition eq_str (x : option json) (s : string) : bool :=
  match x with
  | Some (JStr t) => bool_decide (t = s)
  | _ => false
  end.

Definition is_substring (s t : string) : bool :=
  match String.index 0 s t with Some _ => true | None => false end.

(** [key in x] for whatever JSON value [x] is: a key of a dict, an element of
    a list, a substring of a string, a TypeError otherwise. *)
Definition py_contains (x : json) (key : string) : outcome bool :=
  match x with
  | JObj d => Ret (has_key d key)
  | JArr l => Ret (existsb (fun v => eq_str (Some v) key) l)
  | JStr t => Ret (is_substring key t)
  | _ => Raise (PyError "TypeError" "argument is not iterable")
  end.

Fixpoint ends_with_slash (p : string) : bool :=
  match p with
  | EmptyString => false
  | String c EmptyString => bool_decide (c = "/"%char)
  | String _ rest => ends_with_slash rest
  end.

Definition starts_with_slash (p : string) : bool :=
  match p with
  | String c _ => bool_decide (c = "/"%char)
  | EmptyString => false
  end.

(** [os.path.join(a, b)] (posixpath). *)
Definition path_join (a b : string) : string :=
  if starts_with_slash b then b
  else if bool_decide (a = "") || ends_with_slash a then a +:+ b
  else a +:+ "/" +:+ b.

Fixpoint basename_from (acc p : string) : string :=
  match p with
  | EmptyString => acc
  | String c rest =>
      if bool_decide (c = "/"%char) then basename_from "" rest
      else basename_from (acc +:+ String c "") rest
  end.

(** [os.path.basename(p)]: what follows the last slash. *)
Definition basename (p : string) : string := basename_from "" p.

(** [sep.join(l)] for strings. *)
Fixpoint join (sep : string) (l : list string) : string :=
  match l with
  | [] => ""
  | [x] => x
  | x :: rest => x +:+ sep +:+ join sep rest
  end.

(** The strings of a list of values, a TypeError when one is not a string
    (as [', '.join] and [str + value] raise). *)
Fixpoint strings_of (l : list json) : outcome (list string) :=
  match l with
  | [] => Ret []
  | JStr s :: rest => ss ← strings_of rest; Ret (s :: ss)
  | _ :: _ => Raise (PyError "TypeError" "expected string")
  end.

(** ** app_builder.py *)

Section app_builder.
Context {W : Type} (P : Platform W) (L : Local).

Definition missing_runSpec : exn :=
  AppletBuilderException "Required field 'runSpec' not found in dxapp.json".

(** [_validate_applet_spec] *)
Definition _validate_applet_spec (applet_spec : object) : outcome unit :=
  if negb (has_key applet_spec "runSpec") then Raise missing_runSpec
  else Ret tt.

(** [_validate_app_spec] *)
Definition _validate_app_spec (app_spec : object) : outcome unit := Ret tt.

(** [_get_applet_spec] *)
Definition _get_applet_spec (src_dir : string) : outcome object :=
  let applet_spec_file := path_join src_dir "dxapp.json" in
  applet_spec ← load_json L applet_spec_file;
  _ ← _validate_applet_spec applet_spec;
  if negb (has_key applet_spec "project") then
    Ret (<["project" := WORKSPACE_ID L]> applet_spec)
  else Ret applet_spec.

(** [_get_app_spec] *)
Definition _get_app_spec (src_dir : string) : outcome object :=
  let app_spec_file := path_join src_dir "dxapp.json" in
  app_spec ← load_json L app_spec_file;
  _ ← _validate_app_spec app_spec;
  Ret app_spec.

(** The destination project, and the spec once the [project] argument is
    written to it (the [if project is None] of both upload functions). *)
Definition resolve_project (applet_spec : object) (project : option string)
  : outcome (json * object) :=
  match project with
  | None => dest_project ← getitem applet_spec "project"; Ret (dest_project, applet_spec)
  | Some p => Ret (JStr p, <["project" := JStr p]> applet_spec)
  end.

(** [os.path.exists(resources_dir) and len(os.listdir(resources_dir)) > 0] *)
Definition resources_present (resources_dir : string) : outcome bool :=
  if path_exists L resources_dir then
    entries ← listdir L resources_dir;
    Ret (bool_decide (0 < List.length entries)%nat)
  else Ret false.

(** The [try: new_folder except DXAPIError: pass] of [upload_resources]. *)
Definition make_folder (dest_project folder : json) : M W unit :=
  catch (invoke (NewFolder dest_project folder) (new_folder P dest_project folder))
        (fun e => match e with
                  | DXAPIError _ _ => mret tt
                  | _ => raise e
                  end).

(** The descriptor [{'name': 'resources.tar.gz', 'id': archive_link}]. *)
Definition bundle (archive_id : string) : json :=
  let archive_link := dxlink L archive_id in
  JObj (<["name" := JStr "resources.tar.gz"]> (<["id" := archive_link]> ∅)).

(** The [with tempfile.NamedTemporaryFile(..) as tar_fh] block of
    [upload_resources]. *)
Definition package_resources (resources_dir : string) (dest_project : json)
    (applet_spec : object) : M W (option (list json)) :=
  tar_name ← invoke (NamedTemporaryFile ".tar.gz") (named_temporary_file P ".tar.gz");
  _ ← invoke (Tar resources_dir tar_name) (tar P resources_dir tar_name);
  _ ← match applet_spec !! "folder" with
      | Some folder => make_folder dest_project folder
      | None => mret tt
      end;
  let target_folder := default (JStr "/") (applet_spec !! "folder") in
  archive_id ← invoke (UploadLocalFile tar_name dest_project target_folder)
                      (upload_local_file P tar_name dest_project target_folder);
  mret (Some [bundle archive_id]).

(** [upload_resources]; [None] is Python's [None]. *)
Definition upload_resources (src_dir : string) (project : option string)
  : M W (option (list json)) :=
  applet_spec ← lift (_get_applet_spec src_dir);
  resolved ← lift (resolve_project applet_spec project);
  let dest_project := resolved.1 in
  let applet_spec := resolved.2 in
  let resources_dir := path_join src_dir "resources" in
  present ← lift (resources_present resources_dir);
  if (present : bool) then package_resources resources_dir dest_project applet_spec
  else mret None.

(** The destination project of a manifest: the argument, else the
    manifest's, else the workspace. *)
Definition destination (manifest : object) (project : option string) : json :=
  match project with
  | Some p => JStr p
  | None => default (WORKSPACE_ID L) (manifest !! "project")
  end.

(** The [if 'name' not in applet_spec] of [upload_applet]. *)
Definition default_name (src_dir : string) (applet_spec : object) : outcome object :=
  if negb (has_key applet_spec "name") then
    match abspath L src_dir with
    | Ret p => Ret (<["name" := JStr (basename p)]> applet_spec)
    | Raise _ =>
        Raise (AppletBuilderException
                 "Could not resolve applet name from specification or working directory")
    end
  else Ret applet_spec.

Definition collision_message (name id : string) : string :=
  "A applet with name " +:+ name +:+ " already exists (id " +:+ id
    +:+ ") and the overwrite option was not given".

(** The body of [for result in dxpy.find_data_objects(..)], over the ids of
    the results. *)
Fixpoint remove_or_reject (overwrite : bool) (dest_project : json) (name : string)
    (results : list string) : M W unit :=
  match results with
  | [] => mret tt
  | id :: rest =>
      if overwrite then
        _ ← invoke (RemoveObjects dest_project [id]) (remove_objects P dest_project [id]);
        remove_or_reject overwrite dest_project name rest
      else raise (AppletBuilderException (collision_message name id))
  end.

(** The [if check_name_collisions] of [upload_applet].  The search is one
    call answering the ids of its results; the name is concatenated to a
    string before the search, a TypeError when it is not a string. *)
Definition check_collisions (overwrite : bool) (dest_project : json)
    (applet_spec : object) : M W unit :=
  name ← lift (getitem applet_spec "name");
  match name with
  | JStr n =>
      results ← invoke (FindDataObjects "applet" n dest_project)
                       (find_data_objects P "applet" n dest_project);
      remove_or_reject overwrite dest_project n results
  | _ => raise (PyError "TypeError" "cannot concatenate 'str' and a non-string name")
  end.

Definition readme_filename (src_dir : string) : option string :=
  List.find (fun filename => path_exists L (path_join src_dir filename))
            ["README.md"; "Readme.md"; "readme.md"].

(** "Inline description from a readme file" *)
Definition inline_description (src_dir : string) (applet_spec : object)
  : outcome object :=
  if negb (has_key applet_spec "description") then
    match readme_filename src_dir with
    | None => Ret applet_spec
    | Some filename =>
        text ← read_file L (path_join src_dir filename);
        Ret (<["description" := JStr text]> applet_spec)
    end
  else Ret applet_spec.

(** "Inline the code of the program" *)
Definition inline_code (src_dir : string) (applet_spec : object) : outcome object :=
  match applet_spec !! "runSpec" with
  | None => Ret applet_spec
  | Some run_spec =>
      has_file ← py_contains run_spec "file";
      if (has_file : bool) then
        match run_spec with
        | JObj rs =>
            file ← getitem rs "file";
            match file with
            | JStr f =>
                code ← read_file L (path_join src_dir f);
                Ret (<["runSpec" := JObj (delete "file" (<["code" := JStr code]> rs))]>
                       applet_spec)
            | _ => Raise (PyError "AttributeError" "os.path.join of a non-string")
            end
        | _ => Raise (PyError "TypeError" "indices must be integers")
        end
      else Ret applet_spec
  end.

(** "Attach bundled resources to the app" *)
Definition attach_resources (uploaded_resources : option (list json))
    (applet_spec : object) : outcome object :=
  match uploaded_resources with
  | None => Ret applet_spec
  | Some resources =>
      run_spec ← getitem applet_spec "runSpec";
      match run_spec with
      | JObj rs =>
          let rs := setdefault rs "bundledDepends" (JArr []) in
          bundled ← getitem rs "bundledDepends";
          match bundled with
          | JArr l =>
              Ret (<["runSpec" := JObj (<["bundledDepends" := JArr (l ++ resources)]> rs)]>
                     applet_spec)
          | _ => Raise (PyError "AttributeError" "no attribute 'extend'")
          end
      | _ => Raise (PyError "AttributeError" "no attribute 'setdefault'")
      end
  end.

Definition dx_toolkit_url : string := "git@github.com:dnanexus/dx-toolkit.git".

Definition dx_toolkit_dep : json :=
  JObj (<["name" := JStr "dx-toolkit"]>
       (<["package_manager" := JStr "git"]>
       (<["url" := JStr dx_toolkit_url]>
       (<["tag" := JStr "master"]>
       (<["build_commands" := JStr "make install DESTDIR=/ PREFIX=/opt/dnanexus"]> ∅))))).

(** [dep.get('name') == 'dx-toolkit' or dep.get('url') == "git@..."] *)
Definition is_toolkit_dep (dep : json) : outcome bool :=
  match dep with
  | JObj d => Ret (eq_str (d !! "name") "dx-toolkit" || eq_str (d !! "url") dx_toolkit_url)
  | _ => Raise (PyError "AttributeError" "no attribute 'get'")
  end.

(** The [for dep in ..execDepends] loop, from the current value of
    [dx_toolkit_dep_found]; it has no [break]. *)
Fixpoint find_toolkit_dep (deps : list json) (dx_toolkit_dep_found : bool)
  : outcome bool :=
  match deps with
  | [] => Ret dx_toolkit_dep_found
  | dep :: rest =>
      hit ← is_toolkit_dep dep;
      find_toolkit_dep rest (if (hit : bool) then true else dx_toolkit_dep_found)
  end.

(** "Include the DNAnexus client libraries as an execution dependency, if
    they are not already there": the [if dx_toolkit_autodep] block. *)
Definition add_toolkit_dep (dx_toolkit_autodep : bool) (applet_spec : object)
  : outcome object :=
  if dx_toolkit_autodep then
    run_spec ← getitem applet_spec "runSpec";
    match run_spec with
    | JObj rs =>
        let rs := setdefault rs "execDepends" (JArr []) in
        exec_depends ← getitem rs "execDepends";
        match exec_depends with
        | JArr deps =>
            dx_toolkit_dep_found ← find_toolkit_dep deps false;
            if negb (dx_toolkit_dep_found : bool) then
              Ret (<["runSpec" := JObj (<["execDepends" := JArr (deps ++ [dx_toolkit_dep])]> rs)]>
                     applet_spec)
            else Ret (<["runSpec" := JObj rs]> applet_spec)
        | JObj _ | JStr _ => Raise (PyError "AttributeError" "no attribute 'get' or 'append'")
        | _ => Raise (PyError "TypeError" "object is not iterable")
        end
    | _ => Raise (PyError "AttributeError" "no attribute 'setdefault'")
    end
  else Ret applet_spec.

(** An entry that names the toolkit: a hash whose name is ['dx-toolkit'] or
    whose url is the toolkit's. *)
Definition names_toolkit (dep : json) : Prop :=
  exists d, dep = JObj d
            /\ (d !! "name" = Some (JStr "dx-toolkit")
                \/ d !! "url" = Some (JStr dx_toolkit_url)).

Definition is_dict (v : json) : bool :=
  match v with JObj _ => true | _ => false end.

(** The spec with [deps] as its [runSpec.execDepends]. *)
Definition with_exec_depends (applet_spec run_spec : object) (deps : list json) : object :=
  <["runSpec" := JObj (<["execDepends" := JArr deps]> run_spec)]> applet_spec.

(** ["%s" % (v,)] *)
Definition format_s (v : json) : string :=
  match v with
  | JStr s => s
  | _ => py_str L v
  end.

(** "Supply a contactUrl if one is not provided" *)
Definition default_contact_url (applet_spec : object) : outcome object :=
  let applet_spec :=
    if negb (has_key applet_spec "details") then <["details" := JObj ∅]> applet_spec
    else applet_spec in
  details ← getitem applet_spec "details";
  has_url ← py_contains details "contactUrl";
  if negb (has_url : bool) then
    name ← getitem applet_spec "name";
    let new_contact_url := "http://wiki.dnanexus.com/Apps/" +:+ format_s name in
    match details with
    | JObj d =>
        Ret (<["details" := JObj (<["contactUrl" := JStr new_contact_url]> d)]> applet_spec)
    | _ => Raise (PyError "TypeError" "does not support item assignment")
    end
  else Ret applet_spec.

Definition copy_key (key : string) (src dst : object) : object :=
  match src !! key with
  | Some v => <[key := v]> dst
  | None => dst
  end.

(** The [properties] hash sent after creation. *)
Definition applet_properties (applet_spec : object) : outcome object :=
  name ← getitem applet_spec "name";
  let properties := <["name" := name]> ∅ in
  let properties := copy_key "title" applet_spec properties in
  let properties := copy_key "summary" applet_spec properties in
  let properties := copy_key "description" applet_spec properties in
  Ret properties.

(** [upload_applet], up to the collision check: load the spec, settle the
    destination project, the name and [dxapi]. *)
Definition prepare_spec (src_dir : string) (project : option string)
  : outcome (json * object) :=
  applet_spec ← _get_applet_spec src_dir;
  resolved ← resolve_project applet_spec project;
  let dest_project := resolved.1 in
  let applet_spec := resolved.2 in
  applet_spec ← default_name src_dir applet_spec;
  let applet_spec :=
    if negb (has_key applet_spec "dxapi") then <["dxapi" := API_VERSION L]> applet_spec
    else applet_spec in
  Ret (dest_project, applet_spec).

(** "Override various fields from the pristine dxapp.json" *)
Definition override_fields (src_dir : string) (uploaded_resources : option (list json))
    (dx_toolkit_autodep : bool) (applet_spec : object) : outcome object :=
  applet_spec ← inline_description src_dir applet_spec;
  applet_spec ← inline_code src_dir applet_spec;
  applet_spec ← attach_resources uploaded_resources applet_spec;
  applet_spec ← add_toolkit_dep dx_toolkit_autodep applet_spec;
  default_contact_url applet_spec.

(** "Now actually create the applet" *)
Definition create_applet (dest_project : json) (applet_spec : object) : M W string :=
  applet_id ← invoke (AppletNew applet_spec) (appletNew P applet_spec);
  properties ← lift (applet_properties applet_spec);
  _ ← invoke (AppletSetProperties applet_id dest_project properties)
             (appletSetProperties P applet_id dest_project properties);
  _ ← match applet_spec !! "categories" with
      | Some categories =>
          invoke (AppletAddTags applet_id dest_project categories)
                 (add_tags P applet_id dest_project categories)
      | None => mret tt
      end;
  mret applet_id.

(** [upload_applet] *)
Definition upload_applet (src_dir : string) (uploaded_resources : option (list json))
    (check_name_collisions overwrite : bool) (project : option string)
    (dx_toolkit_autodep : bool) : M W string :=
  prepared ← lift (prepare_spec src_dir project);
  let dest_project := prepared.1 in
  let applet_spec := prepared.2 in
  _ ← (if check_name_collisions then check_collisions overwrite dest_project applet_spec
       else mret tt);
  applet_spec ← lift (override_fields src_dir uploaded_resources dx_toolkit_autodep
                                      applet_spec);
  create_applet dest_project applet_spec.

(** The removals [upload_applet] issues for the ids a search answered. *)
Definition removals (dest_project : json) (ids : list string) : list call :=
  map (fun id => RemoveObjects dest_project [id]) ids.

(** [app_describe.get("published", 0)] *)
Definition get_published (app_describe : app_description) : Z :=
  default 0 (published app_describe).

Definition alias_conflict_msg : string :=
  "Specified name and version conflict with an existing alias".

(** [_update_version]; [None] is Python's [None]. *)
Definition _update_version (app_name : string) (version : json) (app_spec : object)
    (try_update : bool) : M W (option string) :=
  if negb try_update then mret None
  else
    catch (app_id ← invoke (AppUpdate ("app-" +:+ app_name) version app_spec)
                           (appUpdate P ("app-" +:+ app_name) version app_spec);
           mret (Some app_id))
          (fun e => match e with
                    | DXAPIError name _ =>
                        if bool_decide (name = "InvalidState") then mret None
                        else raise e
                    | _ => raise e
                    end).

(** [_create_or_update_version] *)
Definition _create_or_update_version (app_name : string) (version : json)
    (app_spec : object) (try_update : bool) : M W (option string) :=
  catch (app_id ← invoke (AppNew app_spec) (appNew P app_spec);
         mret (Some app_id))
        (fun e => match e with
                  | DXAPIError name msg =>
                      if bool_decide (name = "InvalidInput")
                         && bool_decide (msg = alias_conflict_msg) then
                        app_describe ← invoke (AppDescribe ("app-" +:+ app_name) version)
                                              (appDescribe P ("app-" +:+ app_name) version);
                        if bool_decide (0 < get_published app_describe) then mret None
                        else _update_version app_name version app_spec try_update
                      else raise e
                  | _ => raise e
                  end).

(** The message of the [else] of the [for] loop of [create_app]. *)
Definition tried_versions (try_versions : list json) : outcome string :=
  if negb (bool_decide (List.length try_versions = 1%nat)) then
    versions ← strings_of try_versions;
    Ret ("any of the requested versions: " +:+ join ", " versions)
  else
    match try_versions with
    | JStr version :: _ => Ret ("the requested version: " +:+ version)
    | _ :: _ => Raise (PyError "TypeError" "cannot concatenate 'str' and a non-string")
    | [] => Raise (PyError "IndexError" "list index out of range")
    end.

(** The probe that opens each round of the loop: [None] when the app does
    not exist ([ResourceNotFound]). *)
Definition probe_version (app_name : string) (version : json)
  : M W (option app_description) :=
  catch (app_describe ← invoke (AppDescribe ("app-" +:+ app_name) version)
                               (appDescribe P ("app-" +:+ app_name) version);
         mret (Some app_describe))
        (fun e => match e with
                  | DXAPIError name _ =>
                      if bool_decide (name = "ResourceNotFound") then mret None
                      else raise e
                  | _ => raise e
                  end).

(** The [for version in try_versions: .. else: ..] of [create_app], over
    the versions still [todo].  [app_name] is [app_spec["name"]], which
    [create_app] has set to a string.  It answers the [app_id] and the spec
    as the loop leaves it. *)
Fixpoint try_each_version (app_name : string) (try_update : bool)
    (try_versions todo : list json) (app_spec : object) : M W (string * object) :=
  match todo with
  | [] =>
      lift (tried ← tried_versions try_versions;
            Raise (EnvironmentError ("Could not create " +:+ tried)))
  | version :: rest =>
      let app_spec := <["version" := version]> app_spec in
      app_describe ← probe_version app_name version;
      match app_describe with
      | None =>
          app_id ← _create_or_update_version app_name version app_spec try_update;
          match app_id with
          | None => try_each_version app_name try_update try_versions rest app_spec
          | Some app_id => mret (app_id, app_spec)
          end
      | Some app_describe =>
          if bool_decide (get_published app_describe = 0) then
            app_id ← _update_version app_name version app_spec try_update;
            match app_id with
            | None => try_each_version app_name try_update try_versions rest app_spec
            | Some app_id => mret (app_id, app_spec)
            end
          else try_each_version app_name try_update try_versions rest app_spec
      end
  end.

(** [if "k" in applet_desc["properties"]: app_spec["k"] = ..] *)
Definition copy_property (key : string) (applet_desc : applet_description)
    (app_spec : object) : object :=
  copy_key key (ad_properties applet_desc) app_spec.

(** What [create_app] writes to the spec before the loop.  [billTo] is
    tested for truth: [None] and the empty string are false. *)
Definition fill_app_spec (applet_id : string) (applet_desc : applet_description)
    (billTo : option string) (app_spec : object) : object :=
  let app_spec := <["applet" := JStr applet_id]> app_spec in
  let app_spec := <["name" := JStr (ad_name applet_desc)]> app_spec in
  let app_spec := copy_property "title" applet_desc app_spec in
  let app_spec := copy_property "summary" applet_desc app_spec in
  let app_spec := copy_property "description" applet_desc app_spec in
  match billTo with
  | Some b => if bool_decide (b = "") then app_spec else <["billTo" := JStr b]> app_spec
  | None => app_spec
  end.

(** What [create_app] does once a version is secured. *)
Definition finish_app (app_id : string) (app_spec : object) (publish set_default : bool)
  : M W string :=
  _ ← match app_spec !! "categories" with
      | Some categories =>
          invoke (AppAddCategories app_id categories) (appAddCategories P app_id categories)
      | None => mret tt
      end;
  _ ← (if publish then invoke (AppPublish app_id set_default)
                              (appPublish P app_id set_default)
       else mret tt);
  mret app_id.

(** [create_app].  [try_versions] is tested for truth: [None] and the empty
    list are false. *)
Definition create_app (applet_id src_dir : string) (publish set_default : bool)
    (billTo : option string) (try_versions : list json) (try_update : bool)
  : M W string :=
  app_spec ← lift (_get_app_spec src_dir);
  applet_desc ← invoke (AppletDescribe applet_id) (applet_describe P applet_id);
  let app_spec := fill_app_spec applet_id applet_desc billTo app_spec in
  try_versions ← lift (match try_versions with
                       | [] => version ← getitem app_spec "version"; Ret [version]
                       | _ => Ret try_versions
                       end);
  created ← try_each_version (ad_name applet_desc) try_update try_versions try_versions
                             app_spec;
  finish_app created.1 created.2 publish set_default.

End app_builder.

(** ** cli/org.py: membership commands *)

Section org.
Context {W : Type} (P : Platform W) (L : Local).

(** [get_org_invite_args] *)
Definition get_org_invite_args (args : org_args) : org_invite_args :=
  {| invitee := "user-" +:+ username args;
     inv_level := level args;
     inv_allowBillableActivities :=
       match set_bill_to args with
       | Some true => true
       | _ => allow_billable_activities args
       end;
     inv_appAccess := app_access args;
     inv_projectAccess := project_access args;
     inv_suppressEmailNotification := no_email args |}.

(** [add_membership].  The [try] has a bare [except: pass] and an [else]
    that raises: [member] tells which of the two ran. *)
Definition add_membership (args : org_args) : M W unit :=
  member ← catch (_ ← invoke (OrgGetMemberAccess (org_id args) ("user-" +:+ username args))
                             (org_get_member_access P (org_id args)
                                                    ("user-" +:+ username args));
                  mret true)
                 (fun _ => mret false);
  if (member : bool) then
    raise (DXCLIError "Cannot add a user who is already a member of the org")
  else
    _ ← invoke (OrgInvite (org_id args) (get_org_invite_args args))
               (org_invite P (org_id args) (get_org_invite_args args));
    if brief args then log (Print ("org-" +:+ org_id args))
    else log (Print (fill L ("Invited user-" +:+ username args +:+ " to " +:+ org_id args))).

(** [_get_org_remove_member_args] *)
Definition _get_org_remove_member_args (args : org_args) : org_remove_member_args :=
  {| rm_user := "user-" +:+ username args;
     rm_revokeProjectPermissions := revoke_project_permissions args;
     rm_revokeAppPermissions := revoke_app_permissions args |}.

Definition removal_warning (args : org_args) : string :=
  "WARNING: About to remove user-" +:+ username args +:+ " from " +:+ org_id args
    +:+ "; project permissions will"
    +:+ (if revoke_project_permissions args then "" else " not")
    +:+ " be removed and app permissions will"
    +:+ (if revoke_app_permissions args then "" else " not")
    +:+ " be removed".

(** [for k in ks: print("\t" + k)], or [print("\tNone")] when there is none. *)
Fixpoint print_each (ks : list string) : M W unit :=
  match ks with
  | [] => mret tt
  | k :: rest => _ ← log (Print (String "009"%char k)); print_each rest
  end.

Definition print_keys (ks : list string) : M W unit :=
  if negb (bool_decide (List.length ks = 0%nat)) then print_each ks
  else log (Print (String "009"%char "None")).

(** [remove_membership] *)
Definition remove_membership (args : org_args) : M W unit :=
  _ ← invoke (OrgGetMemberAccess (org_id args) ("user-" +:+ username args))
             (org_get_member_access P (org_id args) ("user-" +:+ username args));
  let confirmed := negb (confirm args) in
  confirmed ← (if negb confirmed then
                 _ ← log (Print (fill L (removal_warning args)));
                 yes ← invoke (PromptForYN "Please confirm")
                              (prompt_for_yn P "Please confirm");
                 if (yes : bool) then mret true else mret confirmed
               else mret confirmed);
  if (confirmed : bool) then
    result ← invoke (OrgRemoveMember (org_id args) (_get_org_remove_member_args args))
                    (org_remove_member P (org_id args) (_get_org_remove_member_args args));
    if brief args then log (Print (res_id result))
    else
      _ ← log (Print (fill L ("Removed user-" +:+ username args +:+ " from "
                               +:+ org_id args)));
      _ ← log (Print (fill L ("Removed user-" +:+ username args
                               +:+ " from the following projects:")));
      _ ← print_keys (res_projects result);
      _ ← log (Print (fill L ("Removed user-" +:+ username args
                               +:+ " from the following apps:")));
      print_keys (res_apps result)
  else
    log (Print (fill L ("Aborting removal of user-" +:+ username args +:+ " from "
                         +:+ org_id args))).

End org.

(** The constructor of a call, for reading a log without its payloads. *)
Definition call_name (c : call) : string :=
  match c with
  | NamedTemporaryFile _ => "NamedTemporaryFile"
  | Tar _ _ => "tar"
  | NewFolder _ _ => "new_folder"
  | UploadLocalFile _ _ _ => "upload_local_file"
  | FindDataObjects _ _ _ => "find_data_objects"
  | RemoveObjects _ _ => "remove_objects"
  | AppletNew _ => "appletNew"
  | AppletSetProperties _ _ _ => "appletSetProperties"
  | AppletAddTags _ _ _ => "add_tags"
  | AppletDescribe _ => "describe"
  | AppDescribe _ _ => "appDescribe"
  | AppNew _ => "appNew"
  | AppUpdate _ _ _ => "appUpdate"
  | AppAddCategories _ _ => "appAddCategories"
  | AppPublish _ _ => "appPublish"
  | OrgGetMemberAccess _ _ => "org_get_member_access"
  | OrgInvite _ _ => "org_invite"
  | OrgRemoveMember _ _ => "org_remove_member"
  | PromptForYN _ => "prompt_for_yn"
  | Print _ => "print"
  end.

(** ** A scripted platform, to run the code on *)

Module Script.

(** The answers of a platform whose world is the number of calls it has
    served. *)
Record script : Type := {
  on_tar : outcome unit;
  on_new_folder : outcome unit;
  on_upload : outcome string;
  on_find : outcome (list string);
  on_remove : outcome unit;
  on_appDescribe : json -> nat -> outcome app_description;
  on_appNew : outcome string;
  on_appUpdate : outcome string;
  on_member_access : outcome unit;
  on_prompt : outcome bool
}.

Definition served {A} (o : outcome A) (w : nat) : outcome A * nat := (o, S w).

Definition platform (k : script) : Platform nat :=
  {| named_temporary_file := fun suffix => served (Ret ("/tmp/tmpA" +:+ suffix));
     tar := fun _ _ => served (on_tar k);
     new_folder := fun _ _ => served (on_new_folder k);
     upload_local_file := fun _ _ _ => served (on_upload k);
     find_data_objects := fun _ _ _ => served (on_find k);
     remove_objects := fun _ _ => served (on_remove k);
     appletNew := fun _ => served (Ret "applet-new");
     appletSetProperties := fun _ _ _ => served (Ret tt);
     add_tags := fun _ _ _ => served (Ret tt);
     applet_describe := fun _ =>
       served (Ret {| ad_name := "myapp";
                      ad_properties := <["title" := JStr "My App"]> ∅ |});
     appDescribe := fun _ alias w => served (on_appDescribe k alias w) w;
     appNew := fun _ => served (on_appNew k);
     appUpdate := fun _ _ _ => served (on_appUpdate k);
     appAddCategories := fun _ _ => served (Ret tt);
     appPublish := fun _ _ => served (Ret tt);
     org_get_member_access := fun _ _ => served (on_member_access k);
     org_invite := fun _ _ => served (Ret tt);
     org_remove_member := fun _ _ =>
       served (Ret {| res_id := "org-acme"; res_projects := ["project-1"];
                      res_apps := [] |});
     prompt_for_yn := fun _ => served (on_prompt k) |}.

(** Every version is there and published at time 5. *)
Definition all_published : script :=
  {| on_tar := Ret tt;
     on_new_folder := Ret tt;
     on_upload := Ret "file-1";
     on_find := Ret ["applet-old"];
     on_remove := Ret tt;
     on_appDescribe := fun _ _ => Ret {| published := Some 5 |};
     on_appNew := Ret "app-1";
     on_appUpdate := Ret "app-1";
     on_member_access := Ret tt;
     on_prompt := Ret false |}.

(** A source directory ["/src/myapp"] with a manifest, a readme and a
    [resources/] holding the given entries. *)
Definition manifest : object :=
  <["name" := JStr "myapp"]>
  (<["version" := JStr "0.0.1"]>
  (<["folder" := JStr "/apps"]>
  (<["runSpec" := JObj (<["code" := JStr "main()"]> ∅)]> ∅))).

Definition machine (m : object) (resources : list string) : Local :=
  {| load_json := fun p =>
       if bool_decide (p = "/src/myapp/dxapp.json") then Ret m
       else Raise (PyError "IOError" p);
     read_file := fun p =>
       if bool_decide (p = "/src/myapp/README.md") then Ret "A demo."
       else Raise (PyError "IOError" p);
     path_exists := fun p =>
       bool_decide (p = "/src/myapp/resources") || bool_decide (p = "/src/myapp/README.md");
     listdir := fun p =>
       if bool_decide (p = "/src/myapp/resources") then Ret resources
       else Raise (PyError "OSError" p);
     abspath := fun p => Ret p;
     WORKSPACE_ID := JStr "project-0";
     API_VERSION := JStr "1.0.0";
     dxlink := fun id => JObj (<["$dnanexus_link" := JStr id]> ∅);
     py_str := fun _ => "?";
     fill := fun s => s |}.

(** The same platform, refusing the folder for lack of permission. *)
Definition folder_denied : script :=
  {| on_tar := Ret tt;
     on_new_folder := Raise (DXAPIError "PermissionDenied" "CONTRIBUTE access required");
     on_upload := Ret "file-1";
     on_find := Ret ["applet-old"];
     on_remove := Ret tt;
     on_appDescribe := fun _ _ => Ret {| published := Some 5 |};
     on_appNew := Ret "app-1";
     on_appUpdate := Ret "app-1";
     on_member_access := Ret tt;
     on_prompt := Ret false |}.

(** The same platform, with a connection that drops at the folder call. *)
Definition folder_unreachable : script :=
  {| on_tar := Ret tt;
     on_new_folder := Raise (PyError "ConnectionError" "connection reset");
     on_upload := Ret "file-1";
     on_find := Ret ["applet-old"];
     on_remove := Ret tt;
     on_appDescribe := fun _ _ => Ret {| published := Some 5 |};
     on_appNew := Ret "app-1";
     on_appUpdate := Ret "app-1";
     on_member_access := Ret tt;
     on_prompt := Ret false |}.

(** Version "1.0.0" is there and not published, the others are published;
    [appNew] meets the alias conflict. *)
Definition unpublished_1_0_0 : script :=
  {| on_tar := Ret tt;
     on_new_folder := Ret tt;
     on_upload := Ret "file-1";
     on_find := Ret [];
     on_remove := Ret tt;
     on_appDescribe := fun alias _ =>
       match alias with
       | JStr "1.0.0" => Ret {| published := None |}
       | _ => Ret {| published := Some 5 |}
       end;
     on_appNew := Raise (DXAPIError "InvalidInput" alias_conflict_msg);
     on_appUpdate := Ret "app-1";
     on_member_access := Ret tt;
     on_prompt := Ret false |}.

(** No version is there at the first look, every [appNew] meets the alias
    conflict, and a second look finds the version, not published. *)
Definition racing : script :=
  {| on_tar := Ret tt;
     on_new_folder := Ret tt;
     on_upload := Ret "file-1";
     on_find := Ret [];
     on_remove := Ret tt;
     on_appDescribe := fun _ w =>
       if bool_decide (w = 1%nat) then Raise (DXAPIError "ResourceNotFound" "no such app")
       else Ret {| published := Some 0 |};
     on_appNew := Raise (DXAPIError "InvalidInput" alias_conflict_msg);
     on_appUpdate := Ret "app-1";
     on_member_access := Ret tt;
     on_prompt := Ret false |}.

(** No version is there, and [appNew] creates it. *)
Definition fresh : script :=
  {| on_tar := Ret tt;
     on_new_folder := Ret tt;
     on_upload := Ret "file-1";
     on_find := Ret [];
     on_remove := Ret tt;
     on_appDescribe := fun _ _ => Raise (DXAPIError "ResourceNotFound" "no such app");
     on_appNew := Ret "app-1";
     on_appUpdate := Ret "app-1";
     on_member_access := Ret tt;
     on_prompt := Ret true |}.

(** The user asked about is not a member of the org. *)
Definition not_a_member : script :=
  {| on_tar := Ret tt;
     on_new_folder := Ret tt;
     on_upload := Ret "file-1";
     on_find := Ret [];
     on_remove := Ret tt;
     on_appDescribe := fun _ _ => Ret {| published := Some 5 |};
     on_appNew := Ret "app-1";
     on_appUpdate := Ret "app-1";
     on_member_access := Raise (DXAPIError "ResourceNotFound" "not a member");
     on_prompt := Ret false |}.

(** [dx remove member org-acme alice], confirmation required. *)
Definition alice : org_args :=
  {| org_id := "org-acme";
     username := "alice";
     level := "MEMBER";
     set_bill_to := None;
     allow_billable_activities := false;
     app_access := true;
     project_access := "CONTRIBUTE";
     no_email := false;
     brief := false;
     confirm := true;
     revoke_project_permissions := true;
     revoke_app_permissions := false |}.

(** A manifest that already depends on a fork of the toolkit. *)
Definition forked_dep : json :=
  JObj (<["name" := JStr "my-toolkit"]> (<["url" := JStr dx_toolkit_url]> ∅)).

Definition other_dep : json := JObj (<["name" := JStr "samtools"]> ∅).

Definition run_spec_with (deps : list json) : object :=
  <["code" := JStr "main()"]> (<["execDepends" := JArr deps]> ∅).

Definition manifest_with (deps : list json) : object :=
  <["name" := JStr "myapp"]> (<["runSpec" := JObj (run_spec_with deps)]> ∅).

(** A manifest without ['runSpec']. *)
Definition bare_manifest : object := <["name" := JStr "myapp"]> ∅.

Definition start : state nat := {| world := 0%nat; trace := [] |}.

End Script.



(** ** Vocabulary for what a run sends *)

(** [issues_all Q m]: from every state, every call a run of [m] issues
    satisfies [Q]. *)
Definition issues_all {W A} (Q : call -> Prop) (m : M W A) : Prop :=
  forall s, exists new, new_calls s (m s).2 new /\ Forall Q new.

(** [sends m s c]: the run of [m] from [s] issues the call [c]. *)
Definition sends {W A} (m : M W A) (s : state W) (c : call) : Prop :=
  exists new, new_calls s (m s).2 new /\ c ∈ new.


(** The calls about apps, as opposed to applets and files. *)
Definition is_app_call (c : call) : bool :=
  match c with
  | AppDescribe _ _ | AppNew _ | AppUpdate _ _ _ | AppAddCategories _ _
  | AppPublish _ _ => true
  | _ => false
  end.

Definition is_search (c : call) : bool :=
  match c with FindDataObjects _ _ _ => true | _ => false end.

(** ** A second source directory, to run the overrides on *)

Module Fixture.

(** A manifest that leaves the name, the project, the description and the
    contact URL to [upload_applet], and names its code by file. *)
Definition manifest : object :=
  <["title" := JStr "My App"]>
  (<["categories" := JArr [JStr "Import"]]>
  (<["details" := JObj (<["upstreamUrl" := JStr "http://example.org"]> ∅)]>
  (<["runSpec" :=
       JObj (<["file" := JStr "main.py"]>
            (<["interpreter" := JStr "python2.7"]>
            (<["bundledDepends" := JArr [JStr "lib-1"]]>
            (<["execDepends" := JArr [Script.other_dep]]> ∅))))]> ∅))).

(** ["/src/myapp"] holding that manifest, [main.py] and the readme of the
    given name; [abs] is [os.path.abspath]. *)
Definition machine (readme : string) (abs : string -> outcome string) : Local :=
  {| load_json := fun p =>
       if bool_decide (p = "/src/myapp/dxapp.json") then Ret manifest
       else Raise (PyError "IOError" p);
     read_file := fun p =>
       if bool_decide (p = "/src/myapp/main.py") then Ret "main()"
       else if bool_decide (p = "/src/myapp/" +:+ readme) then Ret "A demo."
       else Raise (PyError "IOError" p);
     path_exists := fun p => bool_decide (p = "/src/myapp/" +:+ readme);
     listdir := fun p => Raise (PyError "OSError" p);
     abspath := abs;
     WORKSPACE_ID := JStr "project-0";
     API_VERSION := JStr "1.0.0";
     dxlink := fun id => JObj (<["$dnanexus_link" := JStr id]> ∅);
     py_str := fun _ => "?";
     fill := fun s => s |}.

Definition here : Local := machine "Readme.md" Ret.

Definition uploaded : option (list json) := Some [bundle here "file-1"].

(** The build of that directory over the applet of the same name. *)
Definition build_run : M nat string :=
  upload_applet (Script.platform Script.all_published) here "/src/myapp" uploaded
                true true None true.

(** The spec that build creates: its third call. *)
Definition sent : object :=
  match trace (build_run Script.start).2 !! 2%nat with
  | Some (AppletNew spec) => spec
  | _ => ∅
  end.

End Fixture.

(** ** The remote errors [create_app] recovers from *)

(** [e.name == 'ResourceNotFound'] for a [DXAPIError]. *)
Definition not_found (e : exn) : bool :=
  match e with
  | DXAPIError name _ => bool_decide (name = "ResourceNotFound")
  | _ => false
  end.

(** [e.name == 'InvalidInput' and e.msg == 'Specified name and version ..'] *)
Definition alias_conflict (e : exn) : bool :=
  match e with
  | DXAPIError name msg =>
      bool_decide (name = "InvalidInput") && bool_decide (msg = alias_conflict_msg)
  | _ => false
  end.

(** [e.name == 'InvalidState'] for a [DXAPIError]. *)
Definition invalid_state (e : exn) : bool :=
  match e with
  | DXAPIError name _ => bool_decide (name = "InvalidState")
  | _ => false
  end.

(** The candidates [create_app] tries: [try_versions], or the manifest's
    version when there is none. *)
Definition candidates (manifest : object) (try_versions : list json) : list json :=
  match try_versions with
  | [] => match manifest !! "version" with Some version => [version] | None => [] end
  | _ => try_versions
  end.

(** ** More scripted platforms, for the version loop *)

Module Versions.

(** A platform answering the probes, [appNew] and [appUpdate] as given. *)
Definition answering (describe : json -> nat -> outcome app_description)
    (new update : outcome string) : Script.script :=
  {| Script.on_tar := Ret tt;
     Script.on_new_folder := Ret tt;
     Script.on_upload := Ret "file-1";
     Script.on_find := Ret [];
     Script.on_remove := Ret tt;
     Script.on_appDescribe := describe;
     Script.on_appNew := new;
     Script.on_appUpdate := update;
     Script.on_member_access := Ret tt;
     Script.on_prompt := Ret true |}.

Definition conflict : outcome string :=
  Raise (DXAPIError "InvalidInput" alias_conflict_msg).

(** The version is there, not published, and published by someone else
    before the update arrives. *)
Definition published_meanwhile : Script.script :=
  answering (fun _ _ => Ret {| published := None |}) conflict
            (Raise (DXAPIError "InvalidState" "already published")).

(** The probe is refused. *)
Definition forbidden : Script.script :=
  answering (fun _ _ => Raise (DXAPIError "PermissionDenied" "not a developer"))
            (Ret "app-1") (Ret "app-1").

(** The version is not there, and the spec is refused. *)
Definition rejecting : Script.script :=
  answering (fun _ _ => Raise (DXAPIError "ResourceNotFound" "no such app"))
            (Raise (DXAPIError "InvalidInput" "runSpec is missing")) (Ret "app-1").

(** What the applet describe of the scripted platforms answers. *)
Definition myapp : applet_description :=
  {| ad_name := "myapp"; ad_properties := <["title" := JStr "My App"]> ∅ |}.

(** A publication on the platform where nothing is there yet. *)
Definition fresh_run : M nat string :=
  create_app (Script.platform Script.fresh) (Script.machine Script.manifest [])
             "applet-1" "/src/myapp" true false None [] true.

(** The spec that publication creates: its third call. *)
Definition sent : object :=
  match trace (fresh_run Script.start).2 !! 2%nat with
  | Some (AppNew spec) => spec
  | _ => ∅
  end.

End Versions.

Definition is_print (c : call) : bool :=
  match c with Print _ => true | _ => false end.

(** What [remove_membership] asks before it removes. *)
Definition confirmation (L : Local) (args : org_args) : list call :=
  if confirm args then [Print (fill L (removal_warning args)); PromptForYN "Please confirm"]
  else [].

(** * The rest of the two files

    [build] of [app_builder.py] and the membership update and org search of
    [cli/org.py] issue calls that are not among [call].  They run in the same
    monad, over a world that holds the platform's world and the log of what
    they issue; the calls already listed are logged there under [Base]. *)

From stdpp Require pretty.

Inductive wide_call : Type :=
| Base (c : call)
| CheckCall (argv : list string)                        (* subprocess.check_call *)
| OrgSetMemberAccess (org : string) (input : object)    (* dxpy.api.org_set_member_access *)
| FindOrgs (query : object).                            (* dxpy.find_orgs *)

Record logged (W : Type) : Type := { platform_world : W; issued : list wide_call }.
Arguments platform_world {W} _.
Arguments issued {W} _.

(** The operations behind the three new calls.  [org_set_member_access]
    answers the ['id'] of its result, [find_orgs] the hashes it yields. *)
Record WidePlatform (W : Type) : Type := {
  check_call : list string -> W -> outcome unit * W;
  org_set_member_access : string -> object -> W -> outcome string * W;
  find_orgs_results : object -> W -> outcome (list object) * W
}.
Arguments check_call {W} _ _ _.
Arguments org_set_member_access {W} _ _ _ _.
Arguments find_orgs_results {W} _ _ _.

(** Issue [c], answered by [f], and log it in the wide log. *)
Definition wide_invoke {W A} (c : wide_call) (f : W -> outcome A * W) : M (logged W) A :=
  fun s => let (r, w) := f (platform_world (world s)) in
           (r, {| world := {| platform_world := w; issued := issued (world s) ++ [c] |};
                  trace := trace s |}).

(** [print(line)] *)
Definition wide_print {W} (line : string) : M (logged W) unit :=
  fun s => (Ret tt, {| world := {| platform_world := platform_world (world s);
                                   issued := issued (world s) ++ [Base (Print line)] |};
                       trace := trace s |}).

(** ** app_builder.py: [build] *)

(** What [build] asks the file system, and [NUM_CORES]. *)
Record BuildEnv : Type := {
  isfile : string -> bool;          (* os.path.isfile *)
  is_executable : string -> bool;   (* os.access(path, os.X_OK) *)
  NUM_CORES : nat                   (* multiprocessing.cpu_count() *)
}.

Section build.
Context {W : Type} (Q : WidePlatform W) (E : BuildEnv).

Definition has_makefile (src_dir : string) : bool :=
  isfile E (path_join src_dir "Makefile")
  || isfile E (path_join src_dir "makefile")
  || isfile E (path_join src_dir "GNUmakefile").

Definition make_command (src_dir : string) : list string :=
  ["make"; "-C"; src_dir; "-j" +:+ stdpp.pretty.pretty (NUM_CORES E)].

(** [build] *)
Definition build (src_dir : string) : M (logged W) unit :=
  let config_script := path_join src_dir "configure" in
  _ ← (if isfile E config_script && is_executable E config_script then
         wide_invoke (CheckCall [config_script]) (check_call Q [config_script])
       else mret tt);
  if has_makefile src_dir then
    wide_invoke (CheckCall (make_command src_dir)) (check_call Q (make_command src_dir))
  else mret tt.

End build.

(** ** cli/org.py: [update_membership] and [find_orgs] *)

(** The namespace of [dx update member]: the three flags are [None] or the
    text given on the command line. *)
Record access_args : Type := {
  ua_org_id : string;
  ua_username : string;
  ua_level : string;
  ua_allow_billable_activities : option string;
  ua_app_access : option string;
  ua_project_access : option string;
  ua_brief : bool
}.

(** The namespace of [dx find orgs]. *)
Record find_orgs_args : Type := {
  fo_level : string;
  fo_with_billable_activities : option bool;
  fo_brief : bool;
  fo_json : bool;
  fo_delimiter : option string
}.

(** What [find_orgs] prints with: [json.dumps] and
    [dxpy.utils.printing.DELIMITER]. *)
Record Printing : Type := {
  json_dumps : list object -> string;
  DELIMITER : string -> string
}.

(** [True if x == "true" else False] *)
Definition is_true_text (x : string) : json := JBool (bool_decide (x = "true")).

(** [_get_org_set_member_access_args] *)
Definition _get_org_set_member_access_args (args : access_args) : object :=
  let user_id := "user-" +:+ ua_username args in
  let entry : object := <["level" := JStr (ua_level args)]> ∅ in
  let entry :=
    match ua_allow_billable_activities args with
    | Some x => <["allowBillableActivities" := is_true_text x]> entry
    | None => entry
    end in
  let entry :=
    match ua_app_access args with
    | Some x => <["appAccess" := is_true_text x]> entry
    | None => entry
    end in
  let entry :=
    match ua_project_access args with
    | Some x => <["projectAccess" := JStr x]> entry
    | None => entry
    end in
  <[user_id := JObj entry]> ∅.

(** [_get_find_orgs_args] *)
Definition _get_find_orgs_args (args : find_orgs_args) : object :=
  let find_orgs_input : object := <["level" := JStr (fo_level args)]> ∅ in
  let find_orgs_input :=
    match fo_with_billable_activities args with
    | Some b => <["allowBillableActivities" := JBool b]> find_orgs_input
    | None => find_orgs_input
    end in
  let find_orgs_input :=
    if negb (fo_brief args) then <["describe" := JBool true]> find_orgs_input
    else find_orgs_input in
  <["query" := JObj find_orgs_input]> ∅.

Section org_admin.
Context {W : Type} (P : Platform W) (Q : WidePlatform W) (L : Local) (R : Printing).

(** [update_membership] *)
Definition update_membership (args : access_args) : M (logged W) unit :=
  let user := "user-" +:+ ua_username args in
  _ ← wide_invoke (Base (OrgGetMemberAccess (ua_org_id args) user))
                  (org_get_member_access P (ua_org_id args) user);
  result_id ← wide_invoke
                (OrgSetMemberAccess (ua_org_id args) (_get_org_set_member_access_args args))
                (org_set_member_access Q (ua_org_id args)
                                       (_get_org_set_member_access_args args));
  if ua_brief args then wide_print result_id
  else wide_print (fill L ("Updated membership of user-" +:+ ua_username args +:+ " in "
                             +:+ ua_org_id args)).

(** [for res in res_iter: print(res["id"])] *)
Fixpoint print_ids (results : list object) : M (logged W) unit :=
  match results with
  | [] => mret tt
  | res :: rest =>
      id ← lift (getitem res "id");
      _ ← wide_print (format_s L id);
      print_ids rest
  end.

(** [res["describe"]["name"]] *)
Definition described_name (res : object) : outcome json :=
  describe ← getitem res "describe";
  match describe with
  | JObj d => getitem d "name"
  | _ => Raise (PyError "TypeError" "indices must be integers")
  end.

(** The text line of one result: the id, the delimiter, the name. *)
Definition org_line (args : find_orgs_args) (res : object) : outcome string :=
  o ← getitem res "id";
  let d1 := match fo_delimiter args with
            | Some d => if bool_decide (d = "") then " : " else DELIMITER R d
            | None => " : "
            end in
  n ← described_name res;
  Ret (format_s L o +:+ d1 +:+ format_s L n).

Fixpoint print_lines (args : find_orgs_args) (results : list object) : M (logged W) unit :=
  match results with
  | [] => mret tt
  | res :: rest =>
      line ← lift (org_line args res);
      _ ← wide_print line;
      print_lines args rest
  end.

(** [find_orgs]; the search is one call answering what the iterator yields. *)
Definition find_orgs (args : find_orgs_args) : M (logged W) unit :=
  query ← lift (match _get_find_orgs_args args !! "query" with
                | Some (JObj query) => Ret query
                | _ => Raise (PyError "KeyError" "query")
                end);
  results ← wide_invoke (FindOrgs query) (find_orgs_results Q query);
  if fo_json args then wide_print (json_dumps R results)
  else if fo_brief args then print_ids results
  else print_lines args results.

End org_admin.

(** ** A scripted platform for the org administration *)

Module Admin.

Definition acme : object :=
  <["id" := JStr "org-acme"]> (<["describe" := JObj (<["name" := JStr "Acme"]> ∅)]> ∅).

Definition beta : object :=
  <["id" := JStr "org-beta"]> (<["describe" := JObj (<["name" := JStr "Beta"]> ∅)]> ∅).

Definition wide : WidePlatform nat :=
  {| check_call := fun _ w => (Ret tt, S w);
     org_set_member_access := fun _ _ w => (Ret "org-acme", S w);
     find_orgs_results := fun _ w => (Ret [acme; beta], S w) |}.

Definition printing : Printing :=
  {| json_dumps := fun results => "[..]"; DELIMITER := fun d => d |}.

(** [dx update member org-acme bob ADMIN --allow-billable-activities True
    --app-access true --brief] *)
Definition bob : access_args :=
  {| ua_org_id := "org-acme";
     ua_username := "bob";
     ua_level := "ADMIN";
     ua_allow_billable_activities := Some "True";
     ua_app_access := Some "true";
     ua_project_access := None;
     ua_brief := true |}.

(** [dx find orgs --level ADMIN] *)
Definition search : find_orgs_args :=
  {| fo_level := "ADMIN";
     fo_with_billable_activities := None;
     fo_brief := false;
     fo_json := false;
     fo_delimiter := None |}.

Definition start : state (logged nat) :=
  {| world := {| platform_world := 0%nat; issued := [] |}; trace := [] |}.

(** ["/src/myapp"] with an executable [configure] and a [GNUmakefile], on a
    machine with four cores. *)
Definition autotools : BuildEnv :=
  {| isfile := fun p =>
       bool_decide (p = "/src/myapp/configure") || bool_decide (p = "/src/myapp/GNUmakefile");
     is_executable := fun p => bool_decide (p = "/src/myapp/configure");
     NUM_CORES := 4 |}.

End Admin.

(** * Properties *)

(** ** Running the monad *)

Section monad_facts.
Context {W : Type}.
Implicit Types s : state W.

Lemma run_bind {A B} (m : M W A) (k : A -> M W B) s :
  (m ≫= k) s = match m s with
               | (Ret a, s') => k a s'
               | (Raise e, s') => (Raise e, s')
               end.
Proof. reflexivity. Qed.

Lemma run_lift_ret {A B} (o : outcome A) (a : A) (k : A -> M W B) s :
  o = Ret a -> (lift o ≫= k) s = k a s.
Proof. intros ->. reflexivity. Qed.

Lemma run_lift_raise {A B} (o : outcome A) (e : exn) (k : A -> M W B) s :
  o = Raise e -> (lift o ≫= k) s = (Raise e, s).
Proof. intros ->. reflexivity. Qed.

Lemma run_invoke {A} (c : call) (f : W -> outcome A * W) s :
  invoke c f s = ((f (world s)).1,
                  {| world := (f (world s)).2; trace := trace s ++ [c] |}).
Proof. unfold invoke. destruct (f (world s)); reflexivity. Qed.

End monad_facts.

Lemma new_calls_refl {W} (s : state W) : new_calls s s [].
Proof. unfold new_calls. by rewrite app_nil_r. Qed.

Lemma new_calls_trans {W} (s1 s2 s3 : state W) l1 l2 :
  new_calls s1 s2 l1 -> new_calls s2 s3 l2 -> new_calls s1 s3 (l1 ++ l2).
Proof. unfold new_calls. intros H1 H2. by rewrite H2, H1, app_assoc. Qed.

Lemma new_calls_invoke {W A} (c : call) (f : W -> outcome A * W) (s : state W) :
  new_calls s (invoke c f s).2 [c].
Proof. rewrite run_invoke. reflexivity. Qed.

(** ** The model at work *)

Example path_join_cases :
  path_join "/src/myapp" "dxapp.json" = "/src/myapp/dxapp.json"
  /\ path_join "/src/myapp/" "resources" = "/src/myapp/resources"
  /\ path_join "" "README.md" = "README.md"
  /\ path_join "/src/myapp" "/opt/main.py" = "/opt/main.py".
Proof. repeat split. Qed.

Example basename_cases :
  basename "/src/myapp" = "myapp" /\ basename "myapp" = "myapp" /\ basename "/src/" = "".
Proof. repeat split. Qed.

Example join_cases :
  join ", " ["1.0.0"; "1.0.1"; "2.0.0"] = "1.0.0, 1.0.1, 2.0.0" /\ join ", " ["1.0.0"] = "1.0.0".
Proof. split; reflexivity. Qed.

(** A whole build: resources are uploaded, then the applet replaces the one of
    the same name. *)
Example upload_applet_run :
  let P := Script.platform Script.all_published in
  let L := Script.machine Script.manifest ["lib"] in
  let uploaded := upload_resources P L "/src/myapp" None Script.start in
  let created := upload_applet P L "/src/myapp" (default None (match uploaded.1 with
                                                               | Ret r => Some r
                                                               | Raise _ => None
                                                               end))
                               true true None true uploaded.2 in
  created.1 = Ret "applet-new"
  /\ call_name <$> trace created.2
     = ["NamedTemporaryFile"; "tar"; "new_folder"; "upload_local_file";
        "find_data_objects"; "remove_objects"; "appletNew"; "appletSetProperties"].
Proof. split; vm_compute; reflexivity. Qed.

(** A version that is not there yet is created, never updated. *)
Example create_app_fresh :
  let run := create_app (Script.platform Script.fresh) (Script.machine Script.manifest [])
                        "applet-1" "/src/myapp" true false None [] true Script.start in
  run.1 = Ret "app-1"
  /\ call_name <$> trace run.2 = ["describe"; "appDescribe"; "appNew"; "appPublish"].
Proof. split; vm_compute; reflexivity. Qed.

(** A version that is there and not published is updated, never created. *)
Example create_app_unpublished :
  let run := create_app (Script.platform Script.unpublished_1_0_0)
                        (Script.machine Script.manifest []) "applet-1" "/src/myapp" false
                        false None [JStr "1.0.0"] true Script.start in
  run.1 = Ret "app-1" /\ call_name <$> trace run.2 = ["describe"; "appDescribe"; "appUpdate"].
Proof. split; vm_compute; reflexivity. Qed.

(** ** Spec loading *)

Section spec_loading.
Context {W : Type} (P : Platform W) (L : Local).

Lemma get_applet_spec_missing_runSpec src_dir manifest :
  load_json L (path_join src_dir "dxapp.json") = Ret manifest ->
  manifest !! "runSpec" = None ->
  _get_applet_spec L src_dir = Raise missing_runSpec.
Proof.
  intros Hload Hnone. unfold _get_applet_spec. rewrite Hload. simpl.
  unfold _validate_applet_spec, has_key. rewrite Hnone. reflexivity.
Qed.

(** C4: a manifest without ['runSpec'] makes applet spec loading raise the
    configuration error, and both upload functions raise it in the state
    they were started in: the log of calls is untouched, so nothing was
    sent to the platform. *)
Theorem missing_runSpec_raises_before_any_call
    (src_dir : string) (manifest : object) (s : state W)
    (uploaded_resources : option (list json)) (check_name_collisions overwrite : bool)
    (project : option string) (dx_toolkit_autodep : bool) :
  load_json L (path_join src_dir "dxapp.json") = Ret manifest ->
  manifest !! "runSpec" = None ->
  _get_applet_spec L src_dir = Raise missing_runSpec
  /\ upload_resources P L src_dir project s = (Raise missing_runSpec, s)
  /\ upload_applet P L src_dir uploaded_resources check_name_collisions overwrite
                   project dx_toolkit_autodep s = (Raise missing_runSpec, s).
Proof.
  intros Hload Hnone.
  pose proof (get_applet_spec_missing_runSpec _ _ Hload Hnone) as Hspec.
  split; [exact Hspec|].
  split.
  - unfold upload_resources. by apply run_lift_raise.
  - unfold upload_applet. apply run_lift_raise.
    unfold prepare_spec. by rewrite Hspec.
Qed.

End spec_loading.

Lemma missing_runSpec_raises_before_any_call_witness :
  _get_applet_spec (Script.machine Script.bare_manifest []) "/src/myapp" = Raise missing_runSpec
  /\ upload_resources (Script.platform Script.all_published)
       (Script.machine Script.bare_manifest [])
       "/src/myapp" None Script.start = (Raise missing_runSpec, Script.start)
  /\ upload_applet (Script.platform Script.all_published) (Script.machine Script.bare_manifest [])
       "/src/myapp" None true false None true Script.start
     = (Raise missing_runSpec, Script.start).
Proof.
  apply (missing_runSpec_raises_before_any_call
           (Script.platform Script.all_published) (Script.machine Script.bare_manifest [])
           "/src/myapp" Script.bare_manifest).
  - vm_compute. reflexivity.
  - vm_compute. reflexivity.
Defined.

(** ** Resource packaging *)

Section resource_packaging.
Context {W : Type} (P : Platform W) (L : Local).

Lemma get_applet_spec_loads src_dir manifest :
  load_json L (path_join src_dir "dxapp.json") = Ret manifest ->
  has_key manifest "runSpec" = true ->
  _get_applet_spec L src_dir
  = Ret (if has_key manifest "project" then manifest
         else <["project" := WORKSPACE_ID L]> manifest).
Proof.
  intros Hload Hrun. unfold _get_applet_spec. rewrite Hload. simpl.
  unfold _validate_applet_spec. rewrite Hrun. simpl.
  by destruct (has_key manifest "project").
Qed.

Lemma resolve_project_defined src_dir manifest project :
  load_json L (path_join src_dir "dxapp.json") = Ret manifest ->
  has_key manifest "runSpec" = true ->
  exists applet_spec applet_spec',
    _get_applet_spec L src_dir = Ret applet_spec
    /\ resolve_project applet_spec project
       = Ret (destination L manifest project, applet_spec')
    /\ applet_spec' !! "folder" = manifest !! "folder".
Proof.
  intros Hload Hrun. rewrite (get_applet_spec_loads _ _ Hload Hrun).
  unfold has_key, destination, resolve_project, getitem.
  destruct project as [p|], (manifest !! "project") as [v|] eqn:E; simpl.
  - exists manifest, (<["project" := JStr p]> manifest).
    by rewrite lookup_insert_ne.
  - exists (<["project" := WORKSPACE_ID L]> manifest),
           (<["project" := JStr p]> (<["project" := WORKSPACE_ID L]> manifest)).
    by rewrite !lookup_insert_ne.
  - exists manifest, manifest. by rewrite E.
  - exists (<["project" := WORKSPACE_ID L]> manifest),
           (<["project" := WORKSPACE_ID L]> manifest).
    by rewrite lookup_insert_eq, lookup_insert_ne.
Qed.

Lemma upload_resources_run src_dir manifest project (s : state W) :
  load_json L (path_join src_dir "dxapp.json") = Ret manifest ->
  has_key manifest "runSpec" = true ->
  exists applet_spec,
    applet_spec !! "folder" = manifest !! "folder"
    /\ upload_resources P L src_dir project s
       = match resources_present L (path_join src_dir "resources") with
         | Ret true =>
             package_resources P L (path_join src_dir "resources")
                               (destination L manifest project) applet_spec s
         | Ret false => (Ret None, s)
         | Raise e => (Raise e, s)
         end.
Proof.
  intros Hload Hrun.
  destruct (resolve_project_defined _ _ project Hload Hrun) as (a & a' & H1 & H2 & H3).
  exists a'. split; [exact H3|].
  unfold upload_resources.
  rewrite (run_lift_ret _ _ _ _ H1), (run_lift_ret _ _ _ _ H2). simpl.
  rewrite run_bind. unfold lift.
  by destruct (resources_present L _) as [[]|].
Qed.

Lemma resources_present_absent resources_dir :
  path_exists L resources_dir = false \/ listdir L resources_dir = Ret [] ->
  resources_present L resources_dir = Ret false.
Proof.
  unfold resources_present. intros [-> | ->]; [done|].
  by destruct (path_exists L resources_dir).
Qed.

Lemma resources_present_nonempty resources_dir entry entries :
  path_exists L resources_dir = true ->
  listdir L resources_dir = Ret (entry :: entries) ->
  resources_present L resources_dir = Ret true.
Proof.
  unfold resources_present. intros -> ->. reflexivity.
Qed.

(** The folder call never lets a [DXAPIError] out. *)
Lemma make_folder_run dest_project folder (s : state W) :
  make_folder P dest_project folder s
  = (match (new_folder P dest_project folder (world s)).1 with
     | Raise (DXAPIError _ _) => Ret tt
     | o => o
     end,
     {| world := (new_folder P dest_project folder (world s)).2;
        trace := trace s ++ [NewFolder dest_project folder] |}).
Proof.
  unfold make_folder, catch. rewrite run_invoke.
  destruct (new_folder P dest_project folder (world s)) as [[[]|[]] w]; reflexivity.
Qed.

Lemma package_resources_returns resources_dir dest_project applet_spec (s s' : state W) r :
  package_resources P L resources_dir dest_project applet_spec s = (Ret r, s') ->
  exists archive_id, r = Some [bundle L archive_id].
Proof.
  unfold package_resources. rewrite run_bind, run_invoke.
  destruct (named_temporary_file P ".tar.gz" (world s)) as [[tar_name|] w1]; simpl; [|done].
  rewrite run_bind, run_invoke. simpl.
  destruct (tar P resources_dir tar_name w1) as [[[]|] w2]; simpl; [|done].
  rewrite run_bind.
  destruct (applet_spec !! "folder") as [folder|]; simpl.
  - rewrite make_folder_run. simpl.
    destruct (new_folder P dest_project folder w2) as [[[]|[]] w3]; simpl; try done;
      rewrite run_bind, run_invoke; simpl;
      destruct (upload_local_file P tar_name dest_project folder w3) as [[id|] w4];
      simpl; try done; intros [= <- <-]; by exists id.
  - rewrite run_bind, run_invoke; simpl.
    destruct (upload_local_file P tar_name dest_project (JStr "/") w2) as [[id|] w4];
      simpl; try done; intros [= <- <-]; by exists id.
Qed.

Lemma package_resources_succeeds resources_dir dest_project applet_spec (s : state W) :
  (forall w, exists name w', named_temporary_file P ".tar.gz" w = (Ret name, w')) ->
  (forall dir out w, exists w', tar P dir out w = (Ret tt, w')) ->
  (forall file project folder w,
      exists id w', upload_local_file P file project folder w = (Ret id, w')) ->
  (forall project folder w e w',
      new_folder P project folder w = (Raise e, w') -> exists name msg, e = DXAPIError name msg) ->
  exists r s', package_resources P L resources_dir dest_project applet_spec s = (Ret r, s').
Proof.
  intros Htmp Htar Hup Hfolder.
  unfold package_resources. rewrite run_bind, run_invoke.
  destruct (Htmp (world s)) as (tar_name & w1 & ->). simpl.
  rewrite run_bind, run_invoke. simpl.
  destruct (Htar resources_dir tar_name w1) as (w2 & ->). simpl.
  rewrite run_bind.
  destruct (applet_spec !! "folder") as [folder|]; simpl.
  - rewrite make_folder_run. simpl.
    destruct (new_folder P dest_project folder w2) as [[[]|e] w3] eqn:E; simpl.
    + rewrite run_bind, run_invoke. simpl.
      destruct (Hup tar_name dest_project folder w3) as (id & w4 & ->). simpl.
      by eexists _, _.
    + destruct (Hfolder _ _ _ _ _ E) as (n & m & ->).
      rewrite run_bind, run_invoke. simpl.
      destruct (Hup tar_name dest_project folder w3) as (id & w4 & ->). simpl.
      by eexists _, _.
  - rewrite run_bind, run_invoke. simpl.
    destruct (Hup tar_name dest_project (JStr "/") w2) as (id & w4 & ->). simpl.
    by eexists _, _.
Qed.

(** C2: the manifest being loadable, [upload_resources] answers [None] and
    issues no call when [resources/] is absent or empty (so never the empty
    list); when it is there and not empty, whatever it returns is a list of
    exactly one descriptor, named ['resources.tar.gz'], and it does return
    once the archive tool and the upload do not fail. *)
Theorem upload_resources_result (src_dir : string) (project : option string)
    (manifest : object) (s : state W) :
  load_json L (path_join src_dir "dxapp.json") = Ret manifest ->
  has_key manifest "runSpec" = true ->
  let resources_dir := path_join src_dir "resources" in
  (path_exists L resources_dir = false \/ listdir L resources_dir = Ret [] ->
   upload_resources P L src_dir project s = (Ret None, s))
  /\ (forall entry entries,
        path_exists L resources_dir = true ->
        listdir L resources_dir = Ret (entry :: entries) ->
        (forall r s',
            upload_resources P L src_dir project s = (Ret r, s') ->
            exists archive_id,
              r = Some [JObj (<["name" := JStr "resources.tar.gz"]>
                              (<["id" := dxlink L archive_id]> ∅))])
        /\ ((forall w, exists name w',
                named_temporary_file P ".tar.gz" w = (Ret name, w')) ->
            (forall dir out w, exists w', tar P dir out w = (Ret tt, w')) ->
            (forall file proj folder w,
                exists id w', upload_local_file P file proj folder w = (Ret id, w')) ->
            (forall proj folder w e w',
                new_folder P proj folder w = (Raise e, w') ->
                exists name msg, e = DXAPIError name msg) ->
            exists r s', upload_resources P L src_dir project s = (Ret r, s'))).
Proof.
  intros Hload Hrun resources_dir.
  destruct (upload_resources_run src_dir manifest project s Hload Hrun)
    as (applet_spec & _ & Heq).
  fold resources_dir in Heq. rewrite Heq. clear Heq. split.
  - intros Habsent. by rewrite (resources_present_absent _ Habsent).
  - intros entry entries Hex Hls.
    rewrite (resources_present_nonempty _ _ _ Hex Hls). split.
    + intros r s' Hr. exact (package_resources_returns _ _ _ _ _ _ Hr).
    + intros. by apply package_resources_succeeds.
Qed.

(** C3, as the code has it: the manifest being loadable and [resources/]
    there and not empty, every failure of the temporary file, of the archive
    tool and of the upload reaches the caller, and so does a failure of the
    folder call that is not a [DXAPIError]; every [DXAPIError] of the folder
    call, whatever its name and message, is dropped and the upload goes
    on. *)
Theorem folder_call_drops_every_api_error (src_dir : string)
    (project : option string) (manifest : object) (entry : string)
    (entries : list string) (s : state W) :
  load_json L (path_join src_dir "dxapp.json") = Ret manifest ->
  has_key manifest "runSpec" = true ->
  let resources_dir := path_join src_dir "resources" in
  let dest_project := destination L manifest project in
  path_exists L resources_dir = true ->
  listdir L resources_dir = Ret (entry :: entries) ->
  (forall e w1,
      named_temporary_file P ".tar.gz" (world s) = (Raise e, w1) ->
      upload_resources P L src_dir project s
      = (Raise e, {| world := w1; trace := trace s ++ [NamedTemporaryFile ".tar.gz"] |}))
  /\ (forall tar_name w1,
        named_temporary_file P ".tar.gz" (world s) = (Ret tar_name, w1) ->
        let issued := [NamedTemporaryFile ".tar.gz"; Tar resources_dir tar_name] in
        (forall e w2,
            tar P resources_dir tar_name w1 = (Raise e, w2) ->
            upload_resources P L src_dir project s
            = (Raise e, {| world := w2; trace := trace s ++ issued |}))
        /\ (forall w2 folder o w3,
              tar P resources_dir tar_name w1 = (Ret tt, w2) ->
              manifest !! "folder" = Some folder ->
              new_folder P dest_project folder w2 = (o, w3) ->
              match o with
              | Raise (DXAPIError _ _) | Ret _ =>
                  upload_resources P L src_dir project s
                  = (match (upload_local_file P tar_name dest_project folder w3).1 with
                     | Ret archive_id => Ret (Some [bundle L archive_id])
                     | Raise e => Raise e
                     end,
                     {| world := (upload_local_file P tar_name dest_project folder w3).2;
                        trace := trace s ++ issued
                                   ++ [NewFolder dest_project folder;
                                       UploadLocalFile tar_name dest_project folder] |})
              | Raise e =>
                  upload_resources P L src_dir project s
                  = (Raise e,
                     {| world := w3;
                        trace := trace s ++ issued ++ [NewFolder dest_project folder] |})
              end)).
Proof.
  intros Hload Hrun resources_dir dest_project Hex Hls.
  destruct (upload_resources_run src_dir manifest project s Hload Hrun)
    as (applet_spec & Hfolder & Heq).
  fold resources_dir dest_project in Heq. rewrite Heq. clear Heq.
  rewrite (resources_present_nonempty _ _ _ Hex Hls).
  unfold package_resources. rewrite run_bind, run_invoke. split.
  - intros e w1 ->. reflexivity.
  - intros tar_name w1 ->. simpl. rewrite run_bind, run_invoke. simpl. split.
    + intros e w2 ->. simpl. by rewrite <- app_assoc.
    + intros w2 folder o w3 -> Hf Hnew. simpl.
      rewrite run_bind, Hfolder, Hf. simpl.
      rewrite make_folder_run. simpl. rewrite Hnew. simpl.
      destruct o as [[]|[]]; simpl;
        rewrite <- ?app_assoc; simpl; try reflexivity;
        rewrite run_bind, run_invoke; simpl;
        destruct (upload_local_file P tar_name dest_project folder w3) as [[id|e'] w4];
        simpl; rewrite <- ?app_assoc; reflexivity.
Qed.

End resource_packaging.

Lemma upload_resources_result_witness :
  upload_resources (Script.platform Script.all_published)
    (Script.machine Script.manifest []) "/src/myapp" None Script.start
  = (Ret None, Script.start)
  /\ exists archive_id,
      (upload_resources (Script.platform Script.all_published)
         (Script.machine Script.manifest ["lib"]) "/src/myapp" None Script.start).1
      = Ret (Some [JObj (<["name" := JStr "resources.tar.gz"]>
                         (<["id" := dxlink (Script.machine Script.manifest ["lib"]) archive_id]>
                          ∅))]).
Proof.
  split.
  - destruct (upload_resources_result (Script.platform Script.all_published)
                (Script.machine Script.manifest []) "/src/myapp" None Script.manifest
                Script.start) as [Habsent _];
      [vm_compute; reflexivity | vm_compute; reflexivity |].
    apply Habsent. right. reflexivity.
  - destruct (upload_resources_result (Script.platform Script.all_published)
                (Script.machine Script.manifest ["lib"]) "/src/myapp" None Script.manifest
                Script.start) as [_ Hpresent];
      [vm_compute; reflexivity | vm_compute; reflexivity |].
    destruct (Hpresent "lib" []) as [Hshape Hreturns]; [reflexivity | reflexivity |].
    destruct Hreturns as (r & s' & Hrun).
    + intros w. eexists _, _. reflexivity.
    + intros dir out w. eexists. reflexivity.
    + intros file proj folder w. eexists _, _. reflexivity.
    + intros proj folder w e w'. vm_compute. discriminate.
    + destruct (Hshape r s' Hrun) as [archive_id ->].
      exists archive_id. by rewrite Hrun.
Defined.

(** C3 fails as stated: the folder call is refused for lack of permission,
    which is not "already exists", and [upload_resources] returns the bundle
    all the same. *)
Lemma folder_permission_error_is_swallowed :
  new_folder (Script.platform Script.folder_denied) (JStr "project-0") (JStr "/apps") 2%nat
  = (Raise (DXAPIError "PermissionDenied" "CONTRIBUTE access required"), 3%nat)
  /\ upload_resources (Script.platform Script.folder_denied)
       (Script.machine Script.manifest ["lib"]) "/src/myapp" None Script.start
     = (Ret (Some [bundle (Script.machine Script.manifest ["lib"]) "file-1"]),
        {| world := 4%nat;
           trace := [NamedTemporaryFile ".tar.gz";
                     Tar "/src/myapp/resources" "/tmp/tmpA.tar.gz";
                     NewFolder (JStr "project-0") (JStr "/apps");
                     UploadLocalFile "/tmp/tmpA.tar.gz" (JStr "project-0") (JStr "/apps")] |}).
Proof. split; vm_compute; reflexivity. Qed.

Lemma folder_call_drops_every_api_error_witness :
  upload_resources (Script.platform Script.folder_denied)
    (Script.machine Script.manifest ["lib"]) "/src/myapp" None Script.start
  = (Ret (Some [bundle (Script.machine Script.manifest ["lib"]) "file-1"]),
     {| world := 4%nat;
        trace := [NamedTemporaryFile ".tar.gz";
                  Tar "/src/myapp/resources" "/tmp/tmpA.tar.gz";
                  NewFolder (JStr "project-0") (JStr "/apps");
                  UploadLocalFile "/tmp/tmpA.tar.gz" (JStr "project-0") (JStr "/apps")] |})
  /\ upload_resources (Script.platform Script.folder_unreachable)
       (Script.machine Script.manifest ["lib"]) "/src/myapp" None Script.start
     = (Raise (PyError "ConnectionError" "connection reset"),
        {| world := 3%nat;
           trace := [NamedTemporaryFile ".tar.gz";
                     Tar "/src/myapp/resources" "/tmp/tmpA.tar.gz";
                     NewFolder (JStr "project-0") (JStr "/apps")] |}).
Proof.
  split.
  - destruct (folder_call_drops_every_api_error (Script.platform Script.folder_denied)
                (Script.machine Script.manifest ["lib"]) "/src/myapp" None Script.manifest
                "lib" [] Script.start) as [_ Hrest];
      [vm_compute; reflexivity | vm_compute; reflexivity | reflexivity | reflexivity |].
    destruct (Hrest "/tmp/tmpA.tar.gz" 1%nat) as [_ Hfolder]; [reflexivity|].
    exact (Hfolder 2%nat (JStr "/apps") _ 3%nat eq_refl eq_refl eq_refl).
  - destruct (folder_call_drops_every_api_error (Script.platform Script.folder_unreachable)
                (Script.machine Script.manifest ["lib"]) "/src/myapp" None Script.manifest
                "lib" [] Script.start) as [_ Hrest];
      [vm_compute; reflexivity | vm_compute; reflexivity | reflexivity | reflexivity |].
    destruct (Hrest "/tmp/tmpA.tar.gz" 1%nat) as [_ Hfolder]; [reflexivity|].
    exact (Hfolder 2%nat (JStr "/apps") _ 3%nat eq_refl eq_refl eq_refl).
Defined.

(** ** Applet publication: name collisions *)

Section name_collisions.
Context {W : Type} (P : Platform W) (L : Local).

(** With [overwrite], the loop removes the ids in order and stops at the
    first removal that fails. *)
Lemma remove_all_run dest_project name ids (s : state W) :
  exists done_ids,
    new_calls s (remove_or_reject P true dest_project name ids s).2
              (removals dest_project done_ids)
    /\ ((remove_or_reject P true dest_project name ids s).1 = Ret tt -> done_ids = ids).
Proof.
  revert s. induction ids as [|id ids IH]; intros s; simpl.
  - exists []. split; [apply new_calls_refl | done].
  - rewrite run_bind, run_invoke.
    destruct (remove_objects P dest_project [id] (world s)) as [[[]|e] w1]; simpl.
    + destruct (IH {| world := w1; trace := trace s ++ [RemoveObjects dest_project [id]] |})
        as (done_ids & Hcalls & Hall).
      exists (id :: done_ids). split.
      * unfold new_calls in *. rewrite Hcalls. simpl. by rewrite <- app_assoc.
      * intros Hret. by rewrite (Hall Hret).
    + exists [id]. split; [reflexivity | done].
Qed.

Lemma create_applet_run dest_project applet_spec (s : state W) :
  exists post,
    new_calls s (create_applet P dest_project applet_spec s).2
              (AppletNew applet_spec :: post)
    /\ Forall (fun c => is_applet_new c = false) post.
Proof.
  unfold create_applet. rewrite run_bind, run_invoke.
  destruct (appletNew P applet_spec (world s)) as [[applet_id|e] w1]; simpl;
    [|by exists []].
  rewrite run_bind. unfold lift at 1.
  destruct (applet_properties applet_spec) as [properties|e]; simpl; [|by exists []].
  rewrite run_bind, run_invoke. simpl.
  destruct (appletSetProperties P applet_id dest_project properties w1) as [[[]|e] w2];
    simpl.
  - rewrite run_bind.
    destruct (applet_spec !! "categories") as [categories|]; simpl.
    + rewrite run_invoke. simpl.
      destruct (add_tags P applet_id dest_project categories w2) as [[[]|e] w3]; simpl;
        (eexists [_; _]; split;
         [unfold new_calls; simpl; by rewrite <- !app_assoc | by repeat constructor]).
    + eexists [_]. split;
        [unfold new_calls; simpl; by rewrite <- !app_assoc | by repeat constructor].
  - eexists [_]. split;
      [unfold new_calls; simpl; by rewrite <- !app_assoc | by repeat constructor].
Qed.

Lemma removals_not_create dest_project ids :
  Forall (fun c => is_applet_new c = false) (removals dest_project ids).
Proof. unfold removals. apply Forall_forall. intros c [id [-> _]]%list_elem_of_fmap. done. Qed.

(** C5: once the spec is prepared and named [name], with
    [check_name_collisions] and without [overwrite], a search that finds an
    applet makes [upload_applet] raise the naming-conflict error for the
    first id found; the search is the only call issued, so nothing is
    removed and nothing is created. *)
Theorem collision_without_overwrite (src_dir : string)
    (uploaded_resources : option (list json)) (project : option string)
    (dx_toolkit_autodep : bool) (dest_project : json) (applet_spec : object)
    (name id : string) (ids : list string) (s : state W) (w1 : W) :
  prepare_spec L src_dir project = Ret (dest_project, applet_spec) ->
  applet_spec !! "name" = Some (JStr name) ->
  find_data_objects P "applet" name dest_project (world s) = (Ret (id :: ids), w1) ->
  let search := FindDataObjects "applet" name dest_project in
  upload_applet P L src_dir uploaded_resources true false project dx_toolkit_autodep s
  = (Raise (AppletBuilderException (collision_message name id)),
     {| world := w1; trace := trace s ++ [search] |})
  /\ is_mutation search = false
  /\ is_remove_objects search = false
  /\ is_applet_new search = false.
Proof.
  intros Hprep Hname Hfind search. split; [|done].
  unfold upload_applet. rewrite (run_lift_ret _ _ _ _ Hprep). simpl.
  rewrite run_bind. unfold check_collisions, getitem. rewrite Hname.
  rewrite (run_lift_ret _ (JStr name)); [|done].
  rewrite run_bind, run_invoke, Hfind. reflexivity.
Qed.

(** C6: with [check_name_collisions] and [overwrite], wherever the log of
    an [upload_applet] run has the creation call, what the run issued
    before it is the search followed by one removal for each id the search
    answered, in order, and each of these removals returned. *)
Theorem overwrite_removes_before_create (src_dir : string)
    (uploaded_resources : option (list json)) (project : option string)
    (dx_toolkit_autodep : bool) (s : state W) :
  exists new,
    new_calls s (upload_applet P L src_dir uploaded_resources true true project
                               dx_toolkit_autodep s).2 new
    /\ forall i applet_spec,
        new !! i = Some (AppletNew applet_spec) ->
        exists name dest_project ids,
          let searched :=
            {| world := (find_data_objects P "applet" name dest_project (world s)).2;
               trace := trace s ++ [FindDataObjects "applet" name dest_project] |} in
          (find_data_objects P "applet" name dest_project (world s)).1 = Ret ids
          /\ (remove_or_reject P true dest_project name ids searched).1 = Ret tt
          /\ take i new
             = FindDataObjects "applet" name dest_project :: removals dest_project ids.
Proof.
  unfold upload_applet. rewrite run_bind. unfold lift at 1.
  destruct (prepare_spec L src_dir project) as [[dest_project applet_spec]|e]; simpl;
    [|exists []; split; [apply new_calls_refl | by intros i a; rewrite lookup_nil]].
  rewrite run_bind. unfold check_collisions at 1. rewrite run_bind. unfold lift at 1.
  destruct (getitem applet_spec "name") as [[| | |name| |]|e]; simpl;
    try (exists []; split; [apply new_calls_refl | by intros i a; rewrite lookup_nil]).
  rewrite run_bind, run_invoke.
  set (search := FindDataObjects "applet" name dest_project).
  destruct (find_data_objects P "applet" name dest_project (world s)) as [[ids|e] w1] eqn:Hfind;
    simpl;
    [|exists [search]; split; [reflexivity|];
      intros [|i] a; simpl; [done | by rewrite lookup_nil]].
  set (searched := {| world := w1; trace := trace s ++ [search] |}).
  destruct (remove_all_run dest_project name ids searched) as (done_ids & Hrem & Hall).
  destruct (remove_or_reject P true dest_project name ids searched) as [[[]|e] s2] eqn:Hloop;
    simpl in *.
  - specialize (Hall eq_refl). subst done_ids.
    rewrite run_bind. unfold lift at 1.
    destruct (override_fields L src_dir uploaded_resources dx_toolkit_autodep applet_spec)
      as [final_spec|e]; simpl.
    + destruct (create_applet_run dest_project final_spec s2) as (post & Hcreate & Hpost).
      exists (search :: removals dest_project ids ++ AppletNew final_spec :: post). split.
      * unfold new_calls in *. rewrite Hcreate, Hrem. simpl.
        by rewrite <- !app_assoc.
      * intros i a Hi. exists name, dest_project, ids.
        rewrite Hfind. simpl. fold search searched. rewrite Hloop. simpl.
        split; [done|]. split; [done|].
        destruct i as [|i]; simpl in Hi; [done|]. simpl. f_equal.
        destruct (decide (i < List.length (removals dest_project ids))%nat) as [Hlt|Hge].
        -- rewrite lookup_app_l in Hi by done.
           pose proof (removals_not_create dest_project ids) as Hrm.
           rewrite Forall_lookup in Hrm. by specialize (Hrm _ _ Hi).
        -- rewrite lookup_app_r in Hi by lia.
           destruct (i - List.length (removals dest_project ids))%nat as [|j] eqn:Hj.
           ++ assert (i = List.length (removals dest_project ids)) as -> by lia.
              by rewrite take_app_length.
           ++ simpl in Hi. rewrite Forall_lookup in Hpost. by specialize (Hpost _ _ Hi).
    + exists (search :: removals dest_project ids). split.
      * unfold new_calls in *. rewrite Hrem. simpl. by rewrite <- !app_assoc.
      * intros [|i] a Hi; simpl in Hi; [done|].
        pose proof (removals_not_create dest_project ids) as Hrm.
        rewrite Forall_lookup in Hrm. by specialize (Hrm _ _ Hi).
  - exists (search :: removals dest_project done_ids). split.
    + unfold new_calls in *. rewrite Hrem. simpl. by rewrite <- !app_assoc.
    + intros [|i] a Hi; simpl in Hi; [done|].
      pose proof (removals_not_create dest_project done_ids) as Hrm.
      rewrite Forall_lookup in Hrm. by specialize (Hrm _ _ Hi).
Qed.

End name_collisions.

Lemma collision_without_overwrite_witness :
  upload_applet (Script.platform Script.all_published)
    (Script.machine Script.manifest ["lib"]) "/src/myapp" None true false None true
    Script.start
  = (Raise (AppletBuilderException
              ("A applet with name myapp already exists (id applet-old)"
                 +:+ " and the overwrite option was not given")),
     {| world := 1%nat;
        trace := [FindDataObjects "applet" "myapp" (JStr "project-0")] |}).
Proof.
  refine (proj1 (collision_without_overwrite (Script.platform Script.all_published)
                   (Script.machine Script.manifest ["lib"]) "/src/myapp" None None true
                   (JStr "project-0")
                   (<["dxapi" := JStr "1.0.0"]>
                      (<["project" := JStr "project-0"]> Script.manifest))
                   "myapp" "applet-old" [] Script.start 1%nat _ _ _)).
  - vm_compute. reflexivity.
  - vm_compute. reflexivity.
  - reflexivity.
Defined.

Lemma overwrite_removes_before_create_witness :
  exists applet_spec name dest_project ids,
    trace (upload_applet (Script.platform Script.all_published)
             (Script.machine Script.manifest ["lib"]) "/src/myapp" None true true None true
             Script.start).2 !! 2%nat = Some (AppletNew applet_spec)
    /\ (find_data_objects (Script.platform Script.all_published) "applet" name dest_project
                          0%nat).1 = Ret ids
    /\ take 2 (trace (upload_applet (Script.platform Script.all_published)
                        (Script.machine Script.manifest ["lib"]) "/src/myapp" None true true
                        None true Script.start).2)
       = FindDataObjects "applet" name dest_project :: removals dest_project ids.
Proof.
  destruct (overwrite_removes_before_create (Script.platform Script.all_published)
              (Script.machine Script.manifest ["lib"]) "/src/myapp" None None true
              Script.start) as (new & Hnew & Hbefore).
  unfold new_calls in Hnew. simpl in Hnew. rewrite Hnew.
  assert (exists applet_spec, new !! 2%nat = Some (AppletNew applet_spec)) as [a Ha].
  { rewrite <- Hnew. eexists. vm_compute. reflexivity. }
  destruct (Hbefore 2%nat a Ha) as (name & dest_project & ids & Hfind & _ & Htake).
  exists a, name, dest_project, ids. auto.
Defined.

(** ** The toolkit dependency *)

Section toolkit_dependency.

Lemma eq_str_true (x : option json) (t : string) :
  eq_str x t = true <-> x = Some (JStr t).
Proof.
  unfold eq_str. destruct x as [[]|]; try (split; [discriminate | by intros [=]]).
  rewrite bool_decide_eq_true. split; [by intros -> | by intros [=]].
Qed.

Lemma is_toolkit_dep_true dep :
  is_toolkit_dep dep = Ret true <-> names_toolkit dep.
Proof.
  unfold names_toolkit. split.
  - destruct dep as [| | | | |d]; simpl; try discriminate.
    intros [= [H|H]%orb_true_iff]; apply eq_str_true in H; eauto.
  - intros (d & -> & H). simpl. f_equal. apply orb_true_iff.
    rewrite !eq_str_true. exact H.
Qed.

Lemma is_toolkit_dep_dict dep :
  is_dict dep = true -> exists hit, is_toolkit_dep dep = Ret hit.
Proof. destruct dep; try discriminate. simpl. eauto. Qed.

Lemma toolkit_dep_names_toolkit : is_toolkit_dep dx_toolkit_dep = Ret true.
Proof. apply is_toolkit_dep_true. eexists. split; [reflexivity|]. left. reflexivity. Qed.

Lemma find_toolkit_dep_last found :
  find_toolkit_dep [dx_toolkit_dep] found = Ret true.
Proof. unfold find_toolkit_dep. by rewrite toolkit_dep_names_toolkit. Qed.

Lemma find_toolkit_dep_app deps1 deps2 found :
  find_toolkit_dep (deps1 ++ deps2) found
  = find_toolkit_dep deps1 found ≫= find_toolkit_dep deps2.
Proof.
  revert found. induction deps1 as [|dep deps1 IH]; intros found; simpl; [done|].
  destruct (is_toolkit_dep dep) as [hit|e]; simpl; [apply IH | done].
Qed.

(** Once found, found for good: the loop never resets the flag. *)
Lemma find_toolkit_dep_found deps found :
  find_toolkit_dep deps true = Ret found -> found = true.
Proof.
  induction deps as [|dep deps IH]; simpl; [by intros [=]|].
  destruct (is_toolkit_dep dep) as [[]|e]; simpl; [exact IH | exact IH | discriminate].
Qed.

Lemma find_toolkit_dep_dicts deps found :
  Forall (fun dep => is_dict dep = true) deps ->
  exists found', find_toolkit_dep deps found = Ret found'.
Proof.
  intros Hdicts. revert found.
  induction Hdicts as [|dep deps Hdep _ IH]; intros found; simpl; [eauto|].
  destruct (is_toolkit_dep_dict _ Hdep) as [hit ->]. simpl. apply IH.
Qed.

Lemma find_toolkit_dep_hit deps found :
  (exists dep, dep ∈ deps /\ names_toolkit dep) ->
  forall found', find_toolkit_dep deps found = Ret found' -> found' = true.
Proof.
  intros (dep & Hin & Hname). revert found.
  induction deps as [|dep' deps IH]; intros found found'; [by apply elem_of_nil in Hin|].
  simpl. apply elem_of_cons in Hin as [<- | Hin].
  - apply is_toolkit_dep_true in Hname. rewrite Hname. simpl.
    apply find_toolkit_dep_found.
  - destruct (is_toolkit_dep dep') as [hit|e]; simpl; [|discriminate].
    by apply IH.
Qed.

Lemma find_toolkit_dep_miss deps :
  ~ (exists dep, dep ∈ deps /\ names_toolkit dep) ->
  forall found', find_toolkit_dep deps false = Ret found' -> found' = false.
Proof.
  induction deps as [|dep deps IH]; intros Hnone found'; simpl; [by intros [=]|].
  destruct (is_toolkit_dep dep) as [[]|e] eqn:E; simpl; [| |discriminate].
  - exfalso. apply Hnone. exists dep. split; [apply elem_of_cons; by left|].
    by apply is_toolkit_dep_true.
  - apply IH. intros (dep' & Hin & Hname). apply Hnone. exists dep'.
    split; [apply elem_of_cons; by right | done].
Qed.

Lemma setdefault_present (d : object) key v v' :
  d !! key = Some v' -> setdefault d key v = d.
Proof. unfold setdefault, has_key. by intros ->. Qed.

Lemma setdefault_lookup (d : object) key v :
  setdefault d key v !! key = Some (default v (d !! key)).
Proof.
  unfold setdefault, has_key. destruct (d !! key) eqn:E; simpl; [done|].
  by rewrite lookup_insert_eq.
Qed.

(** The step on a spec whose [runSpec.execDepends] is the list [deps]. *)
Lemma add_toolkit_dep_list applet_spec rs deps :
  applet_spec !! "runSpec" = Some (JObj rs) ->
  rs !! "execDepends" = Some (JArr deps) ->
  add_toolkit_dep true applet_spec
  = found ← find_toolkit_dep deps false;
    Ret (if found : bool then applet_spec
         else with_exec_depends applet_spec rs (deps ++ [dx_toolkit_dep])).
Proof.
  intros Hrun Hdeps. unfold add_toolkit_dep, getitem. rewrite Hrun. simpl.
  rewrite (setdefault_present _ _ _ _ Hdeps), Hdeps. simpl.
  destruct (find_toolkit_dep deps false) as [[]|e]; simpl; [|done..].
  by rewrite insert_id.
Qed.

Lemma add_toolkit_dep_settled applet_spec rs deps :
  find_toolkit_dep deps false = Ret false ->
  add_toolkit_dep true (with_exec_depends applet_spec rs (deps ++ [dx_toolkit_dep]))
  = Ret (with_exec_depends applet_spec rs (deps ++ [dx_toolkit_dep])).
Proof.
  intros Hfind.
  rewrite (add_toolkit_dep_list _ (<["execDepends" := JArr (deps ++ [dx_toolkit_dep])]> rs)
                                (deps ++ [dx_toolkit_dep]));
    [| apply lookup_insert_eq | apply lookup_insert_eq].
  rewrite find_toolkit_dep_app, Hfind.
  change (Ret false ≫= find_toolkit_dep [dx_toolkit_dep])
    with (find_toolkit_dep [dx_toolkit_dep] false).
  by rewrite find_toolkit_dep_last.
Qed.

Lemma add_toolkit_dep_twice dx_toolkit_autodep applet_spec :
  add_toolkit_dep dx_toolkit_autodep applet_spec ≫= add_toolkit_dep dx_toolkit_autodep
  = add_toolkit_dep dx_toolkit_autodep applet_spec.
Proof.
  destruct dx_toolkit_autodep; [|reflexivity].
  destruct (applet_spec !! "runSpec") as [[| | | | |rs]|] eqn:Hrun;
    try (unfold add_toolkit_dep, getitem; rewrite Hrun; reflexivity).
  destruct (rs !! "execDepends") as [exec_depends|] eqn:Hdeps.
  - destruct exec_depends as [| | | |deps|];
      try (unfold add_toolkit_dep, getitem; rewrite Hrun; simpl;
           rewrite (setdefault_present _ _ _ _ Hdeps), Hdeps; reflexivity).
    rewrite (add_toolkit_dep_list _ _ _ Hrun Hdeps).
    destruct (find_toolkit_dep deps false) as [[]|e] eqn:Hfind; [| |done].
    + change (add_toolkit_dep true applet_spec = Ret applet_spec).
      by rewrite (add_toolkit_dep_list _ _ _ Hrun Hdeps), Hfind.
    + change (add_toolkit_dep true
                (with_exec_depends applet_spec rs (deps ++ [dx_toolkit_dep]))
              = Ret (with_exec_depends applet_spec rs (deps ++ [dx_toolkit_dep]))).
      by apply add_toolkit_dep_settled.
  - assert (add_toolkit_dep true applet_spec
            = Ret (with_exec_depends applet_spec rs ([] ++ [dx_toolkit_dep]))) as ->.
    { unfold add_toolkit_dep, getitem. rewrite Hrun. simpl.
      rewrite setdefault_lookup, Hdeps. simpl.
      unfold setdefault, has_key, with_exec_depends. rewrite Hdeps.
      by rewrite insert_insert_eq. }
    change (add_toolkit_dep true
              (with_exec_depends applet_spec rs ([] ++ [dx_toolkit_dep]))
            = Ret (with_exec_depends applet_spec rs ([] ++ [dx_toolkit_dep]))).
    by apply add_toolkit_dep_settled.
Qed.

(** C7: the augmentation step, run a second time on the spec it produced,
    changes nothing (and fails the same way when it fails).  On a spec
    whose [execDepends] is a list of hashes, it returns the spec as it is
    when an entry names the toolkit by name or by url; otherwise it appends
    the toolkit entry, once, and a second run leaves that list alone. *)
Theorem add_toolkit_dep_idempotent (dx_toolkit_autodep : bool) (applet_spec : object) :
  (add_toolkit_dep dx_toolkit_autodep applet_spec ≫= add_toolkit_dep dx_toolkit_autodep
   = add_toolkit_dep dx_toolkit_autodep applet_spec)
  /\ forall rs deps,
      applet_spec !! "runSpec" = Some (JObj rs) ->
      rs !! "execDepends" = Some (JArr deps) ->
      Forall (fun dep => is_dict dep = true) deps ->
      ((exists dep, dep ∈ deps /\ names_toolkit dep) ->
       add_toolkit_dep true applet_spec = Ret applet_spec)
      /\ (~ (exists dep, dep ∈ deps /\ names_toolkit dep) ->
          let augmented := with_exec_depends applet_spec rs (deps ++ [dx_toolkit_dep]) in
          add_toolkit_dep true applet_spec = Ret augmented
          /\ add_toolkit_dep true augmented = Ret augmented).
Proof.
  split; [apply add_toolkit_dep_twice|].
  intros rs deps Hrun Hdeps Hdicts.
  rewrite (add_toolkit_dep_list _ _ _ Hrun Hdeps).
  destruct (find_toolkit_dep_dicts deps false Hdicts) as [found Hfind].
  rewrite Hfind. simpl. split.
  - intros Hhit. by rewrite (find_toolkit_dep_hit _ _ Hhit _ Hfind).
  - intros Hmiss.
    pose proof (find_toolkit_dep_miss _ Hmiss _ Hfind) as ->.
    split; [done|]. by apply add_toolkit_dep_settled.
Qed.

End toolkit_dependency.

Lemma add_toolkit_dep_idempotent_witness :
  add_toolkit_dep true (Script.manifest_with [Script.other_dep; Script.forked_dep])
  = Ret (Script.manifest_with [Script.other_dep; Script.forked_dep])
  /\ (let augmented :=
        with_exec_depends (Script.manifest_with [Script.other_dep])
                          (Script.run_spec_with [Script.other_dep])
                          ([Script.other_dep] ++ [dx_toolkit_dep]) in
      add_toolkit_dep true (Script.manifest_with [Script.other_dep]) = Ret augmented
      /\ add_toolkit_dep true augmented = Ret augmented).
Proof.
  split.
  - refine (proj1 (proj2 (add_toolkit_dep_idempotent true _) _ _ _ _ _) _).
    + vm_compute. reflexivity.
    + vm_compute. reflexivity.
    + repeat constructor.
    + exists Script.forked_dep. split.
      * apply elem_of_cons. right. apply elem_of_cons. by left.
      * eexists. split; [reflexivity|]. right. vm_compute. reflexivity.
  - refine (proj2 (proj2 (add_toolkit_dep_idempotent true _) _ _ _ _ _) _).
    + vm_compute. reflexivity.
    + vm_compute. reflexivity.
    + repeat constructor.
    + intros (dep & Hin & d & -> & Hname).
      apply list_elem_of_singleton in Hin. injection Hin as ->.
      vm_compute in Hname. by destruct Hname.
Defined.

(** ** Footprints *)

Section footprints.
Context {W : Type} (ok : call -> bool).

Lemma issues_only_ret {A} (a : A) : issues_only (W:=W) ok (mret a).
Proof. intros s. exists []. split; [apply new_calls_refl | constructor]. Qed.

Lemma issues_only_raise {A} (e : exn) : issues_only (W:=W) (A:=A) ok (raise e).
Proof. intros s. exists []. split; [apply new_calls_refl | constructor]. Qed.

Lemma issues_only_lift {A} (o : outcome A) : issues_only (W:=W) ok (lift o).
Proof. intros s. exists []. split; [apply new_calls_refl | constructor]. Qed.

Lemma issues_only_invoke {A} (c : call) (f : W -> outcome A * W) :
  ok c = true -> issues_only ok (invoke c f).
Proof.
  intros Hc s. exists [c]. split; [apply new_calls_invoke | by repeat constructor].
Qed.

Lemma issues_only_bind {A B} (m : M W A) (k : A -> M W B) :
  issues_only ok m -> (forall a, issues_only ok (k a)) -> issues_only ok (m ≫= k).
Proof.
  intros Hm Hk s. rewrite run_bind.
  destruct (Hm s) as (new1 & Hcalls1 & Hok1).
  destruct (m s) as [[a|e] s1]; simpl in *; [|by exists new1].
  destruct (Hk a s1) as (new2 & Hcalls2 & Hok2).
  exists (new1 ++ new2). split.
  - by eapply new_calls_trans.
  - by apply Forall_app.
Qed.

Lemma issues_only_catch {A} (m : M W A) (h : exn -> M W A) :
  issues_only ok m -> (forall e, issues_only ok (h e)) -> issues_only ok (catch m h).
Proof.
  intros Hm Hh s. unfold catch.
  destruct (Hm s) as (new1 & Hcalls1 & Hok1).
  destruct (m s) as [[a|e] s1]; simpl in *; [by exists new1|].
  destruct (Hh e s1) as (new2 & Hcalls2 & Hok2).
  exists (new1 ++ new2). split.
  - by eapply new_calls_trans.
  - by apply Forall_app.
Qed.

End footprints.

(** ** App version publication *)

Section app_versions.
Context {W : Type} (P : Platform W) (L : Local).

Lemma probe_version_run app_name version (s : state W) :
  probe_version P app_name version s
  = (match (appDescribe P ("app-" +:+ app_name) version (world s)).1 with
     | Ret app_describe => Ret (Some app_describe)
     | Raise (DXAPIError name msg) =>
         if bool_decide (name = "ResourceNotFound") then Ret None
         else Raise (DXAPIError name msg)
     | Raise e => Raise e
     end,
     {| world := (appDescribe P ("app-" +:+ app_name) version (world s)).2;
        trace := trace s ++ [AppDescribe ("app-" +:+ app_name) version] |}).
Proof.
  unfold probe_version, catch. rewrite run_bind, run_invoke.
  destruct (appDescribe P ("app-" +:+ app_name) version (world s)) as [[d|[]] w1];
    simpl; try reflexivity.
  by destruct (bool_decide (name = "ResourceNotFound")).
Qed.

(** A candidate the probe finds published is left after that one call. *)
Lemma published_version_skipped app_name try_update try_versions version rest app_spec
    (s : state W) app_describe w1 :
  appDescribe P ("app-" +:+ app_name) version (world s) = (Ret app_describe, w1) ->
  get_published app_describe <> 0 ->
  try_each_version P app_name try_update try_versions (version :: rest) app_spec s
  = try_each_version P app_name try_update try_versions rest
      (<["version" := version]> app_spec)
      {| world := w1; trace := trace s ++ [AppDescribe ("app-" +:+ app_name) version] |}.
Proof.
  intros Hprobe Hpub. simpl. rewrite run_bind, probe_version_run, Hprobe. simpl.
  by rewrite bool_decide_eq_false_2.
Qed.

Lemma strings_of_strings (versions : list string) :
  strings_of (JStr <$> versions) = Ret versions.
Proof.
  induction versions as [|v vs IH]; [done|].
  rewrite fmap_cons. cbn [strings_of]. by rewrite IH.
Qed.

Lemma append_assoc (a b c : string) : (a +:+ b) +:+ c = a +:+ b +:+ c.
Proof.
  induction a as [|x a IH]; [done|].
  change (String x ((a +:+ b) +:+ c) = String x (a +:+ b +:+ c)). by rewrite IH.
Qed.

Lemma append_empty_r (a : string) : a +:+ "" = a.
Proof.
  induction a as [|x a IH]; [done|].
  change (String x (a +:+ "") = String x a). by rewrite IH.
Qed.

Lemma occurs_in_self v : occurs_in v v.
Proof. exists "", "". simpl. by rewrite append_empty_r. Qed.

Lemma occurs_in_append v before msg after :
  occurs_in v msg -> occurs_in v (before +:+ msg +:+ after).
Proof.
  intros (b & a & ->). exists (before +:+ b), (a +:+ after).
  by rewrite !append_assoc.
Qed.

Lemma occurs_in_join sep v (versions : list string) :
  v ∈ versions -> occurs_in v (join sep versions).
Proof.
  induction versions as [|x [|y versions] IH]; intros Hin.
  - by apply elem_of_nil in Hin.
  - apply list_elem_of_singleton in Hin as ->. apply occurs_in_self.
  - change (join sep (x :: y :: versions)) with (x +:+ sep +:+ join sep (y :: versions)).
    apply elem_of_cons in Hin as [-> | Hin].
    + apply (occurs_in_append _ "" x (sep +:+ join sep (y :: versions))), occurs_in_self.
    + specialize (IH Hin). rewrite <- append_assoc.
      rewrite <- (append_empty_r (join sep (y :: versions))).
      by apply occurs_in_append.
Qed.

(** The message of the exhaustion error for candidates that are strings. *)
Lemma tried_versions_names (versions : list string) :
  versions <> [] ->
  exists tried,
    tried_versions (JStr <$> versions) = Ret tried
    /\ forall v, v ∈ versions -> occurs_in v ("Could not create " +:+ tried).
Proof.
  intros Hne. unfold tried_versions. rewrite length_fmap.
  destruct versions as [|v1 [|v2 versions]]; [done| |].
  - eexists. split; [reflexivity|]. intros v ->%list_elem_of_singleton.
    rewrite <- (append_empty_r v1) at 2. rewrite <- append_assoc.
    apply occurs_in_append, occurs_in_self.
  - rewrite bool_decide_eq_false_2 by (simpl; lia).
    cbn [negb]. rewrite strings_of_strings. eexists. split; [reflexivity|].
    intros v Hin.
    rewrite <- (append_empty_r (join ", " (v1 :: v2 :: versions))), <- append_assoc.
    by apply occurs_in_append, occurs_in_join.
Qed.

(** When the platform reports every candidate published, the loop probes
    each one and raises the exhaustion error. *)
Lemma all_published_exhausts app_name try_update try_versions todo app_spec (s : state W) :
  (forall version w,
      version ∈ todo ->
      exists app_describe w',
        appDescribe P ("app-" +:+ app_name) version w = (Ret app_describe, w')
        /\ get_published app_describe <> 0) ->
  exists s',
    try_each_version P app_name try_update try_versions todo app_spec s
    = ((tried ← tried_versions try_versions;
        Raise (EnvironmentError ("Could not create " +:+ tried)) : outcome (string * object)),
       s')
    /\ new_calls s s' (AppDescribe ("app-" +:+ app_name) <$> todo).
Proof.
  revert app_spec s. induction todo as [|version rest IH]; intros app_spec s Hall.
  - exists s. split; [reflexivity | apply new_calls_refl].
  - destruct (Hall version (world s)) as (d & w1 & Hprobe & Hpub);
      [apply elem_of_cons; by left|].
    rewrite (published_version_skipped _ _ _ _ _ _ _ _ _ Hprobe Hpub).
    edestruct IH as (s' & Hrun & Hcalls); [|exists s'; split; [exact Hrun|]].
    + intros v w Hin. apply Hall, elem_of_cons. by right.
    + unfold new_calls in *. rewrite Hcalls. simpl. by rewrite <- app_assoc.
Qed.

Lemma create_app_run applet_id src_dir publish set_default billTo version versions
    try_update manifest (s : state W) applet_desc w0 :
  load_json L (path_join src_dir "dxapp.json") = Ret manifest ->
  applet_describe P applet_id (world s) = (Ret applet_desc, w0) ->
  create_app P L applet_id src_dir publish set_default billTo (version :: versions)
             try_update s
  = (created ← try_each_version P (ad_name applet_desc) try_update (version :: versions)
                 (version :: versions)
                 (fill_app_spec applet_id applet_desc billTo manifest);
     finish_app P created.1 created.2 publish set_default)
      {| world := w0; trace := trace s ++ [AppletDescribe applet_id] |}.
Proof.
  intros Hload Hdesc. unfold create_app, _get_app_spec. rewrite Hload. simpl.
  rewrite run_bind. unfold lift at 1. rewrite run_bind, run_invoke, Hdesc. reflexivity.
Qed.

(** C1: whatever the list, a candidate the probe reports published costs
    that one probe, after which the loop stands at the next candidate; over
    [[v1; v2]], both reported published, [create_app] issues the applet
    describe and the two probes and raises the exhaustion error, whose
    message holds both version strings; and for every non-empty list of
    candidates the platform reports published, it raises the exhaustion
    error with a message in which every candidate occurs. *)
Theorem published_versions_are_skipped (applet_id src_dir : string)
    (publish set_default : bool) (billTo : option string) (try_update : bool)
    (manifest : object) (s : state W) (applet_desc : applet_description) (w0 : W) :
  load_json L (path_join src_dir "dxapp.json") = Ret manifest ->
  applet_describe P applet_id (world s) = (Ret applet_desc, w0) ->
  let app_name := ad_name applet_desc in
  let app := "app-" +:+ app_name in
  (forall try_versions v1 rest app_spec (s1 : state W) d1 w1,
      appDescribe P app v1 (world s1) = (Ret d1, w1) ->
      get_published d1 <> 0 ->
      try_each_version P app_name try_update try_versions (v1 :: rest) app_spec s1
      = try_each_version P app_name try_update try_versions rest
          (<["version" := v1]> app_spec)
          {| world := w1; trace := trace s1 ++ [AppDescribe app v1] |})
  /\ (forall v1 v2 d1 w1 d2 w2,
        appDescribe P app (JStr v1) w0 = (Ret d1, w1) ->
        get_published d1 <> 0 ->
        appDescribe P app (JStr v2) w1 = (Ret d2, w2) ->
        get_published d2 <> 0 ->
        create_app P L applet_id src_dir publish set_default billTo [JStr v1; JStr v2]
                   try_update s
        = (Raise (EnvironmentError
                    ("Could not create any of the requested versions: "
                       +:+ v1 +:+ ", " +:+ v2)),
           {| world := w2;
              trace := trace s ++ [AppletDescribe applet_id; AppDescribe app (JStr v1);
                                   AppDescribe app (JStr v2)] |}))
  /\ (forall versions,
        versions <> [] ->
        (forall v w,
            v ∈ versions ->
            exists d w', appDescribe P app (JStr v) w = (Ret d, w')
                         /\ get_published d <> 0) ->
        exists msg s',
          create_app P L applet_id src_dir publish set_default billTo (JStr <$> versions)
                     try_update s
          = (Raise (EnvironmentError msg), s')
          /\ new_calls s s' (AppletDescribe applet_id
                               :: (AppDescribe app <$> (JStr <$> versions)))
          /\ forall v, v ∈ versions -> occurs_in v msg).
Proof.
  intros Hload Hdesc app_name app. split; [|split].
  - intros. by eapply published_version_skipped.
  - intros v1 v2 d1 w1 d2 w2 H1 Hp1 H2 Hp2.
    rewrite (create_app_run _ _ _ _ _ _ _ _ _ _ _ _ Hload Hdesc), run_bind.
    rewrite (published_version_skipped _ _ _ _ _ _ _ d1 w1); [|exact H1|exact Hp1].
    rewrite (published_version_skipped _ _ _ _ _ _ _ d2 w2); [|exact H2|exact Hp2].
    simpl. by rewrite <- !app_assoc.
  - intros versions Hne Hall.
    destruct versions as [|v vs]; [done|].
    rewrite fmap_cons.
    rewrite (create_app_run _ _ _ _ _ _ _ _ _ _ _ _ Hload Hdesc), run_bind.
    rewrite <- fmap_cons.
    edestruct (all_published_exhausts app_name try_update (JStr <$> v :: vs)
                 (JStr <$> v :: vs)) as (s' & -> & Hcalls).
    { intros version w (v' & -> & Hin)%list_elem_of_fmap. by apply Hall. }
    destruct (tried_versions_names (v :: vs) Hne) as (tried & -> & Hnames).
    eexists _, s'. split; [reflexivity|]. split; [|exact Hnames].
    unfold new_calls in *. rewrite Hcalls. simpl. by rewrite <- !app_assoc.
Qed.

Lemma unpublished_version_not_updated app_name try_versions version rest app_spec
    (s : state W) app_describe w1 :
  appDescribe P ("app-" +:+ app_name) version (world s) = (Ret app_describe, w1) ->
  get_published app_describe = 0 ->
  try_each_version P app_name false try_versions (version :: rest) app_spec s
  = try_each_version P app_name false try_versions rest
      (<["version" := version]> app_spec)
      {| world := w1; trace := trace s ++ [AppDescribe ("app-" +:+ app_name) version] |}.
Proof.
  intros Hprobe Hpub. simpl. rewrite run_bind, probe_version_run, Hprobe. simpl.
  by rewrite bool_decide_eq_true_2.
Qed.

Lemma alias_conflict_not_updated app_name try_versions version rest app_spec
    (s : state W) msg w1 w2 app_describe w3 :
  let app := "app-" +:+ app_name in
  let app_spec' := <["version" := version]> app_spec in
  appDescribe P app version (world s) = (Raise (DXAPIError "ResourceNotFound" msg), w1) ->
  appNew P app_spec' w1 = (Raise (DXAPIError "InvalidInput" alias_conflict_msg), w2) ->
  appDescribe P app version w2 = (Ret app_describe, w3) ->
  try_each_version P app_name false try_versions (version :: rest) app_spec s
  = try_each_version P app_name false try_versions rest app_spec'
      {| world := w3;
         trace := trace s ++ [AppDescribe app version; AppNew app_spec';
                              AppDescribe app version] |}.
Proof.
  intros app app_spec'. subst app app_spec'. intros Hprobe Hnew Hagain. simpl.
  rewrite run_bind, probe_version_run, Hprobe. simpl.
  rewrite run_bind. unfold _create_or_update_version, catch.
  rewrite run_bind, run_invoke. simpl. rewrite Hnew. simpl.
  rewrite run_bind, run_invoke. simpl. rewrite Hagain. simpl.
  rewrite <- !app_assoc. simpl.
  by destruct (bool_decide (0 < get_published app_describe)).
Qed.

Ltac footprint :=
  repeat first
    [ apply issues_only_ret
    | apply issues_only_raise
    | apply issues_only_lift
    | apply issues_only_invoke; reflexivity
    | apply issues_only_bind; [|intros ?]
    | apply issues_only_catch; [|intros ?]
    | match goal with
      | |- issues_only _ (match ?x with _ => _ end) => destruct x
      end ].

Lemma update_version_footprint app_name version app_spec :
  issues_only (fun c => negb (is_app_update c))
              (_update_version P app_name version app_spec false).
Proof. unfold _update_version. simpl. footprint. Qed.

Lemma create_or_update_footprint app_name version app_spec :
  issues_only (fun c => negb (is_app_update c))
              (_create_or_update_version P app_name version app_spec false).
Proof.
  unfold _create_or_update_version. footprint.
Qed.

Lemma try_each_version_footprint app_name try_versions todo app_spec :
  issues_only (fun c => negb (is_app_update c))
              (try_each_version P app_name false try_versions todo app_spec).
Proof.
  revert app_spec. induction todo as [|version rest IH]; intros app_spec; simpl.
  - footprint.
  - apply issues_only_bind; [unfold probe_version; footprint|].
    intros [app_describe|].
    + destruct (bool_decide (get_published app_describe = 0)); [|apply IH].
      apply issues_only_bind; [apply update_version_footprint|].
      intros [app_id|]; [footprint | apply IH].
    + apply issues_only_bind; [apply create_or_update_footprint|].
      intros [app_id|]; [footprint | apply IH].
Qed.

(** C10: with [try_update=False], no run of [create_app] issues [appUpdate];
    [_update_version] answers [None] without a call; a candidate found
    there and not published, and a candidate whose creation meets the alias
    conflict, are left for the next candidate. *)
Theorem update_is_never_tried_when_disabled (applet_id src_dir : string)
    (publish set_default : bool) (billTo : option string) (try_versions : list json) :
  issues_only (fun c => negb (is_app_update c))
              (create_app P L applet_id src_dir publish set_default billTo try_versions
                          false)
  /\ (forall app_name version app_spec (s : state W),
        _update_version P app_name version app_spec false s = (Ret None, s))
  /\ (forall app_name all version rest app_spec (s : state W) app_describe w1,
        appDescribe P ("app-" +:+ app_name) version (world s) = (Ret app_describe, w1) ->
        get_published app_describe = 0 ->
        try_each_version P app_name false all (version :: rest) app_spec s
        = try_each_version P app_name false all rest (<["version" := version]> app_spec)
            {| world := w1;
               trace := trace s ++ [AppDescribe ("app-" +:+ app_name) version] |})
  /\ (forall app_name all version rest app_spec (s : state W) msg w1 w2 app_describe w3,
        let app := "app-" +:+ app_name in
        let app_spec' := <["version" := version]> app_spec in
        appDescribe P app version (world s)
        = (Raise (DXAPIError "ResourceNotFound" msg), w1) ->
        appNew P app_spec' w1
        = (Raise (DXAPIError "InvalidInput" alias_conflict_msg), w2) ->
        appDescribe P app version w2 = (Ret app_describe, w3) ->
        try_each_version P app_name false all (version :: rest) app_spec s
        = try_each_version P app_name false all rest app_spec'
            {| world := w3;
               trace := trace s ++ [AppDescribe app version; AppNew app_spec';
                                    AppDescribe app version] |}).
Proof.
  split; [|split; [|split]].
  - unfold create_app. footprint. apply try_each_version_footprint.
  - reflexivity.
  - intros. by eapply unpublished_version_not_updated.
  - intros. by eapply alias_conflict_not_updated.
Qed.

End app_versions.

Lemma published_versions_are_skipped_witness :
  create_app (Script.platform Script.all_published) (Script.machine Script.manifest [])
    "applet-1" "/src/myapp" true false None [JStr "1.0.0"; JStr "1.0.1"] true Script.start
  = (Raise (EnvironmentError
              ("Could not create any of the requested versions: "
                 +:+ "1.0.0" +:+ ", " +:+ "1.0.1")),
     {| world := 3%nat;
        trace := [] ++ [AppletDescribe "applet-1"; AppDescribe "app-myapp" (JStr "1.0.0");
                        AppDescribe "app-myapp" (JStr "1.0.1")] |}).
Proof.
  destruct (published_versions_are_skipped (Script.platform Script.all_published)
              (Script.machine Script.manifest []) "applet-1" "/src/myapp" true false None
              true Script.manifest Script.start
              {| ad_name := "myapp"; ad_properties := <["title" := JStr "My App"]> ∅ |}
              1%nat) as (_ & Hboth & _).
  - vm_compute. reflexivity.
  - reflexivity.
  - apply (Hboth "1.0.0" "1.0.1" {| published := Some 5 |} 2%nat
                 {| published := Some 5 |} 3%nat).
    + reflexivity.
    + vm_compute. discriminate.
    + reflexivity.
    + vm_compute. discriminate.
Defined.

Lemma update_is_never_tried_when_disabled_witness :
  try_each_version (Script.platform Script.unpublished_1_0_0) "myapp" false
    [JStr "1.0.0"] [JStr "1.0.0"] Script.manifest Script.start
  = (Raise (EnvironmentError "Could not create the requested version: 1.0.0"),
     {| world := 1%nat; trace := [AppDescribe "app-myapp" (JStr "1.0.0")] |})
  /\ try_each_version (Script.platform Script.racing) "myapp" false
       [JStr "1.0.0"] [JStr "1.0.0"] Script.manifest
       {| world := 1%nat; trace := [AppletDescribe "applet-1"] |}
     = (Raise (EnvironmentError "Could not create the requested version: 1.0.0"),
        {| world := 4%nat;
           trace := [AppletDescribe "applet-1"; AppDescribe "app-myapp" (JStr "1.0.0");
                     AppNew (<["version" := JStr "1.0.0"]> Script.manifest);
                     AppDescribe "app-myapp" (JStr "1.0.0")] |}).
Proof.
  split.
  - destruct (update_is_never_tried_when_disabled (Script.platform Script.unpublished_1_0_0)
                (Script.machine Script.manifest []) "applet-1" "/src/myapp" true false None
                [JStr "1.0.0"]) as (_ & _ & Hthere & _).
    rewrite (Hthere "myapp" [JStr "1.0.0"] (JStr "1.0.0") [] Script.manifest Script.start
                    {| published := None |} 1%nat eq_refl eq_refl).
    reflexivity.
  - destruct (update_is_never_tried_when_disabled (Script.platform Script.racing)
                (Script.machine Script.manifest []) "applet-1" "/src/myapp" true false None
                [JStr "1.0.0"]) as (_ & _ & _ & Hconflict).
    rewrite (Hconflict "myapp" [JStr "1.0.0"] (JStr "1.0.0") [] Script.manifest
                       {| world := 1%nat; trace := [AppletDescribe "applet-1"] |}
                       "no such app" 2%nat 3%nat {| published := Some 0 |} 4%nat
                       eq_refl eq_refl eq_refl).
    reflexivity.
Defined.

(** ** Org membership *)

Section org_membership.
Context {W : Type} (P : Platform W) (L : Local).

Lemma not_yes (o : outcome bool) :
  o <> Ret true -> match o with Ret true => False | _ => True end.
Proof. by destruct o as [[]|]. Qed.

(** C8: when confirmation is required, a membership probe that succeeds
    followed by a declined prompt makes [remove_membership] return normally
    after the probe, the warning, the prompt and the abort message, none of
    which changes anything on the platform; and as long as the prompt does
    not answer yes, no run issues a mutation, [org_remove_member]
    included. *)
Theorem declined_removal_is_a_no_op (args : org_args) (s : state W) :
  confirm args = true ->
  let probe := OrgGetMemberAccess (org_id args) ("user-" +:+ username args) in
  (forall w1 w2,
      org_get_member_access P (org_id args) ("user-" +:+ username args) (world s)
      = (Ret tt, w1) ->
      prompt_for_yn P "Please confirm" w1 = (Ret false, w2) ->
      remove_membership P L args s
      = (Ret tt,
         {| world := w2;
            trace := trace s
                       ++ [probe; Print (fill L (removal_warning args));
                           PromptForYN "Please confirm";
                           Print (fill L ("Aborting removal of user-" +:+ username args
                                            +:+ " from " +:+ org_id args))] |}))
  /\ ((forall w, (prompt_for_yn P "Please confirm" w).1 <> Ret true) ->
      exists new,
        new_calls s (remove_membership P L args s).2 new
        /\ Forall (fun c => is_mutation c = false /\ is_org_remove_member c = false) new).
Proof.
  intros Hconfirm probe. split.
  - intros w1 w2 Hprobe Hprompt. unfold remove_membership.
    rewrite run_bind, run_invoke, Hprobe. simpl. rewrite Hconfirm. simpl.
    rewrite run_bind, run_bind. unfold log at 1. simpl.
    rewrite run_bind, run_invoke. simpl. rewrite Hprompt. simpl.
    unfold log. simpl. by rewrite <- !app_assoc.
  - intros Hno. unfold remove_membership. rewrite run_bind, run_invoke.
    destruct (org_get_member_access P (org_id args) ("user-" +:+ username args) (world s))
      as [[[]|e] w1]; simpl;
      [|exists [probe]; split; [reflexivity | by repeat constructor]].
    rewrite Hconfirm. simpl. rewrite run_bind, run_bind. unfold log at 1. simpl.
    rewrite run_bind, run_invoke. simpl.
    pose proof (not_yes _ (Hno w1)) as Hanswer.
    destruct (prompt_for_yn P "Please confirm" w1) as [[[]|e] w2]; simpl in *; [done| |].
    + eexists [_; _; _; _]. split.
      * unfold new_calls. simpl. by rewrite <- !app_assoc.
      * by repeat constructor.
    + eexists [_; _; _]. split.
      * unfold new_calls. simpl. by rewrite <- !app_assoc.
      * by repeat constructor.
Qed.

(** C9: [add_membership] probes first.  A probe that succeeds makes it raise
    the error with the probe as its only call; a probe that raises, whatever
    it raises, is followed by the invitation, whose failure alone can still
    reach the caller. *)
Theorem add_membership_probes_first (args : org_args) (s : state W) :
  let user := "user-" +:+ username args in
  let probe := OrgGetMemberAccess (org_id args) user in
  let invitation := OrgInvite (org_id args) (get_org_invite_args args) in
  (forall w1,
      org_get_member_access P (org_id args) user (world s) = (Ret tt, w1) ->
      add_membership P L args s
      = (Raise (DXCLIError "Cannot add a user who is already a member of the org"),
         {| world := w1; trace := trace s ++ [probe] |})
      /\ is_org_invite probe = false)
  /\ (forall e w1,
        org_get_member_access P (org_id args) user (world s) = (Raise e, w1) ->
        let invited := org_invite P (org_id args) (get_org_invite_args args) w1 in
        add_membership P L args s
        = (invited.1,
           {| world := invited.2;
              trace := trace s ++ [probe; invitation]
                         ++ match invited.1 with
                            | Ret _ =>
                                [Print (if brief args then "org-" +:+ org_id args
                                        else fill L ("Invited user-" +:+ username args
                                                       +:+ " to " +:+ org_id args))]
                            | Raise _ => []
                            end |})).
Proof.
  intros user probe invitation. split.
  - intros w1 Hprobe. split; [|done]. unfold add_membership.
    rewrite run_bind. unfold catch. rewrite run_bind, run_invoke. fold user.
    rewrite Hprobe. reflexivity.
  - intros e w1 Hprobe invited. unfold add_membership.
    rewrite run_bind. unfold catch. rewrite run_bind, run_invoke. fold user.
    rewrite Hprobe. simpl. rewrite run_bind, run_invoke. simpl.
    fold invited. destruct invited as [[[]|e'] w2]; simpl.
    + destruct (brief args); unfold log; simpl; by rewrite <- !app_assoc.
    + by rewrite <- !app_assoc.
Qed.

End org_membership.

Lemma declined_removal_is_a_no_op_witness :
  remove_membership (Script.platform Script.all_published) (Script.machine Script.manifest [])
    Script.alice Script.start
  = (Ret tt,
     {| world := 2%nat;
        trace := [] ++ [OrgGetMemberAccess "org-acme" ("user-" +:+ "alice");
                        Print (removal_warning Script.alice);
                        PromptForYN "Please confirm";
                        Print ("Aborting removal of user-" +:+ "alice" +:+ " from "
                                 +:+ "org-acme")] |})
  /\ exists new,
      new_calls Script.start
        (remove_membership (Script.platform Script.all_published)
           (Script.machine Script.manifest []) Script.alice Script.start).2 new
      /\ Forall (fun c => is_mutation c = false /\ is_org_remove_member c = false) new.
Proof.
  destruct (declined_removal_is_a_no_op (Script.platform Script.all_published)
              (Script.machine Script.manifest []) Script.alice Script.start)
    as [Hdeclined Hquiet]; [reflexivity|].
  split.
  - apply (Hdeclined 1%nat 2%nat); reflexivity.
  - apply Hquiet. intros w. simpl. discriminate.
Defined.

Lemma add_membership_probes_first_witness :
  add_membership (Script.platform Script.all_published) (Script.machine Script.manifest [])
    Script.alice Script.start
  = (Raise (DXCLIError "Cannot add a user who is already a member of the org"),
     {| world := 1%nat;
        trace := [] ++ [OrgGetMemberAccess "org-acme" ("user-" +:+ "alice")] |})
  /\ add_membership (Script.platform Script.not_a_member) (Script.machine Script.manifest [])
       Script.alice Script.start
     = (Ret tt,
        {| world := 2%nat;
           trace := [OrgGetMemberAccess "org-acme" "user-alice";
                     OrgInvite "org-acme" (get_org_invite_args Script.alice);
                     Print "Invited user-alice to org-acme"] |}).
Proof.
  split.
  - destruct (add_membership_probes_first (Script.platform Script.all_published)
                (Script.machine Script.manifest []) Script.alice Script.start)
      as [Hmember _].
    apply (Hmember 1%nat). reflexivity.
  - destruct (add_membership_probes_first (Script.platform Script.not_a_member)
                (Script.machine Script.manifest []) Script.alice Script.start)
      as [_ Hstranger].
    apply (Hstranger (DXAPIError "ResourceNotFound" "not a member") 1%nat). reflexivity.
Defined.


(** * Further properties *)

(** ** What a run sends *)

Section sending.
Context {W : Type} (Q : call -> Prop).

Lemma issues_all_ret {A} (a : A) : issues_all (W:=W) Q (mret a).
Proof. intros s. exists []. split; [apply new_calls_refl | constructor]. Qed.

Lemma issues_all_raise {A} (e : exn) : issues_all (W:=W) (A:=A) Q (raise e).
Proof. intros s. exists []. split; [apply new_calls_refl | constructor]. Qed.

Lemma issues_all_lift {A} (o : outcome A) : issues_all (W:=W) Q (lift o).
Proof. intros s. exists []. split; [apply new_calls_refl | constructor]. Qed.

Lemma issues_all_invoke {A} (c : call) (f : W -> outcome A * W) :
  Q c -> issues_all Q (invoke c f).
Proof.
  intros Hc s. exists [c]. split; [apply new_calls_invoke | by repeat constructor].
Qed.

Lemma issues_all_log (c : call) : Q c -> issues_all (W:=W) Q (log c).
Proof. intros Hc s. exists [c]. split; [reflexivity | by repeat constructor]. Qed.

Lemma issues_all_bind {A B} (m : M W A) (k : A -> M W B) :
  issues_all Q m -> (forall a, issues_all Q (k a)) -> issues_all Q (m ≫= k).
Proof.
  intros Hm Hk s. rewrite run_bind.
  destruct (Hm s) as (new1 & Hcalls1 & Hok1).
  destruct (m s) as [[a|e] s1]; simpl in *; [|by exists new1].
  destruct (Hk a s1) as (new2 & Hcalls2 & Hok2).
  exists (new1 ++ new2). split.
  - by eapply new_calls_trans.
  - by apply Forall_app.
Qed.

(** After a pure step, only the value it returned matters. *)
Lemma issues_all_lift_bind {A B} (o : outcome A) (k : A -> M W B) :
  (forall a, o = Ret a -> issues_all Q (k a)) -> issues_all Q (lift o ≫= k).
Proof.
  intros Hk s. rewrite run_bind. unfold lift.
  destruct o as [a|e]; [by apply Hk|].
  exists []. split; [apply new_calls_refl | constructor].
Qed.

Lemma issues_all_catch {A} (m : M W A) (h : exn -> M W A) :
  issues_all Q m -> (forall e, issues_all Q (h e)) -> issues_all Q (catch m h).
Proof.
  intros Hm Hh s. unfold catch.
  destruct (Hm s) as (new1 & Hcalls1 & Hok1).
  destruct (m s) as [[a|e] s1]; simpl in *; [by exists new1|].
  destruct (Hh e s1) as (new2 & Hcalls2 & Hok2).
  exists (new1 ++ new2). split.
  - by eapply new_calls_trans.
  - by apply Forall_app.
Qed.

Lemma sends_issues_all {A} (m : M W A) (s : state W) (c : call) :
  issues_all Q m -> sends m s c -> Q c.
Proof.
  intros Hall (new & Hnew & Hin).
  destruct (Hall s) as (new' & Hnew' & HQ).
  unfold new_calls in *. rewrite Hnew in Hnew'. apply app_inv_head in Hnew'. subst new'.
  rewrite Forall_forall in HQ. by apply HQ.
Qed.

End sending.

Lemma issues_all_weaken {W A} (Q Q' : call -> Prop) (m : M W A) :
  (forall c, Q c -> Q' c) -> issues_all Q m -> issues_all Q' m.
Proof.
  intros Himp Hm s. destruct (Hm s) as (new & Hnew & HQ).
  exists new. split; [done|]. eapply Forall_impl; eauto.
Qed.

(** ** The prepared applet spec *)

Section prepared_spec.
Context (L : Local).

Lemma has_key_insert (d : object) key key' v :
  has_key (<[key' := v]> d) key = bool_decide (key' = key) || has_key d key.
Proof.
  unfold has_key. destruct (decide (key' = key)) as [->|Hne].
  - by rewrite lookup_insert_eq, bool_decide_eq_true_2.
  - by rewrite lookup_insert_ne, bool_decide_eq_false_2.
Qed.

Lemma has_key_true (d : object) key : has_key d key = true <-> is_Some (d !! key).
Proof.
  unfold has_key. by destruct (d !! key); split; intros H; try done; destruct H.
Qed.

Lemma has_key_false (d : object) key : has_key d key = false <-> d !! key = None.
Proof. unfold has_key. by destruct (d !! key). Qed.

(** What [prepare_spec] answers, read back key by key. *)
Lemma prepare_spec_inv src_dir project dest_project applet_spec :
  prepare_spec L src_dir project = Ret (dest_project, applet_spec) ->
  exists manifest,
    load_json L (path_join src_dir "dxapp.json") = Ret manifest
    /\ is_Some (manifest !! "runSpec")
    /\ dest_project = destination L manifest project
    /\ applet_spec !! "project" = Some dest_project
    /\ match manifest !! "name" with
       | Some name => applet_spec !! "name" = Some name
       | None => exists p, abspath L src_dir = Ret p
                           /\ applet_spec !! "name" = Some (JStr (basename p))
       end
    /\ applet_spec !! "dxapi" = Some (default (API_VERSION L) (manifest !! "dxapi"))
    /\ forall key, key <> "project" -> key <> "name" -> key <> "dxapi" ->
                   applet_spec !! key = manifest !! key.
Proof.
  unfold prepare_spec, _get_applet_spec, _validate_applet_spec.
  destruct (load_json L (path_join src_dir "dxapp.json")) as [manifest|]; simpl; [|done].
  destruct (has_key manifest "runSpec") eqn:Hrun; simpl; [|done].
  apply has_key_true in Hrun. intros H. exists manifest.
  split; [done|]. split; [done|].
  unfold destination, resolve_project, getitem, default_name in H.
  destruct project as [p|], (manifest !! "project") as [pr|] eqn:Hproj,
    (manifest !! "name") as [name|] eqn:Hname,
    (manifest !! "dxapi") as [dxapi|] eqn:Hdxapi;
    repeat first
      [ progress simpl in H
      | progress unfold has_key in H
      | progress simplify_map_eq
      | match type of H with
        | context [abspath L src_dir] =>
            let E := fresh "Habs" in destruct (abspath L src_dir) eqn:E
        end ];
    unfold destination; simplify_map_eq;
    (repeat split; eauto; try (intros; by simplify_map_eq)).
Qed.

End prepared_spec.

(** ** The fields [upload_applet] overrides *)

Section overrides.
Context (L : Local).
Local Arguments setdefault : simpl never.

Lemma find_toolkit_dep_true deps found :
  find_toolkit_dep deps found = Ret true ->
  found = true \/ exists dep, dep ∈ deps /\ names_toolkit dep.
Proof.
  revert found. induction deps as [|dep deps IH]; intros found; simpl.
  - intros [= ->]. by left.
  - destruct (is_toolkit_dep dep) as [[]|] eqn:Hdep; simpl; [| |done].
    + intros _. right. exists dep. split; [apply elem_of_cons; by left|].
      by apply is_toolkit_dep_true.
    + intros [Hfound|(dep' & Hin & Hname)]%IH; [by left|].
      right. exists dep'. split; [apply elem_of_cons; by right | done].
Qed.

Lemma inline_description_inv src_dir applet_spec applet_spec' :
  inline_description L src_dir applet_spec = Ret applet_spec' ->
  (forall key, key <> "description" -> applet_spec' !! key = applet_spec !! key)
  /\ match applet_spec !! "description", readme_filename L src_dir with
     | None, Some filename =>
         exists text, read_file L (path_join src_dir filename) = Ret text
                      /\ applet_spec' !! "description" = Some (JStr text)
     | _, _ => applet_spec' = applet_spec
     end.
Proof.
  unfold inline_description, has_key.
  destruct (applet_spec !! "description") as [d|]; simpl; [by intros [= <-]|].
  destruct (readme_filename L src_dir) as [filename|]; [|by intros [= <-]].
  destruct (read_file L (path_join src_dir filename)) as [text|]; simpl; [|done].
  intros [= <-]. split.
  - intros key Hne. by rewrite lookup_insert_ne.
  - exists text. by rewrite lookup_insert_eq.
Qed.

Lemma inline_code_inv src_dir applet_spec applet_spec' :
  inline_code L src_dir applet_spec = Ret applet_spec' ->
  (forall key, key <> "runSpec" -> applet_spec' !! key = applet_spec !! key)
  /\ match applet_spec !! "runSpec" with
     | Some (JObj rs) =>
         match rs !! "file" with
         | Some file =>
             exists f code,
               file = JStr f
               /\ read_file L (path_join src_dir f) = Ret code
               /\ applet_spec' !! "runSpec"
                  = Some (JObj (delete "file" (<["code" := JStr code]> rs)))
         | None => applet_spec' = applet_spec
         end
     | _ => applet_spec' = applet_spec
     end.
Proof.
  unfold inline_code.
  destruct (applet_spec !! "runSpec") as [run_spec|] eqn:Hrun; [|by intros [= <-]].
  destruct (py_contains run_spec "file") as [[]|] eqn:Hin; simpl; [| |done].
  - destruct run_spec as [| | | | |rs]; try done.
    simpl in Hin. injection Hin as Hin. apply has_key_true in Hin as [file Hfile].
    unfold getitem. rewrite Hfile. simpl.
    destruct file as [| | |f| |]; try done.
    destruct (read_file L (path_join src_dir f)) as [code|] eqn:Hread; simpl; [|done].
    intros [= <-]. split.
    + intros key Hne. by rewrite lookup_insert_ne.
    + exists f, code. by rewrite lookup_insert_eq.
  - intros [= <-]. split; [done|].
    destruct run_spec as [| | | | |rs]; try done.
    simpl in Hin. injection Hin as Hin. apply has_key_false in Hin. by rewrite Hin.
Qed.

Lemma attach_resources_inv uploaded_resources applet_spec applet_spec' :
  attach_resources uploaded_resources applet_spec = Ret applet_spec' ->
  (forall key, key <> "runSpec" -> applet_spec' !! key = applet_spec !! key)
  /\ match uploaded_resources with
     | None => applet_spec' = applet_spec
     | Some resources =>
         exists rs bundled,
           applet_spec !! "runSpec" = Some (JObj rs)
           /\ default (JArr []) (rs !! "bundledDepends") = JArr bundled
           /\ applet_spec' !! "runSpec"
              = Some (JObj (<["bundledDepends" := JArr (bundled ++ resources)]> rs))
     end.
Proof.
  unfold attach_resources. destruct uploaded_resources as [resources|]; [|by intros [= <-]].
  unfold getitem.
  destruct (applet_spec !! "runSpec") as [[| | | | |rs]|] eqn:Hrun; simpl; try done.
  rewrite setdefault_lookup. simpl.
  destruct (default (JArr []) (rs !! "bundledDepends")) as [| | | |bundled|] eqn:Hb;
    try done.
  intros [= <-]. split.
  - intros key Hne. by rewrite lookup_insert_ne.
  - exists rs, bundled. split; [done|]. split; [done|].
    rewrite lookup_insert_eq. do 2 f_equal.
    unfold setdefault, has_key.
    destruct (rs !! "bundledDepends"); [done|]. by rewrite insert_insert_eq.
Qed.

Lemma add_toolkit_dep_inv dx_toolkit_autodep applet_spec applet_spec' :
  add_toolkit_dep dx_toolkit_autodep applet_spec = Ret applet_spec' ->
  (forall key, key <> "runSpec" -> applet_spec' !! key = applet_spec !! key)
  /\ if dx_toolkit_autodep then
       exists rs deps deps',
         applet_spec !! "runSpec" = Some (JObj rs)
         /\ default (JArr []) (rs !! "execDepends") = JArr deps
         /\ applet_spec' !! "runSpec" = Some (JObj (<["execDepends" := JArr deps']> rs))
         /\ (exists dep, dep ∈ deps' /\ names_toolkit dep)
         /\ (deps' = deps \/ deps' = deps ++ [dx_toolkit_dep])
     else applet_spec' = applet_spec.
Proof.
  unfold add_toolkit_dep. destruct dx_toolkit_autodep; [|by intros [= <-]].
  unfold getitem.
  destruct (applet_spec !! "runSpec") as [[| | | | |rs]|] eqn:Hrun; simpl; try done.
  rewrite setdefault_lookup. simpl.
  destruct (default (JArr []) (rs !! "execDepends")) as [| | | |deps|] eqn:Hd; try done.
  destruct (find_toolkit_dep deps false) as [[]|] eqn:Hfind; simpl; [| |done].
  - intros [= <-]. split; [intros key Hne; by rewrite lookup_insert_ne|].
    exists rs, deps, deps. split; [done|]. split; [done|].
    rewrite lookup_insert_eq. split.
    + do 2 f_equal. unfold setdefault, has_key.
      destruct (rs !! "execDepends") eqn:E; simplify_eq/=. by rewrite insert_id.
    + split; [|by left]. by destruct (find_toolkit_dep_true _ _ Hfind).
  - intros [= <-]. split; [intros key Hne; by rewrite lookup_insert_ne|].
    exists rs, deps, (deps ++ [dx_toolkit_dep]). split; [done|]. split; [done|].
    rewrite lookup_insert_eq. split.
    + do 2 f_equal. unfold setdefault, has_key.
      destruct (rs !! "execDepends"); [done|]. by rewrite insert_insert_eq.
    + split; [|by right]. exists dx_toolkit_dep. split.
      * apply elem_of_app. right. by apply list_elem_of_singleton.
      * apply is_toolkit_dep_true, toolkit_dep_names_toolkit.
Qed.

Lemma default_contact_url_inv applet_spec applet_spec' :
  default_contact_url L applet_spec = Ret applet_spec' ->
  (forall key, key <> "details" -> applet_spec' !! key = applet_spec !! key)
  /\ match applet_spec !! "details" with
     | Some (JObj d) =>
         match d !! "contactUrl" with
         | Some _ => applet_spec' = applet_spec
         | None =>
             exists name,
               applet_spec !! "name" = Some name
               /\ applet_spec' !! "details"
                  = Some (JObj (<["contactUrl" :=
                                    JStr ("http://wiki.dnanexus.com/Apps/" +:+ format_s L name)]>
                                  d))
         end
     | Some _ => applet_spec' = applet_spec
     | None =>
         exists name,
           applet_spec !! "name" = Some name
           /\ applet_spec' !! "details"
              = Some (JObj (<["contactUrl" :=
                                JStr ("http://wiki.dnanexus.com/Apps/" +:+ format_s L name)]>
                              ∅))
     end.
Proof.
  unfold default_contact_url, has_key, getitem.
  destruct (applet_spec !! "details") as [details|] eqn:Hdet; simpl.
  - rewrite Hdet. simpl.
    destruct (py_contains details "contactUrl") as [[]|] eqn:Hin; simpl; [| |done].
    + intros [= <-]. split; [done|].
      destruct details as [| | | | |d]; try done.
      simpl in Hin. injection Hin as Hin. apply has_key_true in Hin as [url Hurl].
      by rewrite Hurl.
    + destruct (applet_spec !! "name") as [name|] eqn:Hname; simpl; [|done].
      destruct details as [| | | | |d]; try done.
      intros [= <-]. split; [intros key Hne; by rewrite lookup_insert_ne|].
      simpl in Hin. injection Hin as Hin. apply has_key_false in Hin. rewrite Hin.
      exists name. by rewrite lookup_insert_eq.
  - rewrite lookup_insert_eq. cbn [mbind outcome_bind py_contains].
    unfold has_key. rewrite lookup_empty. cbn [negb].
    rewrite lookup_insert_ne by done.
    destruct (applet_spec !! "name") as [name|] eqn:Hname; simpl; [|done].
    intros [= <-]. split.
    + intros key Hne. by rewrite !lookup_insert_ne.
    + exists name. split; [done|]. by rewrite insert_insert_eq, lookup_insert_eq.
Qed.

Lemma override_fields_steps src_dir uploaded_resources dx_toolkit_autodep applet_spec
    applet_spec' :
  override_fields L src_dir uploaded_resources dx_toolkit_autodep applet_spec
  = Ret applet_spec' ->
  exists s1 s2 s3 s4,
    inline_description L src_dir applet_spec = Ret s1
    /\ inline_code L src_dir s1 = Ret s2
    /\ attach_resources uploaded_resources s2 = Ret s3
    /\ add_toolkit_dep dx_toolkit_autodep s3 = Ret s4
    /\ default_contact_url L s4 = Ret applet_spec'.
Proof.
  unfold override_fields.
  destruct (inline_description L src_dir applet_spec) as [s1|] eqn:H1;
    cbn [mbind outcome_bind]; [|done].
  destruct (inline_code L src_dir s1) as [s2|] eqn:H2; cbn [mbind outcome_bind]; [|done].
  destruct (attach_resources uploaded_resources s2) as [s3|] eqn:H3;
    cbn [mbind outcome_bind]; [|done].
  destruct (add_toolkit_dep dx_toolkit_autodep s3) as [s4|] eqn:H4;
    cbn [mbind outcome_bind]; [|done].
  intros H. by exists s1, s2, s3, s4.
Qed.

(** The run specification as it leaves [override_fields], step by step. *)
Lemma override_fields_run_spec src_dir uploaded_resources dx_toolkit_autodep applet_spec
    applet_spec' rs :
  override_fields L src_dir uploaded_resources dx_toolkit_autodep applet_spec
  = Ret applet_spec' ->
  applet_spec !! "runSpec" = Some (JObj rs) ->
  exists rs1 rs2 rs3,
    applet_spec' !! "runSpec" = Some (JObj rs3)
    /\ match rs !! "file" with
       | Some file =>
           exists f code,
             file = JStr f /\ read_file L (path_join src_dir f) = Ret code
             /\ rs1 = delete "file" (<["code" := JStr code]> rs)
       | None => rs1 = rs
       end
    /\ match uploaded_resources with
       | Some resources =>
           exists bundled,
             default (JArr []) (rs1 !! "bundledDepends") = JArr bundled
             /\ rs2 = <["bundledDepends" := JArr (bundled ++ resources)]> rs1
       | None => rs2 = rs1
       end
    /\ if dx_toolkit_autodep then
         exists deps deps',
           default (JArr []) (rs2 !! "execDepends") = JArr deps
           /\ rs3 = <["execDepends" := JArr deps']> rs2
           /\ (exists dep, dep ∈ deps' /\ names_toolkit dep)
           /\ (deps' = deps \/ deps' = deps ++ [dx_toolkit_dep])
       else rs3 = rs2.
Proof.
  intros (s1 & s2 & s3 & s4 & H1 & H2 & H3 & H4 & H5)%override_fields_steps Hrun.
  apply inline_description_inv in H1 as [K1 _].
  apply inline_code_inv in H2 as [K2 C2]. rewrite (K1 "runSpec"), Hrun in C2 by done.
  apply attach_resources_inv in H3 as [K3 C3].
  apply add_toolkit_dep_inv in H4 as [K4 C4].
  apply default_contact_url_inv in H5 as [K5 _]. rewrite (K5 "runSpec") by done.
  assert (exists rs1, s2 !! "runSpec" = Some (JObj rs1)
                      /\ match rs !! "file" with
                         | Some file =>
                             exists f code,
                               file = JStr f /\ read_file L (path_join src_dir f) = Ret code
                               /\ rs1 = delete "file" (<["code" := JStr code]> rs)
                         | None => rs1 = rs
                         end) as (rs1 & Hrs1 & F1).
  { destruct (rs !! "file") as [file|].
    - destruct C2 as (f & code & -> & Hread & Hs2). eexists. split; [exact Hs2|].
      by exists f, code.
    - subst s2. exists rs. by rewrite (K1 "runSpec"). }
  assert (exists rs2, s3 !! "runSpec" = Some (JObj rs2)
                      /\ match uploaded_resources with
                         | Some resources =>
                             exists bundled,
                               default (JArr []) (rs1 !! "bundledDepends") = JArr bundled
                               /\ rs2 = <["bundledDepends" := JArr (bundled ++ resources)]> rs1
                         | None => rs2 = rs1
                         end) as (rs2 & Hrs2 & F2).
  { destruct uploaded_resources as [resources|].
    - destruct C3 as (rs' & bundled & Hrs' & Hb & Hs3).
      rewrite Hrs1 in Hrs'. injection Hrs' as <-.
      eexists. split; [exact Hs3|]. by exists bundled.
    - subst s3. by exists rs1. }
  destruct dx_toolkit_autodep.
  - destruct C4 as (rs' & deps & deps' & Hrs' & Hd & Hs4 & Hname & Hdeps).
    rewrite Hrs2 in Hrs'. injection Hrs' as <-.
    exists rs1, rs2, (<["execDepends" := JArr deps']> rs2).
    split; [exact Hs4|]. split; [exact F1|]. split; [exact F2|].
    by exists deps, deps'.
  - subst s4. by exists rs1, rs2, rs2.
Qed.

End overrides.

(** ** What [upload_applet] sends *)

Section applet_calls.
Context {W : Type} (P : Platform W) (L : Local).

(** Every call of [upload_applet], tied to the prepared spec: the search
    names the applet, every call names the destination, and what is created
    is the prepared spec with its fields overridden. *)
Lemma upload_applet_issues src_dir uploaded_resources check_name_collisions overwrite
    project dx_toolkit_autodep :
  issues_all
    (fun c =>
       exists dest_project applet_spec,
         prepare_spec L src_dir project = Ret (dest_project, applet_spec)
         /\ match c with
            | FindDataObjects classname name pr =>
                check_name_collisions = true /\ classname = "applet"
                /\ applet_spec !! "name" = Some (JStr name) /\ pr = dest_project
            | RemoveObjects pr _ =>
                check_name_collisions = true /\ overwrite = true /\ pr = dest_project
            | AppletNew sent =>
                override_fields L src_dir uploaded_resources dx_toolkit_autodep applet_spec
                = Ret sent
            | AppletSetProperties _ pr properties =>
                pr = dest_project
                /\ exists sent,
                    override_fields L src_dir uploaded_resources dx_toolkit_autodep
                                    applet_spec = Ret sent
                    /\ applet_properties sent = Ret properties
            | AppletAddTags _ pr tags =>
                pr = dest_project
                /\ exists sent,
                    override_fields L src_dir uploaded_resources dx_toolkit_autodep
                                    applet_spec = Ret sent
                    /\ sent !! "categories" = Some tags
            | _ => False
            end)
    (upload_applet P L src_dir uploaded_resources check_name_collisions overwrite project
                   dx_toolkit_autodep).
Proof.
  unfold upload_applet. apply issues_all_lift_bind. intros [dest_project applet_spec] Hprep.
  simpl. apply issues_all_bind.
  - destruct check_name_collisions; [|apply issues_all_ret].
    unfold check_collisions. apply issues_all_lift_bind. intros name Hname.
    unfold getitem in Hname.
    destruct (applet_spec !! "name") as [name'|] eqn:Hn; [|done]. injection Hname as ->.
    destruct name as [| | |n| |]; try apply issues_all_raise.
    apply issues_all_bind.
    + apply issues_all_invoke. by exists dest_project, applet_spec.
    + intros ids. induction ids as [|id ids IH]; simpl; [apply issues_all_ret|].
      destruct overwrite; [|apply issues_all_raise].
      apply issues_all_bind; [|intros _; exact IH].
      apply issues_all_invoke. by exists dest_project, applet_spec.
  - intros _. apply issues_all_lift_bind. intros sent Hsent.
    unfold create_applet. apply issues_all_bind.
    + apply issues_all_invoke. by exists dest_project, applet_spec.
    + intros applet_id. apply issues_all_lift_bind. intros properties Hprops.
      apply issues_all_bind.
      * apply issues_all_invoke. exists dest_project, applet_spec.
        split; [done|]. split; [done|]. by exists sent.
      * intros _. apply issues_all_bind; [|intros _; apply issues_all_ret].
        destruct (sent !! "categories") as [tags|] eqn:Hcat; [|apply issues_all_ret].
        apply issues_all_invoke. exists dest_project, applet_spec.
        split; [done|]. split; [done|]. by exists sent.
Qed.

End applet_calls.

Section applet_spec_sent.
Context {W : Type} (P : Platform W) (L : Local).

Lemma override_fields_keys src_dir uploaded_resources dx_toolkit_autodep applet_spec
    applet_spec' key :
  override_fields L src_dir uploaded_resources dx_toolkit_autodep applet_spec
  = Ret applet_spec' ->
  key <> "description" -> key <> "runSpec" -> key <> "details" ->
  applet_spec' !! key = applet_spec !! key.
Proof.
  intros (s1 & s2 & s3 & s4 & H1 & H2 & H3 & H4 & H5)%override_fields_steps ? ? ?.
  apply inline_description_inv in H1 as [K1 _].
  apply inline_code_inv in H2 as [K2 _].
  apply attach_resources_inv in H3 as [K3 _].
  apply add_toolkit_dep_inv in H4 as [K4 _].
  apply default_contact_url_inv in H5 as [K5 _].
  by rewrite K5, K4, K3, K2, K1.
Qed.

(** What is created is the prepared spec with its fields overridden. *)
Lemma applet_sent_inv src_dir uploaded_resources check_name_collisions overwrite project
    dx_toolkit_autodep manifest (s : state W) sent :
  load_json L (path_join src_dir "dxapp.json") = Ret manifest ->
  sends (upload_applet P L src_dir uploaded_resources check_name_collisions overwrite
                       project dx_toolkit_autodep) s (AppletNew sent) ->
  exists applet_spec,
    prepare_spec L src_dir project = Ret (destination L manifest project, applet_spec)
    /\ override_fields L src_dir uploaded_resources dx_toolkit_autodep applet_spec
       = Ret sent.
Proof.
  intros Hload Hsends.
  pose proof (sends_issues_all _ _ _ _ (upload_applet_issues P L _ _ _ _ _ _) Hsends)
    as (dest_project & applet_spec & Hprep & Hsent).
  exists applet_spec. split; [|done].
  destruct (prepare_spec_inv _ _ _ _ _ Hprep) as (manifest' & Hload' & _ & -> & _).
  rewrite Hload in Hload'. by injection Hload' as <-.
Qed.


(** X2: the spec [upload_applet] creates has a name and an API version: the
    manifest's when it gives them, else the base name of the absolute source
    directory and the ambient API version. *)
Theorem created_spec_is_named (src_dir : string)
    (uploaded_resources : option (list json)) (check_name_collisions overwrite : bool)
    (project : option string) (dx_toolkit_autodep : bool) (manifest : object)
    (s : state W) (sent : object) :
  load_json L (path_join src_dir "dxapp.json") = Ret manifest ->
  sends (upload_applet P L src_dir uploaded_resources check_name_collisions overwrite
                       project dx_toolkit_autodep) s (AppletNew sent) ->
  match manifest !! "name" with
  | Some name => sent !! "name" = Some name
  | None => exists p, abspath L src_dir = Ret p /\ sent !! "name" = Some (JStr (basename p))
  end
  /\ sent !! "dxapi" = Some (default (API_VERSION L) (manifest !! "dxapi")).
Proof.
  intros Hload Hsends.
  destruct (applet_sent_inv _ _ _ _ _ _ _ _ _ Hload Hsends) as (applet_spec & Hprep & Hsent).
  destruct (prepare_spec_inv _ _ _ _ _ Hprep)
    as (manifest' & Hload' & _ & _ & _ & Hname & Hdxapi & _).
  rewrite Hload in Hload'. injection Hload' as <-.
  rewrite !(override_fields_keys _ _ _ _ _ _ Hsent) by done. by split.
Qed.

(** X3: a manifest whose name cannot be settled (no ['name'], and the source
    directory has no absolute path) makes [upload_applet] raise the
    configuration error before any call. *)
Theorem unresolved_name_is_a_configuration_error (src_dir : string)
    (uploaded_resources : option (list json)) (check_name_collisions overwrite : bool)
    (project : option string) (dx_toolkit_autodep : bool) (manifest : object)
    (s : state W) (e : exn) :
  load_json L (path_join src_dir "dxapp.json") = Ret manifest ->
  has_key manifest "runSpec" = true ->
  manifest !! "name" = None ->
  abspath L src_dir = Raise e ->
  upload_applet P L src_dir uploaded_resources check_name_collisions overwrite project
                dx_toolkit_autodep s
  = (Raise (AppletBuilderException
              "Could not resolve applet name from specification or working directory"),
     s).
Proof.
  intros Hload Hrun Hname Habs. unfold upload_applet. apply run_lift_raise.
  unfold prepare_spec. rewrite (get_applet_spec_loads _ _ _ Hload Hrun).
  unfold resolve_project, getitem, default_name, has_key.
  destruct project as [p|], (manifest !! "project") as [pr|] eqn:Hproj; simpl;
    simplify_map_eq; simpl; by rewrite Habs.
Qed.

(** X4: the fields of the manifest that [upload_applet] does not settle
    itself reach the platform as they are, and a description or a
    [details.contactUrl] the manifest gives is never replaced. *)
Theorem manifest_fields_reach_the_platform (src_dir : string)
    (uploaded_resources : option (list json)) (check_name_collisions overwrite : bool)
    (project : option string) (dx_toolkit_autodep : bool) (manifest : object)
    (s : state W) (sent : object) :
  load_json L (path_join src_dir "dxapp.json") = Ret manifest ->
  sends (upload_applet P L src_dir uploaded_resources check_name_collisions overwrite
                       project dx_toolkit_autodep) s (AppletNew sent) ->
  (forall key,
      key ∉ ["project"; "name"; "dxapi"; "description"; "runSpec"; "details"] ->
      sent !! key = manifest !! key)
  /\ (forall description,
        manifest !! "description" = Some description ->
        sent !! "description" = Some description)
  /\ (forall d url,
        manifest !! "details" = Some (JObj d) ->
        d !! "contactUrl" = Some url ->
        sent !! "details" = Some (JObj d)).
Proof.
  intros Hload Hsends.
  destruct (applet_sent_inv _ _ _ _ _ _ _ _ _ Hload Hsends) as (applet_spec & Hprep & Hsent).
  destruct (prepare_spec_inv _ _ _ _ _ Hprep)
    as (manifest' & Hload' & _ & _ & _ & _ & _ & Hkeys).
  rewrite Hload in Hload'. injection Hload' as <-.
  split; [|split].
  - intros key Hkey. rewrite !not_elem_of_cons in Hkey.
    destruct Hkey as (? & ? & ? & ? & ? & ? & _).
    rewrite (override_fields_keys _ _ _ _ _ _ Hsent) by done. by apply Hkeys.
  - intros description Hd.
    apply override_fields_steps in Hsent as (s1 & s2 & s3 & s4 & H1 & H2 & H3 & H4 & H5).
    apply inline_description_inv in H1 as [_ C1].
    rewrite (Hkeys "description"), Hd in C1 by done.
    assert (s1 = applet_spec) as -> by (by destruct (readme_filename L src_dir)).
    apply inline_code_inv in H2 as [K2 _].
    apply attach_resources_inv in H3 as [K3 _].
    apply add_toolkit_dep_inv in H4 as [K4 _].
    apply default_contact_url_inv in H5 as [K5 _].
    rewrite K5, K4, K3, K2 by done. rewrite Hkeys by done. exact Hd.
  - intros d url Hd Hurl.
    apply override_fields_steps in Hsent as (s1 & s2 & s3 & s4 & H1 & H2 & H3 & H4 & H5).
    apply inline_description_inv in H1 as [K1 _].
    apply inline_code_inv in H2 as [K2 _].
    apply attach_resources_inv in H3 as [K3 _].
    apply add_toolkit_dep_inv in H4 as [K4 _].
    apply default_contact_url_inv in H5 as [_ C5].
    rewrite K4, K3, K2, K1, Hkeys, Hd, Hurl in C5 by done. subst sent.
    rewrite K4, K3, K2, K1, Hkeys by done. exact Hd.
Qed.

(** X5: when the manifest has no description, the spec created has the text
    of the readme as its description: [README.md] if there is one, else
    [Readme.md], else [readme.md]; with no readme it has no description. *)
Theorem readme_becomes_the_description (src_dir : string)
    (uploaded_resources : option (list json)) (check_name_collisions overwrite : bool)
    (project : option string) (dx_toolkit_autodep : bool) (manifest : object)
    (s : state W) (sent : object) :
  load_json L (path_join src_dir "dxapp.json") = Ret manifest ->
  sends (upload_applet P L src_dir uploaded_resources check_name_collisions overwrite
                       project dx_toolkit_autodep) s (AppletNew sent) ->
  manifest !! "description" = None ->
  let there filename := path_exists L (path_join src_dir filename) in
  let readme :=
    if there "README.md" then Some "README.md"
    else if there "Readme.md" then Some "Readme.md"
    else if there "readme.md" then Some "readme.md"
    else None in
  match readme with
  | Some filename =>
      exists text, read_file L (path_join src_dir filename) = Ret text
                   /\ sent !! "description" = Some (JStr text)
  | None => sent !! "description" = None
  end.
Proof.
  intros Hload Hsends Hnone there readme.
  destruct (applet_sent_inv _ _ _ _ _ _ _ _ _ Hload Hsends) as (applet_spec & Hprep & Hsent).
  destruct (prepare_spec_inv _ _ _ _ _ Hprep)
    as (manifest' & Hload' & _ & _ & _ & _ & _ & Hkeys).
  rewrite Hload in Hload'. injection Hload' as <-.
  apply override_fields_steps in Hsent as (s1 & s2 & s3 & s4 & H1 & H2 & H3 & H4 & H5).
  apply inline_description_inv in H1 as [_ C1].
  rewrite (Hkeys "description"), Hnone in C1 by done.
  apply inline_code_inv in H2 as [K2 _].
  apply attach_resources_inv in H3 as [K3 _].
  apply add_toolkit_dep_inv in H4 as [K4 _].
  apply default_contact_url_inv in H5 as [K5 _].
  rewrite K5, K4, K3, K2 by done.
  assert (readme_filename L src_dir = readme) as Hreadme.
  { unfold readme_filename, readme, there. simpl.
    by destruct (path_exists L (path_join src_dir "README.md")),
                (path_exists L (path_join src_dir "Readme.md")),
                (path_exists L (path_join src_dir "readme.md")). }
  rewrite Hreadme in C1. destruct readme as [filename|]; [exact C1|].
  subst s1. by rewrite Hkeys.
Qed.

(** The run specification created, from the manifest's. *)
Lemma run_spec_sent_inv src_dir uploaded_resources check_name_collisions overwrite project
    dx_toolkit_autodep manifest (s : state W) sent rs :
  load_json L (path_join src_dir "dxapp.json") = Ret manifest ->
  sends (upload_applet P L src_dir uploaded_resources check_name_collisions overwrite
                       project dx_toolkit_autodep) s (AppletNew sent) ->
  manifest !! "runSpec" = Some (JObj rs) ->
  exists applet_spec,
    applet_spec !! "runSpec" = Some (JObj rs)
    /\ override_fields L src_dir uploaded_resources dx_toolkit_autodep applet_spec
       = Ret sent.
Proof.
  intros Hload Hsends Hrun.
  destruct (applet_sent_inv _ _ _ _ _ _ _ _ _ Hload Hsends) as (applet_spec & Hprep & Hsent).
  destruct (prepare_spec_inv _ _ _ _ _ Hprep)
    as (manifest' & Hload' & _ & _ & _ & _ & _ & Hkeys).
  rewrite Hload in Hload'. injection Hload' as <-.
  exists applet_spec. split; [|done]. by rewrite Hkeys.
Qed.

(** X6: the run specification created never has a ['file']: when the
    manifest's names one, the text of that file is its ['code']; keys other
    than ['file'], ['code'], ['bundledDepends'] and ['execDepends'] are the
    manifest's. *)
Theorem code_is_sent_inline (src_dir : string)
    (uploaded_resources : option (list json)) (check_name_collisions overwrite : bool)
    (project : option string) (dx_toolkit_autodep : bool) (manifest : object)
    (s : state W) (sent rs : object) :
  load_json L (path_join src_dir "dxapp.json") = Ret manifest ->
  sends (upload_applet P L src_dir uploaded_resources check_name_collisions overwrite
                       project dx_toolkit_autodep) s (AppletNew sent) ->
  manifest !! "runSpec" = Some (JObj rs) ->
  exists rs',
    sent !! "runSpec" = Some (JObj rs')
    /\ rs' !! "file" = None
    /\ match rs !! "file" with
       | Some file =>
           exists f code, file = JStr f /\ read_file L (path_join src_dir f) = Ret code
                          /\ rs' !! "code" = Some (JStr code)
       | None => rs' !! "code" = rs !! "code"
       end
    /\ forall key, key ∉ ["file"; "code"; "bundledDepends"; "execDepends"] ->
                   rs' !! key = rs !! key.
Proof.
  intros Hload Hsends Hrun.
  destruct (run_spec_sent_inv _ _ _ _ _ _ _ _ _ _ Hload Hsends Hrun)
    as (applet_spec & Hrs & Hsent).
  destruct (override_fields_run_spec _ _ _ _ _ _ _ Hsent Hrs)
    as (rs1 & rs2 & rs3 & Hsent3 & F1 & F2 & F3).
  exists rs3. split; [exact Hsent3|].
  assert (forall key, key <> "bundledDepends" -> key <> "execDepends" ->
                      rs3 !! key = rs1 !! key) as Hlater.
  { intros key ? ?.
    destruct dx_toolkit_autodep; [destruct F3 as (deps & deps' & _ & -> & _)|subst rs3];
      (destruct uploaded_resources; [destruct F2 as (bundled & _ & ->)|subst rs2]);
      by rewrite ?lookup_insert_ne. }
  rewrite !Hlater by done. split; [|split].
  - destruct (rs !! "file") as [file|] eqn:Hfile.
    + destruct F1 as (f & code & _ & _ & ->). by rewrite lookup_delete_eq.
    + by subst rs1.
  - destruct (rs !! "file") as [file|] eqn:Hfile.
    + destruct F1 as (f & code & -> & Hread & ->). exists f, code.
      by rewrite lookup_delete_ne, lookup_insert_eq.
    + by subst rs1.
  - intros key Hkey. rewrite !not_elem_of_cons in Hkey.
    destruct Hkey as (? & ? & ? & ? & _). rewrite Hlater by done.
    destruct (rs !! "file") as [file|] eqn:Hfile.
    + destruct F1 as (f & code & _ & _ & ->).
      by rewrite lookup_delete_ne, lookup_insert_ne.
    + by subst rs1.
Qed.

(** X7: the resources handed to [upload_applet] end the ['bundledDepends']
    of the run specification created, after the manifest's own entries in
    their order; with no resources the list is the manifest's. *)
Theorem resources_are_appended (src_dir : string)
    (uploaded_resources : option (list json)) (check_name_collisions overwrite : bool)
    (project : option string) (dx_toolkit_autodep : bool) (manifest : object)
    (s : state W) (sent rs : object) :
  load_json L (path_join src_dir "dxapp.json") = Ret manifest ->
  sends (upload_applet P L src_dir uploaded_resources check_name_collisions overwrite
                       project dx_toolkit_autodep) s (AppletNew sent) ->
  manifest !! "runSpec" = Some (JObj rs) ->
  exists rs',
    sent !! "runSpec" = Some (JObj rs')
    /\ match uploaded_resources with
       | Some resources =>
           exists bundled,
             default (JArr []) (rs !! "bundledDepends") = JArr bundled
             /\ rs' !! "bundledDepends" = Some (JArr (bundled ++ resources))
       | None => rs' !! "bundledDepends" = rs !! "bundledDepends"
       end.
Proof.
  intros Hload Hsends Hrun.
  destruct (run_spec_sent_inv _ _ _ _ _ _ _ _ _ _ Hload Hsends Hrun)
    as (applet_spec & Hrs & Hsent).
  destruct (override_fields_run_spec _ _ _ _ _ _ _ Hsent Hrs)
    as (rs1 & rs2 & rs3 & Hsent3 & F1 & F2 & F3).
  exists rs3. split; [exact Hsent3|].
  assert (rs3 !! "bundledDepends" = rs2 !! "bundledDepends") as ->.
  { destruct dx_toolkit_autodep; [destruct F3 as (deps & deps' & _ & -> & _)|subst rs3];
      by rewrite ?lookup_insert_ne. }
  assert (rs1 !! "bundledDepends" = rs !! "bundledDepends") as H1.
  { destruct (rs !! "file") as [file|] eqn:Hfile; [|by subst rs1].
    destruct F1 as (f & code & _ & _ & ->).
    by rewrite lookup_delete_ne, lookup_insert_ne. }
  destruct uploaded_resources as [resources|].
  - destruct F2 as (bundled & Hb & ->). exists bundled.
    rewrite lookup_insert_eq. by rewrite <- H1.
  - by subst rs2.
Qed.

(** X8: with [dx_toolkit_autodep], the ['execDepends'] created holds an entry
    naming the toolkit and begins with the manifest's own entries in their
    order, followed by at most the toolkit entry; without it the list is the
    manifest's. *)
Theorem toolkit_dependency_is_sent (src_dir : string)
    (uploaded_resources : option (list json)) (check_name_collisions overwrite : bool)
    (project : option string) (dx_toolkit_autodep : bool) (manifest : object)
    (s : state W) (sent rs : object) :
  load_json L (path_join src_dir "dxapp.json") = Ret manifest ->
  sends (upload_applet P L src_dir uploaded_resources check_name_collisions overwrite
                       project dx_toolkit_autodep) s (AppletNew sent) ->
  manifest !! "runSpec" = Some (JObj rs) ->
  exists rs',
    sent !! "runSpec" = Some (JObj rs')
    /\ if dx_toolkit_autodep then
         exists deps deps',
           default (JArr []) (rs !! "execDepends") = JArr deps
           /\ rs' !! "execDepends" = Some (JArr deps')
           /\ (exists dep, dep ∈ deps' /\ names_toolkit dep)
           /\ (deps' = deps \/ deps' = deps ++ [dx_toolkit_dep])
       else rs' !! "execDepends" = rs !! "execDepends".
Proof.
  intros Hload Hsends Hrun.
  destruct (run_spec_sent_inv _ _ _ _ _ _ _ _ _ _ Hload Hsends Hrun)
    as (applet_spec & Hrs & Hsent).
  destruct (override_fields_run_spec _ _ _ _ _ _ _ Hsent Hrs)
    as (rs1 & rs2 & rs3 & Hsent3 & F1 & F2 & F3).
  exists rs3. split; [exact Hsent3|].
  assert (rs2 !! "execDepends" = rs !! "execDepends") as H2.
  { transitivity (rs1 !! "execDepends").
    - destruct uploaded_resources; [destruct F2 as (bundled & _ & ->)|subst rs2];
        by rewrite ?lookup_insert_ne.
    - destruct (rs !! "file") as [file|] eqn:Hfile; [|by subst rs1].
      destruct F1 as (f & code & _ & _ & ->).
      by rewrite lookup_delete_ne, lookup_insert_ne. }
  destruct dx_toolkit_autodep.
  - destruct F3 as (deps & deps' & Hd & -> & Hname & Hdeps). exists deps, deps'.
    rewrite <- H2, lookup_insert_eq. done.
  - by subst rs3.
Qed.

(** X9: when the manifest gives no [details.contactUrl], the spec created
    has the wiki page of the applet's name as its contact URL, beside the
    details the manifest gives. *)
Theorem contact_url_defaults_to_the_wiki (src_dir : string)
    (uploaded_resources : option (list json)) (check_name_collisions overwrite : bool)
    (project : option string) (dx_toolkit_autodep : bool) (manifest : object)
    (s : state W) (sent : object) :
  load_json L (path_join src_dir "dxapp.json") = Ret manifest ->
  sends (upload_applet P L src_dir uploaded_resources check_name_collisions overwrite
                       project dx_toolkit_autodep) s (AppletNew sent) ->
  forall d,
    manifest !! "details" = None /\ d = ∅ \/ manifest !! "details" = Some (JObj d) ->
    d !! "contactUrl" = None ->
    exists name,
      sent !! "name" = Some name
      /\ sent !! "details"
         = Some (JObj (<["contactUrl" :=
                           JStr ("http://wiki.dnanexus.com/Apps/" +:+ format_s L name)]> d)).
Proof.
  intros Hload Hsends d Hdetails Hurl.
  destruct (applet_sent_inv _ _ _ _ _ _ _ _ _ Hload Hsends) as (applet_spec & Hprep & Hsent).
  destruct (prepare_spec_inv _ _ _ _ _ Hprep)
    as (manifest' & Hload' & _ & _ & _ & _ & _ & Hkeys).
  rewrite Hload in Hload'. injection Hload' as <-.
  pose proof (override_fields_keys _ _ _ _ _ "name" Hsent) as Hname.
  apply override_fields_steps in Hsent as (s1 & s2 & s3 & s4 & H1 & H2 & H3 & H4 & H5).
  apply inline_description_inv in H1 as [K1 _].
  apply inline_code_inv in H2 as [K2 _].
  apply attach_resources_inv in H3 as [K3 _].
  apply add_toolkit_dep_inv in H4 as [K4 _].
  apply default_contact_url_inv in H5 as [K5 C5].
  rewrite K4, K3, K2, K1, Hkeys in C5 by done.
  rewrite Hname by done. rewrite <- (K1 "name"), <- (K2 "name"), <- (K3 "name"),
                           <- (K4 "name") by done.
  destruct Hdetails as [[Hd ->]|Hd]; rewrite Hd in C5.
  - exact C5.
  - by rewrite Hurl in C5.
Qed.

(** X10: [upload_applet] searches only with [check_name_collisions], removes
    only with [check_name_collisions] and [overwrite] both, and never issues
    a call about apps. *)
Theorem applet_upload_footprint (src_dir : string)
    (uploaded_resources : option (list json)) (check_name_collisions overwrite : bool)
    (project : option string) (dx_toolkit_autodep : bool) (s : state W) (c : call) :
  sends (upload_applet P L src_dir uploaded_resources check_name_collisions overwrite
                       project dx_toolkit_autodep) s c ->
  (is_search c = true -> check_name_collisions = true)
  /\ (is_remove_objects c = true -> check_name_collisions = true /\ overwrite = true)
  /\ is_app_call c = false.
Proof.
  intros Hsends.
  pose proof (sends_issues_all _ _ _ _ (upload_applet_issues P L _ _ _ _ _ _) Hsends)
    as (dest_project & applet_spec & _ & Hc).
  destruct c; simpl; try done; repeat split; try done; tauto.
Qed.

End applet_spec_sent.

Lemma sends_at {W A} (m : M W A) (s : state W) (i : nat) (c : call) :
  trace s = [] -> trace (m s).2 !! i = Some c -> sends m s c.
Proof.
  intros Hs Hc. exists (trace (m s).2). split.
  - unfold new_calls. by rewrite Hs.
  - by eapply list_elem_of_lookup_2.
Qed.

Lemma fixture_creates : sends Fixture.build_run Script.start (AppletNew Fixture.sent).
Proof. apply (sends_at _ _ 2%nat); [reflexivity | vm_compute; reflexivity]. Qed.


Lemma created_spec_is_named_witness :
  match Fixture.manifest !! "name" with
  | Some name => Fixture.sent !! "name" = Some name
  | None => exists p, abspath Fixture.here "/src/myapp" = Ret p
                      /\ Fixture.sent !! "name" = Some (JStr (basename p))
  end
  /\ Fixture.sent !! "dxapi"
     = Some (default (API_VERSION Fixture.here) (Fixture.manifest !! "dxapi")).
Proof.
  apply (created_spec_is_named (Script.platform Script.all_published) Fixture.here
           "/src/myapp" Fixture.uploaded true true None true Fixture.manifest Script.start).
  - reflexivity.
  - exact fixture_creates.
Defined.

Lemma unresolved_name_is_a_configuration_error_witness :
  upload_applet (Script.platform Script.all_published)
    (Fixture.machine "README.md" (fun p => Raise (PyError "OSError" p))) "/src/myapp" None
    true false None true Script.start
  = (Raise (AppletBuilderException
              "Could not resolve applet name from specification or working directory"),
     Script.start).
Proof.
  apply (unresolved_name_is_a_configuration_error (Script.platform Script.all_published)
           (Fixture.machine "README.md" (fun p => Raise (PyError "OSError" p)))
           "/src/myapp" None true false None true Fixture.manifest Script.start
           (PyError "OSError" "/src/myapp")).
  - reflexivity.
  - vm_compute. reflexivity.
  - vm_compute. reflexivity.
  - reflexivity.
Defined.

Lemma manifest_fields_reach_the_platform_witness :
  Fixture.sent !! "title" = Fixture.manifest !! "title"
  /\ Fixture.sent !! "categories" = Fixture.manifest !! "categories".
Proof.
  destruct (manifest_fields_reach_the_platform (Script.platform Script.all_published)
              Fixture.here "/src/myapp" Fixture.uploaded true true None true
              Fixture.manifest Script.start Fixture.sent eq_refl fixture_creates)
    as (Hkeys & _ & _).
  split; apply Hkeys; rewrite !not_elem_of_cons; repeat split; try discriminate;
    apply not_elem_of_nil.
Defined.

Lemma readme_becomes_the_description_witness :
  exists text, read_file Fixture.here (path_join "/src/myapp" "Readme.md") = Ret text
               /\ Fixture.sent !! "description" = Some (JStr text).
Proof.
  apply (readme_becomes_the_description (Script.platform Script.all_published)
           Fixture.here "/src/myapp" Fixture.uploaded true true None true Fixture.manifest
           Script.start Fixture.sent).
  - reflexivity.
  - exact fixture_creates.
  - vm_compute. reflexivity.
Defined.

Lemma code_is_sent_inline_witness :
  exists rs',
    Fixture.sent !! "runSpec" = Some (JObj rs')
    /\ rs' !! "file" = None
    /\ rs' !! "code" = Some (JStr "main()")
    /\ rs' !! "interpreter" = Some (JStr "python2.7").
Proof.
  destruct (code_is_sent_inline (Script.platform Script.all_published) Fixture.here
              "/src/myapp" Fixture.uploaded true true None true Fixture.manifest
              Script.start Fixture.sent
              (<["file" := JStr "main.py"]>
                 (<["interpreter" := JStr "python2.7"]>
                    (<["bundledDepends" := JArr [JStr "lib-1"]]>
                       (<["execDepends" := JArr [Script.other_dep]]> ∅))))
              eq_refl fixture_creates)
    as (rs' & Hsent & Hfile & Hcode & Hkeys); [vm_compute; reflexivity|].
  exists rs'. split; [exact Hsent|]. split; [exact Hfile|]. split.
  - rewrite lookup_insert_eq in Hcode. destruct Hcode as (f & code & Hf & Hread & ->).
    injection Hf as <-. vm_compute in Hread. by injection Hread as <-.
  - rewrite Hkeys; [vm_compute; reflexivity|].
    rewrite !not_elem_of_cons; repeat split; try discriminate; apply not_elem_of_nil.
Defined.

Lemma resources_are_appended_witness :
  exists rs',
    Fixture.sent !! "runSpec" = Some (JObj rs')
    /\ exists bundled,
        bundled = [JStr "lib-1"]
        /\ rs' !! "bundledDepends" = Some (JArr (bundled ++ [bundle Fixture.here "file-1"])).
Proof.
  destruct (resources_are_appended (Script.platform Script.all_published) Fixture.here
              "/src/myapp" Fixture.uploaded true true None true Fixture.manifest
              Script.start Fixture.sent
              (<["file" := JStr "main.py"]>
                 (<["interpreter" := JStr "python2.7"]>
                    (<["bundledDepends" := JArr [JStr "lib-1"]]>
                       (<["execDepends" := JArr [Script.other_dep]]> ∅))))
              eq_refl fixture_creates)
    as (rs' & Hsent & bundled & Hb & Hrs'); [vm_compute; reflexivity|].
  exists rs'. split; [exact Hsent|]. exists bundled. split; [|exact Hrs'].
  vm_compute in Hb. by injection Hb as <-.
Defined.

Lemma toolkit_dependency_is_sent_witness :
  exists rs' deps',
    Fixture.sent !! "runSpec" = Some (JObj rs')
    /\ rs' !! "execDepends" = Some (JArr deps')
    /\ (exists dep, dep ∈ deps' /\ names_toolkit dep)
    /\ (deps' = [Script.other_dep] \/ deps' = [Script.other_dep] ++ [dx_toolkit_dep]).
Proof.
  destruct (toolkit_dependency_is_sent (Script.platform Script.all_published) Fixture.here
              "/src/myapp" Fixture.uploaded true true None true Fixture.manifest
              Script.start Fixture.sent
              (<["file" := JStr "main.py"]>
                 (<["interpreter" := JStr "python2.7"]>
                    (<["bundledDepends" := JArr [JStr "lib-1"]]>
                       (<["execDepends" := JArr [Script.other_dep]]> ∅))))
              eq_refl fixture_creates)
    as (rs' & Hsent & deps & deps' & Hd & Hrs' & Hname & Hdeps); [vm_compute; reflexivity|].
  exists rs', deps'. split; [exact Hsent|]. split; [exact Hrs'|]. split; [exact Hname|].
  vm_compute in Hd. by injection Hd as <-.
Defined.

Lemma contact_url_defaults_to_the_wiki_witness :
  exists name,
    Fixture.sent !! "name" = Some name
    /\ Fixture.sent !! "details"
       = Some (JObj (<["contactUrl" :=
                         JStr ("http://wiki.dnanexus.com/Apps/"
                                 +:+ format_s Fixture.here name)]>
                       (<["upstreamUrl" := JStr "http://example.org"]> ∅))).
Proof.
  apply (contact_url_defaults_to_the_wiki (Script.platform Script.all_published)
           Fixture.here "/src/myapp" Fixture.uploaded true true None true Fixture.manifest
           Script.start Fixture.sent eq_refl fixture_creates).
  - right. vm_compute. reflexivity.
  - vm_compute. reflexivity.
Defined.

Lemma applet_upload_footprint_witness :
  (is_search (RemoveObjects (JStr "project-0") ["applet-old"]) = true -> true = true)
  /\ (is_remove_objects (RemoveObjects (JStr "project-0") ["applet-old"]) = true ->
      true = true /\ true = true)
  /\ is_app_call (RemoveObjects (JStr "project-0") ["applet-old"]) = false.
Proof.
  apply (applet_upload_footprint (Script.platform Script.all_published) Fixture.here
           "/src/myapp" Fixture.uploaded true true None true Script.start).
  apply (sends_at _ _ 1%nat); [reflexivity | vm_compute; reflexivity].
Defined.

(** ** One round of the version loop *)

Section version_round.
Context {W : Type} (P : Platform W) (L : Local).

Lemma probe_not_found app_name version (s : state W) e w1 :
  appDescribe P ("app-" +:+ app_name) version (world s) = (Raise e, w1) ->
  probe_version P app_name version s
  = ((if not_found e then Ret None else Raise e),
     {| world := w1; trace := trace s ++ [AppDescribe ("app-" +:+ app_name) version] |}).
Proof.
  intros Hprobe. rewrite probe_version_run, Hprobe. simpl.
  by destruct e.
Qed.

Lemma update_version_run app_name version app_spec (s : state W) :
  _update_version P app_name version app_spec true s
  = (match (appUpdate P ("app-" +:+ app_name) version app_spec (world s)).1 with
     | Ret app_id => Ret (Some app_id)
     | Raise e => if invalid_state e then Ret None else Raise e
     end,
     {| world := (appUpdate P ("app-" +:+ app_name) version app_spec (world s)).2;
        trace := trace s ++ [AppUpdate ("app-" +:+ app_name) version app_spec] |}).
Proof.
  unfold _update_version, catch. simpl. rewrite run_bind, run_invoke.
  destruct (appUpdate P ("app-" +:+ app_name) version app_spec (world s)) as [[id|e] w1];
    simpl; [reflexivity|].
  destruct e as [name msg| | | |]; simpl; try reflexivity.
  by destruct (bool_decide (name = "InvalidState")).
Qed.

(** X11: a candidate that is not there yet and that [appNew] accepts ends the
    loop: [create_app] goes on to categories and publication having issued
    the applet describe, one probe and one [appNew], whatever [try_update]
    and whatever candidates follow. *)
Theorem fresh_version_is_created (applet_id src_dir : string) (publish set_default : bool)
    (billTo : option string) (version : json) (rest : list json) (try_update : bool)
    (manifest : object) (s : state W) (applet_desc : applet_description)
    (msg app_id : string) (w0 w1 w2 : W) :
  load_json L (path_join src_dir "dxapp.json") = Ret manifest ->
  applet_describe P applet_id (world s) = (Ret applet_desc, w0) ->
  let app := "app-" +:+ ad_name applet_desc in
  let app_spec :=
    <["version" := version]> (fill_app_spec applet_id applet_desc billTo manifest) in
  appDescribe P app version w0 = (Raise (DXAPIError "ResourceNotFound" msg), w1) ->
  appNew P app_spec w1 = (Ret app_id, w2) ->
  create_app P L applet_id src_dir publish set_default billTo (version :: rest) try_update s
  = finish_app P app_id app_spec publish set_default
      {| world := w2;
         trace := trace s ++ [AppletDescribe applet_id; AppDescribe app version;
                              AppNew app_spec] |}.
Proof.
  intros Hload Hdesc app app_spec Hprobe Hnew.
  rewrite (create_app_run P L _ _ _ _ _ _ _ _ _ _ _ _ Hload Hdesc), run_bind.
  cbn [try_each_version].
  rewrite run_bind, probe_version_run. simpl. fold app. rewrite Hprobe. simpl.
  rewrite run_bind. unfold _create_or_update_version, catch.
  rewrite run_bind, run_invoke. simpl. fold app_spec. rewrite Hnew. simpl.
  by rewrite <- !app_assoc.
Qed.

(** X12: with [try_update], a candidate that is there and not published and
    that [appUpdate] accepts ends the loop: [create_app] goes on having
    issued the applet describe, one probe and one [appUpdate], never
    [appNew]. *)
Theorem unpublished_version_is_updated (applet_id src_dir : string)
    (publish set_default : bool) (billTo : option string) (version : json)
    (rest : list json) (manifest : object) (s : state W)
    (applet_desc : applet_description) (app_describe : app_description)
    (app_id : string) (w0 w1 w2 : W) :
  load_json L (path_join src_dir "dxapp.json") = Ret manifest ->
  applet_describe P applet_id (world s) = (Ret applet_desc, w0) ->
  let app := "app-" +:+ ad_name applet_desc in
  let app_spec :=
    <["version" := version]> (fill_app_spec applet_id applet_desc billTo manifest) in
  appDescribe P app version w0 = (Ret app_describe, w1) ->
  get_published app_describe = 0 ->
  appUpdate P app version app_spec w1 = (Ret app_id, w2) ->
  create_app P L applet_id src_dir publish set_default billTo (version :: rest) true s
  = finish_app P app_id app_spec publish set_default
      {| world := w2;
         trace := trace s ++ [AppletDescribe applet_id; AppDescribe app version;
                              AppUpdate app version app_spec] |}.
Proof.
  intros Hload Hdesc app app_spec Hprobe Hpub Hupdate.
  rewrite (create_app_run P L _ _ _ _ _ _ _ _ _ _ _ _ Hload Hdesc), run_bind.
  cbn [try_each_version].
  rewrite run_bind, probe_version_run. simpl. fold app. rewrite Hprobe. simpl.
  rewrite bool_decide_eq_true_2 by done.
  rewrite run_bind, update_version_run. simpl. fold app app_spec. rewrite Hupdate. simpl.
  by rewrite <- !app_assoc.
Qed.

(** X13: with [try_update], when [appUpdate] on a candidate that is there and
    not published fails with [InvalidState], the loop moves to the next
    candidate; any other failure of [appUpdate] ends [create_app] with that
    failure. *)
Theorem update_race_falls_through (app_name : string) (try_versions : list json)
    (version : json) (rest : list json) (app_spec : object) (s : state W)
    (app_describe : app_description) (e : exn) (w1 w2 : W) :
  let app := "app-" +:+ app_name in
  let app_spec' := <["version" := version]> app_spec in
  let after := {| world := w2;
                  trace := trace s ++ [AppDescribe app version;
                                       AppUpdate app version app_spec'] |} in
  appDescribe P app version (world s) = (Ret app_describe, w1) ->
  get_published app_describe = 0 ->
  appUpdate P app version app_spec' w1 = (Raise e, w2) ->
  try_each_version P app_name true try_versions (version :: rest) app_spec s
  = if invalid_state e then try_each_version P app_name true try_versions rest app_spec' after
    else (Raise e, after).
Proof.
  intros app app_spec' after Hprobe Hpub Hupdate. cbn [try_each_version].
  rewrite run_bind, probe_version_run. simpl. fold app. rewrite Hprobe. simpl.
  rewrite bool_decide_eq_true_2 by done.
  rewrite run_bind, update_version_run. simpl. fold app app_spec'. rewrite Hupdate. simpl.
  unfold after. rewrite <- !app_assoc. simpl. by destruct (invalid_state e).
Qed.

(** X14: a probe that fails with anything but [ResourceNotFound], and an
    [appNew] that fails with anything but the alias conflict, end the loop
    with that failure and no further call. *)
Theorem other_remote_errors_are_fatal (app_name : string) (try_update : bool)
    (try_versions : list json) (version : json) (rest : list json) (app_spec : object)
    (s : state W) :
  let app := "app-" +:+ app_name in
  let app_spec' := <["version" := version]> app_spec in
  (forall e w1,
      appDescribe P app version (world s) = (Raise e, w1) ->
      not_found e = false ->
      try_each_version P app_name try_update try_versions (version :: rest) app_spec s
      = (Raise e, {| world := w1; trace := trace s ++ [AppDescribe app version] |}))
  /\ (forall e0 w1 e w2,
        appDescribe P app version (world s) = (Raise e0, w1) ->
        not_found e0 = true ->
        appNew P app_spec' w1 = (Raise e, w2) ->
        alias_conflict e = false ->
        try_each_version P app_name try_update try_versions (version :: rest) app_spec s
        = (Raise e,
           {| world := w2;
              trace := trace s ++ [AppDescribe app version; AppNew app_spec'] |})).
Proof.
  intros app app_spec'. split.
  - intros e w1 Hprobe Hfatal. cbn [try_each_version].
    by rewrite run_bind, (probe_not_found _ _ _ _ _ Hprobe), Hfatal.
  - intros e0 w1 e w2 Hprobe Hnone Hnew Hfatal. cbn [try_each_version].
    rewrite run_bind, (probe_not_found _ _ _ _ _ Hprobe), Hnone. simpl.
    rewrite run_bind. unfold _create_or_update_version, catch.
    rewrite run_bind, run_invoke. simpl. fold app_spec'. rewrite Hnew. simpl.
    rewrite <- !app_assoc. simpl.
    destruct e; simpl in *; try reflexivity. by rewrite Hfatal.
Qed.

(** X15: when [appNew] meets the alias conflict, the version is looked at
    again: found published, the loop moves to the next candidate without an
    update, even with [try_update]; found not published, with [try_update],
    it is updated in place. *)
Theorem alias_conflict_is_recovered (app_name : string) (try_versions : list json)
    (version : json) (rest : list json) (app_spec : object) (s : state W) (e0 : exn)
    (app_describe : app_description) (w1 w2 w3 : W) :
  let app := "app-" +:+ app_name in
  let app_spec' := <["version" := version]> app_spec in
  let looked := {| world := w3;
                   trace := trace s ++ [AppDescribe app version; AppNew app_spec';
                                        AppDescribe app version] |} in
  appDescribe P app version (world s) = (Raise e0, w1) ->
  not_found e0 = true ->
  appNew P app_spec' w1 = (Raise (DXAPIError "InvalidInput" alias_conflict_msg), w2) ->
  appDescribe P app version w2 = (Ret app_describe, w3) ->
  (0 < get_published app_describe ->
   forall try_update,
     try_each_version P app_name try_update try_versions (version :: rest) app_spec s
     = try_each_version P app_name try_update try_versions rest app_spec' looked)
  /\ (get_published app_describe <= 0 ->
      forall app_id w4,
        appUpdate P app version app_spec' w3 = (Ret app_id, w4) ->
        try_each_version P app_name true try_versions (version :: rest) app_spec s
        = (Ret (app_id, app_spec'),
           {| world := w4;
              trace := trace looked ++ [AppUpdate app version app_spec'] |})).
Proof.
  intros app app_spec' looked Hprobe Hnone Hnew Hagain.
  assert (forall try_update,
             try_each_version P app_name try_update try_versions (version :: rest) app_spec s
             = (app_id ← (if bool_decide (0 < get_published app_describe) then mret None
                          else _update_version P app_name version app_spec' try_update);
                match app_id with
                | None => try_each_version P app_name try_update try_versions rest app_spec'
                | Some app_id => mret (app_id, app_spec')
                end) looked) as Hround.
  { intros try_update. cbn [try_each_version].
    rewrite run_bind, (probe_not_found _ _ _ _ _ Hprobe), Hnone. simpl.
    rewrite run_bind. unfold _create_or_update_version, catch.
    rewrite run_bind, run_invoke. simpl. fold app_spec'. rewrite Hnew. simpl.
    rewrite run_bind, run_invoke. simpl. fold app. rewrite Hagain. simpl.
    rewrite <- !app_assoc. simpl. rewrite run_bind. reflexivity. }
  split.
  - intros Hpub try_update. rewrite Hround, bool_decide_eq_true_2 by done. reflexivity.
  - intros Hpub app_id w4 Hupdate. rewrite Hround, bool_decide_eq_false_2 by lia.
    rewrite run_bind, update_version_run. simpl. fold app. by rewrite Hupdate.
Qed.

End version_round.

(** ** What [create_app] sends *)

Section app_calls.
Context {W : Type} (P : Platform W) (L : Local).

Lemma fill_app_spec_lookup applet_id applet_desc billTo (manifest : object) :
  let base := fill_app_spec applet_id applet_desc billTo manifest in
  base !! "applet" = Some (JStr applet_id)
  /\ base !! "name" = Some (JStr (ad_name applet_desc))
  /\ base !! "version" = manifest !! "version"
  /\ base !! "categories" = manifest !! "categories".
Proof.
  unfold fill_app_spec, copy_property, copy_key.
  destruct billTo as [b|]; [destruct (bool_decide (b = ""))|];
    destruct (ad_properties applet_desc !! "title"),
             (ad_properties applet_desc !! "summary"),
             (ad_properties applet_desc !! "description");
    by simplify_map_eq.
Qed.

Lemma issues_all_bind_post {A B} (Q : call -> Prop) (R : A -> Prop) (m : M W A)
    (k : A -> M W B) :
  (forall s, exists new, new_calls s (m s).2 new /\ Forall Q new
                         /\ forall a, (m s).1 = Ret a -> R a) ->
  (forall a, R a -> issues_all Q (k a)) ->
  issues_all Q (m ≫= k).
Proof.
  intros Hm Hk s. rewrite run_bind.
  destruct (Hm s) as (new1 & Hcalls1 & Hok1 & Hpost).
  destruct (m s) as [[a|e] s1]; simpl in *; [|by exists new1].
  destruct (Hk a (Hpost a eq_refl) s1) as (new2 & Hcalls2 & Hok2).
  exists (new1 ++ new2). split.
  - by eapply new_calls_trans.
  - by apply Forall_app.
Qed.

Lemma sends_after {A B} (Q : call -> Prop) (m : M W A) (m' : M W B) (s s0 : state W)
    (l : list call) (c : call) :
  (m s).2 = (m' s0).2 ->
  new_calls s s0 l ->
  issues_all Q m' ->
  sends m s c ->
  c ∈ l \/ Q c.
Proof.
  intros Hrun Hl Hm' (new & Hnew & Hin).
  destruct (Hm' s0) as (new' & Hnew' & HQ).
  unfold new_calls in *. rewrite Hrun, Hnew', Hl, <- app_assoc in Hnew.
  apply app_inv_head in Hnew. subst new.
  apply elem_of_app in Hin as [Hin|Hin]; [by left|].
  right. rewrite Forall_forall in HQ. by apply HQ.
Qed.

(** The calls of the loop, over a spec that is [base] but for its version. *)
Lemma try_each_version_issues app_name try_update try_versions base todo app_spec :
  (app_spec = base \/ exists v, app_spec = <["version" := v]> base) ->
  (forall v, v ∈ todo -> v ∈ try_versions) ->
  forall s,
    exists new,
      new_calls s (try_each_version P app_name try_update try_versions todo app_spec s).2 new
      /\ Forall (fun c =>
                   match c with
                   | AppDescribe app v => app = "app-" +:+ app_name /\ v ∈ try_versions
                   | AppNew sent =>
                       exists v, v ∈ try_versions /\ sent = <["version" := v]> base
                   | AppUpdate app v sent =>
                       try_update = true /\ app = "app-" +:+ app_name
                       /\ v ∈ try_versions /\ sent = <["version" := v]> base
                   | _ => False
                   end) new
      /\ forall created,
          (try_each_version P app_name try_update try_versions todo app_spec s).1
          = Ret created ->
          exists v, created.2 = <["version" := v]> base.
Proof.
  revert app_spec. induction todo as [|version rest IH]; intros app_spec Hspec Htodo s.
  - exists []. split; [apply new_calls_refl|]. split; [constructor|].
    simpl. unfold lift. simpl. by destruct (tried_versions try_versions).
  - assert (<["version" := version]> app_spec = <["version" := version]> base) as Hins.
    { destruct Hspec as [->|[v ->]]; [done|]. by rewrite insert_insert_eq. }
    assert (version ∈ try_versions) as Hin by (apply Htodo, elem_of_cons; by left).
    assert (forall v, v ∈ rest -> v ∈ try_versions) as Hrest
        by (intros v Hv; apply Htodo, elem_of_cons; by right).
    assert (forall s1, exists new,
               new_calls s1 (try_each_version P app_name try_update try_versions rest
                               (<["version" := version]> base) s1).2 new
               /\ Forall (fun c =>
                            match c with
                            | AppDescribe app v =>
                                app = "app-" +:+ app_name /\ v ∈ try_versions
                            | AppNew sent =>
                                exists v, v ∈ try_versions /\ sent = <["version" := v]> base
                            | AppUpdate app v sent =>
                                try_update = true /\ app = "app-" +:+ app_name
                                /\ v ∈ try_versions /\ sent = <["version" := v]> base
                            | _ => False
                            end) new
               /\ forall created,
                   (try_each_version P app_name try_update try_versions rest
                      (<["version" := version]> base) s1).1 = Ret created ->
                   exists v, created.2 = <["version" := v]> base) as Hnext.
    { apply IH; [right; by exists version | exact Hrest]. }
    cbn [try_each_version]. rewrite Hins. clear Hins IH Hspec Htodo.
    set (spec := <["version" := version]> base) in *.
    set (app := "app-" +:+ app_name).
    rewrite run_bind, probe_version_run. fold app.
    destruct (appDescribe P app version (world s)) as [[d|e] w1]; simpl.
    + (* the version is there *)
      destruct (bool_decide (get_published d = 0)).
      * rewrite run_bind. destruct try_update.
        -- rewrite update_version_run. fold app. simpl.
           destruct (appUpdate P app version spec w1) as [[id|e] w2]; simpl.
           ++ eexists [_; _]. split; [unfold new_calls; simpl; by rewrite <- !app_assoc|].
              split; [by repeat constructor|]. intros created [= <-]. by exists version.
           ++ destruct (invalid_state e); simpl.
              ** destruct (Hnext {| world := w2;
                                    trace := (trace s ++ [AppDescribe app version])
                                               ++ [AppUpdate app version spec] |})
                   as (new & Hnew & HQ & Hpost).
                 exists (AppDescribe app version :: AppUpdate app version spec :: new).
                 split; [unfold new_calls in *; rewrite Hnew; simpl;
                         by rewrite <- !app_assoc|].
                 split; [by repeat constructor|exact Hpost].
              ** eexists [_; _]. split; [unfold new_calls; simpl; by rewrite <- !app_assoc|].
                 split; [by repeat constructor|done].
        -- simpl.
           destruct (Hnext {| world := w1; trace := trace s ++ [AppDescribe app version] |})
             as (new & Hnew & HQ & Hpost).
           exists (AppDescribe app version :: new).
           split; [unfold new_calls in *; rewrite Hnew; simpl; by rewrite <- !app_assoc|].
           split; [by repeat constructor|exact Hpost].
      * destruct (Hnext {| world := w1; trace := trace s ++ [AppDescribe app version] |})
          as (new & Hnew & HQ & Hpost).
        exists (AppDescribe app version :: new).
        split; [unfold new_calls in *; rewrite Hnew; simpl; by rewrite <- !app_assoc|].
        split; [by repeat constructor|exact Hpost].
    + (* the probe failed *)
      assert ((match e with
               | DXAPIError name msg =>
                   if bool_decide (name = "ResourceNotFound") then Ret None
                   else Raise (DXAPIError name msg)
               | _ => Raise e
               end : outcome (option app_description))
              = if not_found e then Ret None else Raise e) as -> by (by destruct e).
      destruct (not_found e); simpl;
        [|exists [AppDescribe app version]; split; [reflexivity|];
          split; [by repeat constructor|done]].
      rewrite run_bind. unfold _create_or_update_version, catch.
      rewrite run_bind, run_invoke. simpl.
      destruct (appNew P spec w1) as [[id|e'] w2]; simpl.
      * eexists [_; _]. split; [unfold new_calls; simpl; by rewrite <- !app_assoc|].
        split; [repeat constructor; eauto|]. intros created [= <-]. by exists version.
      * assert (forall (k : M W (option string)),
                   (match e' with
                    | DXAPIError name msg =>
                        if bool_decide (name = "InvalidInput")
                           && bool_decide (msg = alias_conflict_msg) then k
                        else raise e'
                    | _ => raise e'
                    end) = if alias_conflict e' then k else raise e') as Hcase
            by (intros k; by destruct e').
        rewrite Hcase. clear Hcase.
        destruct (alias_conflict e'); simpl;
          [|eexists [_; _]; split; [unfold new_calls; simpl; by rewrite <- !app_assoc|];
            split; [repeat constructor; eauto|done]].
        rewrite run_bind, run_invoke. simpl. fold app.
        destruct (appDescribe P app version w2) as [[d|e''] w3]; simpl;
          [|eexists [_; _; _]; split; [unfold new_calls; simpl; by rewrite <- !app_assoc|];
            split; [repeat constructor; eauto|done]].
        destruct (bool_decide (0 < get_published d)); simpl.
        -- destruct (Hnext {| world := w3;
                              trace := ((trace s ++ [AppDescribe app version])
                                          ++ [AppNew spec]) ++ [AppDescribe app version] |})
             as (new & Hnew & HQ & Hpost).
           exists (AppDescribe app version :: AppNew spec :: AppDescribe app version :: new).
           split; [unfold new_calls in *; rewrite Hnew; simpl; by rewrite <- !app_assoc|].
           split; [repeat constructor; eauto|exact Hpost].
        -- destruct try_update.
           ++ rewrite update_version_run. fold app. simpl.
              destruct (appUpdate P app version spec w3) as [[id|e''] w4]; simpl.
              ** eexists [_; _; _; _].
                 split; [unfold new_calls; simpl; by rewrite <- !app_assoc|].
                 split; [repeat constructor; eauto|].
                 intros created [= <-]. by exists version.
              ** destruct (invalid_state e''); simpl.
                 --- destruct (Hnext {| world := w4;
                                        trace := (((trace s ++ [AppDescribe app version])
                                                     ++ [AppNew spec])
                                                    ++ [AppDescribe app version])
                                                   ++ [AppUpdate app version spec] |})
                       as (new & Hnew & HQ & Hpost).
                     exists (AppDescribe app version :: AppNew spec
                               :: AppDescribe app version
                               :: AppUpdate app version spec :: new).
                     split; [unfold new_calls in *; rewrite Hnew; simpl;
                             by rewrite <- !app_assoc|].
                     split; [repeat constructor; eauto|exact Hpost].
                 --- eexists [_; _; _; _].
                     split; [unfold new_calls; simpl; by rewrite <- !app_assoc|].
                     split; [repeat constructor; eauto|done].
           ++ simpl.
              destruct (Hnext {| world := w3;
                                 trace := ((trace s ++ [AppDescribe app version])
                                             ++ [AppNew spec])
                                            ++ [AppDescribe app version] |})
                as (new & Hnew & HQ & Hpost).
              exists (AppDescribe app version :: AppNew spec
                        :: AppDescribe app version :: new).
              split; [unfold new_calls in *; rewrite Hnew; simpl; by rewrite <- !app_assoc|].
              split; [repeat constructor; eauto|exact Hpost].
Qed.

(** Every call of [create_app], tied to the manifest and to what the applet
    describe answered. *)
Lemma create_app_issues applet_id src_dir publish set_default billTo try_versions
    try_update manifest (s : state W) applet_desc w0 c :
  load_json L (path_join src_dir "dxapp.json") = Ret manifest ->
  applet_describe P applet_id (world s) = (Ret applet_desc, w0) ->
  sends (create_app P L applet_id src_dir publish set_default billTo try_versions
                    try_update) s c ->
  let base := fill_app_spec applet_id applet_desc billTo manifest in
  let app_name := ad_name applet_desc in
  match c with
  | AppletDescribe id => id = applet_id
  | AppDescribe app v => app = "app-" +:+ app_name /\ v ∈ candidates manifest try_versions
  | AppNew sent =>
      exists v, v ∈ candidates manifest try_versions /\ sent = <["version" := v]> base
  | AppUpdate app v sent =>
      try_update = true /\ app = "app-" +:+ app_name
      /\ v ∈ candidates manifest try_versions /\ sent = <["version" := v]> base
  | AppAddCategories _ categories => manifest !! "categories" = Some categories
  | AppPublish _ makeDefault => publish = true /\ makeDefault = set_default
  | _ => False
  end.
Proof.
  intros Hload Hdesc Hsends base app_name.
  set (Q := fun c =>
              match c with
              | AppDescribe app v =>
                  app = "app-" +:+ app_name /\ v ∈ candidates manifest try_versions
              | AppNew sent =>
                  exists v, v ∈ candidates manifest try_versions
                            /\ sent = <["version" := v]> base
              | AppUpdate app v sent =>
                  try_update = true /\ app = "app-" +:+ app_name
                  /\ v ∈ candidates manifest try_versions /\ sent = <["version" := v]> base
              | AppAddCategories _ categories => manifest !! "categories" = Some categories
              | AppPublish _ makeDefault => publish = true /\ makeDefault = set_default
              | _ => False
              end).
  set (rest :=
         cands ← lift (match try_versions with
                       | [] => version ← getitem base "version"; Ret [version]
                       | _ => Ret try_versions
                       end);
         created ← try_each_version P app_name try_update cands cands base;
         finish_app P created.1 created.2 publish set_default).
  destruct (fill_app_spec_lookup applet_id applet_desc billTo manifest)
    as (_ & _ & Hversion & Hcats). fold base in Hversion, Hcats.
  assert (issues_all Q rest) as Hrest.
  { unfold rest. apply issues_all_lift_bind. intros cands Hcands.
    assert (cands = candidates manifest try_versions) as ->.
    { unfold candidates. destruct try_versions as [|v vs]; [|by injection Hcands as <-].
      unfold getitem in Hcands. rewrite Hversion in Hcands.
      destruct (manifest !! "version"); [|done]. by injection Hcands as <-. }
    apply (issues_all_bind_post Q (fun created => exists v, created.2 = <["version" := v]> base)).
    - intros s1.
      destruct (try_each_version_issues app_name try_update
                  (candidates manifest try_versions) base
                  (candidates manifest try_versions) base (or_introl eq_refl)
                  (fun v H => H) s1) as (new & Hnew & HQ & Hpost).
      exists new. split; [exact Hnew|]. split; [|exact Hpost].
      eapply Forall_impl; [exact HQ|]. intros [] Hc; try done; exact Hc.
    - intros [app_id sent] [v Hsent]. simpl in *. subst sent.
      unfold finish_app. rewrite lookup_insert_ne, Hcats by done.
      apply issues_all_bind.
      + destruct (manifest !! "categories") as [categories|] eqn:Hc;
          [|apply issues_all_ret].
        by apply issues_all_invoke.
      + intros _. apply issues_all_bind; [|intros _; apply issues_all_ret].
        destruct publish; [|apply issues_all_ret]. by apply issues_all_invoke. }
  destruct (sends_after Q
              (create_app P L applet_id src_dir publish set_default billTo try_versions
                          try_update)
              rest s {| world := w0; trace := trace s ++ [AppletDescribe applet_id] |}
              [AppletDescribe applet_id] c) as [Hin|HQ]; try done.
  - unfold create_app, _get_app_spec. rewrite Hload. simpl.
    rewrite run_bind. unfold lift at 1. rewrite run_bind, run_invoke, Hdesc. reflexivity.
  - by apply list_elem_of_singleton in Hin as ->.
  - by destruct c.
Qed.

(** X16: every [appNew] and [appUpdate] of [create_app] carries the applet
    id as ['applet'], the applet's name as ['name'] (whatever the manifest
    says) and the candidate it is for as ['version']; every probe and update
    addresses [app-<name>] at one of the candidates. *)
Theorem app_requests_carry_the_candidate (applet_id src_dir : string)
    (publish set_default : bool) (billTo : option string) (try_versions : list json)
    (try_update : bool) (manifest : object) (s : state W)
    (applet_desc : applet_description) (w0 : W) (c : call) :
  load_json L (path_join src_dir "dxapp.json") = Ret manifest ->
  applet_describe P applet_id (world s) = (Ret applet_desc, w0) ->
  sends (create_app P L applet_id src_dir publish set_default billTo try_versions
                    try_update) s c ->
  let carries sent v :=
    sent !! "applet" = Some (JStr applet_id)
    /\ sent !! "name" = Some (JStr (ad_name applet_desc))
    /\ sent !! "version" = Some v
    /\ v ∈ candidates manifest try_versions in
  match c with
  | AppNew sent => exists v, carries sent v
  | AppUpdate app v sent => app = "app-" +:+ ad_name applet_desc /\ carries sent v
  | AppDescribe app v =>
      app = "app-" +:+ ad_name applet_desc /\ v ∈ candidates manifest try_versions
  | _ => True
  end.
Proof.
  intros Hload Hdesc Hsends carries.
  pose proof (create_app_issues _ _ _ _ _ _ _ _ _ _ _ _ Hload Hdesc Hsends) as Hc.
  destruct (fill_app_spec_lookup applet_id applet_desc billTo manifest)
    as (Happlet & Hname & _ & _).
  destruct c; try done.
  - destruct Hc as (v & Hin & ->). exists v. unfold carries.
    rewrite lookup_insert_eq, !lookup_insert_ne by done. done.
  - destruct Hc as (_ & -> & Hin & ->). split; [done|]. unfold carries.
    rewrite lookup_insert_eq, !lookup_insert_ne by done. done.
Qed.

(** X17: [create_app] issues nothing but the applet describe and calls about
    the app; it publishes only when asked, with [makeDefault] as [set_default],
    and the categories it adds are the manifest's. *)
Theorem app_creation_footprint (applet_id src_dir : string)
    (publish set_default : bool) (billTo : option string) (try_versions : list json)
    (try_update : bool) (manifest : object) (s : state W)
    (applet_desc : applet_description) (w0 : W) (c : call) :
  load_json L (path_join src_dir "dxapp.json") = Ret manifest ->
  applet_describe P applet_id (world s) = (Ret applet_desc, w0) ->
  sends (create_app P L applet_id src_dir publish set_default billTo try_versions
                    try_update) s c ->
  (c = AppletDescribe applet_id \/ is_app_call c = true)
  /\ match c with
     | AppPublish _ makeDefault => publish = true /\ makeDefault = set_default
     | AppAddCategories _ categories => manifest !! "categories" = Some categories
     | _ => True
     end.
Proof.
  intros Hload Hdesc Hsends.
  pose proof (create_app_issues _ _ _ _ _ _ _ _ _ _ _ _ Hload Hdesc Hsends) as Hc.
  destruct c; try done; simpl in *;
    (split; [first [left; by subst | by right] | first [exact Hc | done]]).
Qed.

(** X18: without [try_versions], the one candidate is the manifest's
    ['version']; a manifest without one makes [create_app] raise a KeyError
    once the applet is described, before any call about the app. *)
Theorem manifest_version_is_the_default_candidate (applet_id src_dir : string)
    (publish set_default : bool) (billTo : option string) (try_update : bool)
    (manifest : object) (s : state W) :
  load_json L (path_join src_dir "dxapp.json") = Ret manifest ->
  match manifest !! "version" with
  | Some version =>
      create_app P L applet_id src_dir publish set_default billTo [] try_update s
      = create_app P L applet_id src_dir publish set_default billTo [version] try_update s
  | None =>
      forall applet_desc w0,
        applet_describe P applet_id (world s) = (Ret applet_desc, w0) ->
        create_app P L applet_id src_dir publish set_default billTo [] try_update s
        = (Raise (PyError "KeyError" "version"),
           {| world := w0; trace := trace s ++ [AppletDescribe applet_id] |})
  end.
Proof.
  intros Hload.
  assert (forall try_versions,
             create_app P L applet_id src_dir publish set_default billTo try_versions
                        try_update s
             = match applet_describe P applet_id (world s) with
               | (Ret applet_desc, w0) =>
                   (cands ← lift (match try_versions with
                                  | [] =>
                                      version ← getitem (fill_app_spec applet_id applet_desc
                                                                       billTo manifest)
                                                        "version";
                                      Ret [version]
                                  | _ => Ret try_versions
                                  end);
                    created ← try_each_version P (ad_name applet_desc) try_update cands cands
                                (fill_app_spec applet_id applet_desc billTo manifest);
                    finish_app P created.1 created.2 publish set_default)
                     {| world := w0; trace := trace s ++ [AppletDescribe applet_id] |}
               | (Raise e, w0) =>
                   (Raise e, {| world := w0; trace := trace s ++ [AppletDescribe applet_id] |})
               end) as Hrun.
  { intros try_versions. unfold create_app, _get_app_spec. rewrite Hload. simpl.
    rewrite run_bind. unfold lift at 1. rewrite run_bind, run_invoke.
    by destruct (applet_describe P applet_id (world s)) as [[applet_desc|e] w0]. }
  destruct (manifest !! "version") as [version|] eqn:Hv.
  - rewrite !Hrun.
    destruct (applet_describe P applet_id (world s)) as [[applet_desc|e] w0]; [|done].
    destruct (fill_app_spec_lookup applet_id applet_desc billTo manifest)
      as (_ & _ & Hversion & _).
    rewrite !run_bind. unfold lift, getitem. by rewrite Hversion, Hv.
  - intros applet_desc w0 Hdesc. rewrite Hrun, Hdesc.
    destruct (fill_app_spec_lookup applet_id applet_desc billTo manifest)
      as (_ & _ & Hversion & _).
    rewrite run_bind. unfold lift, getitem. by rewrite Hversion, Hv.
Qed.

End app_calls.

Lemma fresh_version_is_created_witness :
  create_app (Script.platform Script.fresh) (Script.machine Script.manifest [])
    "applet-1" "/src/myapp" false false None [JStr "1.0.0"; JStr "2.0.0"] false
    Script.start
  = finish_app (Script.platform Script.fresh) "app-1"
      (<["version" := JStr "1.0.0"]>
         (fill_app_spec "applet-1" Versions.myapp None Script.manifest))
      false false
      {| world := 3%nat;
         trace := [] ++ [AppletDescribe "applet-1";
                         AppDescribe ("app-" +:+ "myapp") (JStr "1.0.0");
                         AppNew (<["version" := JStr "1.0.0"]>
                                   (fill_app_spec "applet-1" Versions.myapp None
                                                  Script.manifest))] |}.
Proof.
  apply (fresh_version_is_created (Script.platform Script.fresh)
           (Script.machine Script.manifest []) "applet-1" "/src/myapp" false false None
           (JStr "1.0.0") [JStr "2.0.0"] false Script.manifest Script.start Versions.myapp
           "no such app" "app-1" 1%nat 2%nat 3%nat);
    reflexivity.
Defined.

Lemma unpublished_version_is_updated_witness :
  create_app (Script.platform Script.unpublished_1_0_0) (Script.machine Script.manifest [])
    "applet-1" "/src/myapp" false false None [JStr "1.0.0"; JStr "2.0.0"] true
    Script.start
  = finish_app (Script.platform Script.unpublished_1_0_0) "app-1"
      (<["version" := JStr "1.0.0"]>
         (fill_app_spec "applet-1" Versions.myapp None Script.manifest))
      false false
      {| world := 3%nat;
         trace := [] ++ [AppletDescribe "applet-1";
                         AppDescribe ("app-" +:+ "myapp") (JStr "1.0.0");
                         AppUpdate ("app-" +:+ "myapp") (JStr "1.0.0")
                           (<["version" := JStr "1.0.0"]>
                              (fill_app_spec "applet-1" Versions.myapp None
                                             Script.manifest))] |}.
Proof.
  apply (unpublished_version_is_updated (Script.platform Script.unpublished_1_0_0)
           (Script.machine Script.manifest []) "applet-1" "/src/myapp" false false None
           (JStr "1.0.0") [JStr "2.0.0"] Script.manifest Script.start Versions.myapp
           {| published := None |} "app-1" 1%nat 2%nat 3%nat);
    reflexivity.
Defined.

Lemma update_race_falls_through_witness :
  try_each_version (Script.platform Versions.published_meanwhile) "myapp" true
    [JStr "1.0.0"] [JStr "1.0.0"] Script.manifest Script.start
  = try_each_version (Script.platform Versions.published_meanwhile) "myapp" true
      [JStr "1.0.0"] [] (<["version" := JStr "1.0.0"]> Script.manifest)
      {| world := 2%nat;
         trace := [] ++ [AppDescribe ("app-" +:+ "myapp") (JStr "1.0.0");
                         AppUpdate ("app-" +:+ "myapp") (JStr "1.0.0")
                           (<["version" := JStr "1.0.0"]> Script.manifest)] |}.
Proof.
  apply (update_race_falls_through (Script.platform Versions.published_meanwhile) "myapp"
           [JStr "1.0.0"] (JStr "1.0.0") [] Script.manifest Script.start
           {| published := None |} (DXAPIError "InvalidState" "already published")
           1%nat 2%nat);
    reflexivity.
Defined.

Lemma other_remote_errors_are_fatal_witness :
  try_each_version (Script.platform Versions.forbidden) "myapp" true
    [JStr "1.0.0"; JStr "2.0.0"] [JStr "1.0.0"; JStr "2.0.0"] Script.manifest Script.start
  = (Raise (DXAPIError "PermissionDenied" "not a developer"),
     {| world := 1%nat;
        trace := [] ++ [AppDescribe ("app-" +:+ "myapp") (JStr "1.0.0")] |})
  /\ try_each_version (Script.platform Versions.rejecting) "myapp" true
       [JStr "1.0.0"; JStr "2.0.0"] [JStr "1.0.0"; JStr "2.0.0"] Script.manifest
       Script.start
     = (Raise (DXAPIError "InvalidInput" "runSpec is missing"),
        {| world := 2%nat;
           trace := [] ++ [AppDescribe ("app-" +:+ "myapp") (JStr "1.0.0");
                           AppNew (<["version" := JStr "1.0.0"]> Script.manifest)] |}).
Proof.
  split.
  - apply (proj1 (other_remote_errors_are_fatal (Script.platform Versions.forbidden)
                    "myapp" true [JStr "1.0.0"; JStr "2.0.0"] (JStr "1.0.0")
                    [JStr "2.0.0"] Script.manifest Script.start));
      reflexivity.
  - apply (proj2 (other_remote_errors_are_fatal (Script.platform Versions.rejecting)
                    "myapp" true [JStr "1.0.0"; JStr "2.0.0"] (JStr "1.0.0")
                    [JStr "2.0.0"] Script.manifest Script.start)
                 (DXAPIError "ResourceNotFound" "no such app") 1%nat);
      reflexivity.
Defined.

Lemma alias_conflict_is_recovered_witness :
  try_each_version (Script.platform Script.racing) "myapp" true
    [JStr "1.0.0"] [JStr "1.0.0"] Script.manifest
    {| world := 1%nat; trace := [AppletDescribe "applet-1"] |}
  = (Ret ("app-1", <["version" := JStr "1.0.0"]> Script.manifest),
     {| world := 5%nat;
        trace := ([AppletDescribe "applet-1"]
                    ++ [AppDescribe ("app-" +:+ "myapp") (JStr "1.0.0");
                        AppNew (<["version" := JStr "1.0.0"]> Script.manifest);
                        AppDescribe ("app-" +:+ "myapp") (JStr "1.0.0")])
                   ++ [AppUpdate ("app-" +:+ "myapp") (JStr "1.0.0")
                         (<["version" := JStr "1.0.0"]> Script.manifest)] |}).
Proof.
  destruct (alias_conflict_is_recovered (Script.platform Script.racing) "myapp"
              [JStr "1.0.0"] (JStr "1.0.0") [] Script.manifest
              {| world := 1%nat; trace := [AppletDescribe "applet-1"] |}
              (DXAPIError "ResourceNotFound" "no such app") {| published := Some 0 |}
              2%nat 3%nat 4%nat eq_refl eq_refl eq_refl eq_refl) as [_ Hupdate].
  apply (Hupdate ltac:(vm_compute; discriminate) "app-1" 5%nat). reflexivity.
Defined.

Lemma fresh_creates : sends Versions.fresh_run Script.start (AppNew Versions.sent).
Proof. apply (sends_at _ _ 2%nat); [reflexivity | vm_compute; reflexivity]. Qed.

Lemma app_requests_carry_the_candidate_witness :
  exists v,
    Versions.sent !! "applet" = Some (JStr "applet-1")
    /\ Versions.sent !! "name" = Some (JStr (ad_name Versions.myapp))
    /\ Versions.sent !! "version" = Some v
    /\ v ∈ candidates Script.manifest [].
Proof.
  apply (app_requests_carry_the_candidate (Script.platform Script.fresh)
           (Script.machine Script.manifest []) "applet-1" "/src/myapp" true false None []
           true Script.manifest Script.start Versions.myapp 1%nat (AppNew Versions.sent)).
  - reflexivity.
  - reflexivity.
  - exact fresh_creates.
Defined.

Lemma app_creation_footprint_witness :
  (AppPublish "app-1" false = AppletDescribe "applet-1"
   \/ is_app_call (AppPublish "app-1" false) = true)
  /\ (true = true /\ false = false).
Proof.
  apply (app_creation_footprint (Script.platform Script.fresh)
           (Script.machine Script.manifest []) "applet-1" "/src/myapp" true false None []
           true Script.manifest Script.start Versions.myapp 1%nat
           (AppPublish "app-1" false)).
  - reflexivity.
  - reflexivity.
  - apply (sends_at _ _ 3%nat); [reflexivity | vm_compute; reflexivity].
Defined.

Lemma manifest_version_is_the_default_candidate_witness :
  create_app (Script.platform Script.fresh) (Script.machine Script.manifest [])
    "applet-1" "/src/myapp" true false None [] true Script.start
  = create_app (Script.platform Script.fresh) (Script.machine Script.manifest [])
      "applet-1" "/src/myapp" true false None [JStr "0.0.1"] true Script.start.
Proof.
  apply (manifest_version_is_the_default_candidate (Script.platform Script.fresh)
           (Script.machine Script.manifest []) "applet-1" "/src/myapp" true false None true
           Script.manifest Script.start).
  reflexivity.
Defined.

(** ** Removing a member *)

Section removal.
Context {W : Type} (P : Platform W) (L : Local).

Lemma print_each_run ks (s : state W) :
  print_each ks s
  = (Ret tt, {| world := world s;
                trace := trace s ++ ((fun k => Print (String "009"%char k)) <$> ks) |}).
Proof.
  revert s. induction ks as [|k ks IH]; intros s; simpl.
  - rewrite app_nil_r. by destruct s.
  - rewrite run_bind. unfold log at 1. simpl. rewrite IH. simpl. by rewrite <- app_assoc.
Qed.

Lemma print_keys_run ks (s : state W) :
  exists lines,
    print_keys ks s = (Ret tt, {| world := world s; trace := trace s ++ lines |})
    /\ Forall (fun c => is_print c = true) lines
    /\ forall k, k ∈ ks -> Print (String "009"%char k) ∈ lines.
Proof.
  unfold print_keys. destruct ks as [|k ks]; simpl.
  - eexists [_]. split; [reflexivity|]. split; [by repeat constructor|].
    intros k Hk. by apply elem_of_nil in Hk.
  - rewrite run_bind. unfold log at 1. simpl. rewrite print_each_run. simpl.
    exists (Print (String "009"%char k) :: ((fun k => Print (String "009"%char k)) <$> ks)).
    split; [by rewrite <- app_assoc|]. split.
    + constructor; [done|]. apply Forall_fmap, Forall_forall. done.
    + intros k' Hk'.
      exact (list_elem_of_fmap_2 (fun k => Print (String "009"%char k)) (k :: ks) k' Hk').
Qed.

(** X19: a probe that fails is all [remove_membership] does.  After a probe
    that succeeds, with no confirmation required or with the prompt answered
    yes, the member is removed with [user-<username>] and the two revoke
    flags; the report is only printing: the id alone in brief mode, else
    every project and app the platform named. *)
Theorem removal_is_sent_and_reported (args : org_args) (s : state W) :
  let user := "user-" +:+ username args in
  let probe := OrgGetMemberAccess (org_id args) user in
  let removal :=
    OrgRemoveMember (org_id args)
      {| rm_user := user;
         rm_revokeProjectPermissions := revoke_project_permissions args;
         rm_revokeAppPermissions := revoke_app_permissions args |} in
  (forall e w1,
      org_get_member_access P (org_id args) user (world s) = (Raise e, w1) ->
      remove_membership P L args s
      = (Raise e, {| world := w1; trace := trace s ++ [probe] |}))
  /\ (forall w1 w1' result w2,
        org_get_member_access P (org_id args) user (world s) = (Ret tt, w1) ->
        (if confirm args then prompt_for_yn P "Please confirm" w1 = (Ret true, w1')
         else w1' = w1) ->
        org_remove_member P (org_id args) (_get_org_remove_member_args args) w1'
        = (Ret result, w2) ->
        exists report,
          remove_membership P L args s
          = (Ret tt,
             {| world := w2;
                trace := trace s ++ [probe] ++ confirmation L args ++ [removal] ++ report |})
          /\ Forall (fun c => is_print c = true) report
          /\ (brief args = true -> report = [Print (res_id result)])
          /\ (brief args = false ->
              forall k, k ∈ res_projects result ++ res_apps result ->
                        Print (String "009"%char k) ∈ report)).
Proof.
  intros user probe removal. split.
  - intros e w1 Hprobe. unfold remove_membership.
    rewrite run_bind, run_invoke. fold user. by rewrite Hprobe.
  - intros w1 w1' result w2 Hprobe Hgo Hremove. unfold remove_membership.
    rewrite run_bind, run_invoke. fold user. rewrite Hprobe. simpl.
    set (s1 := {| world := w1'; trace := trace s ++ [probe] ++ confirmation L args |}).
    assert (forall k : bool -> M W unit,
               ((if negb (negb (confirm args)) then
                   _ ← log (Print (fill L (removal_warning args)));
                   yes ← invoke (PromptForYN "Please confirm")
                                (prompt_for_yn P "Please confirm");
                   if (yes : bool) then mret true else mret (negb (confirm args))
                 else mret (negb (confirm args))) ≫= k)
                 {| world := w1; trace := trace s ++ [probe] |}
               = k true s1) as Hasked.
    { intros k. unfold s1, confirmation. destruct (confirm args); simpl.
      - rewrite run_bind, run_bind. unfold log at 1. simpl.
        rewrite run_bind, run_invoke. simpl. rewrite Hgo. simpl.
        by rewrite <- !app_assoc.
      - subst w1'. by rewrite run_bind. }
    rewrite Hasked. clear Hasked. cbn beta iota.
    rewrite run_bind, run_invoke. unfold s1 at 1 2. simpl.
    unfold _get_org_remove_member_args in Hremove. fold user in Hremove.
    unfold _get_org_remove_member_args. fold user. rewrite Hremove. simpl.
    destruct (brief args) eqn:Hbrief.
    + exists [Print (res_id result)]. unfold log. simpl.
      split; [by rewrite <- !app_assoc|]. split; [by repeat constructor|].
      split; [done|done].
    + rewrite run_bind. unfold log at 1. simpl.
      rewrite run_bind. unfold log at 1. simpl. rewrite run_bind.
      match goal with
      | |- context [print_keys (res_projects result) ?s2] =>
          destruct (print_keys_run (res_projects result) s2) as (l1 & -> & Hp1 & Hin1)
      end.
      simpl. rewrite run_bind. unfold log at 1. simpl.
      match goal with
      | |- context [print_keys (res_apps result) ?s3] =>
          destruct (print_keys_run (res_apps result) s3) as (l2 & -> & Hp2 & Hin2)
      end.
      simpl.
      exists (Print (fill L ("Removed user-" +:+ username args +:+ " from "
                               +:+ org_id args))
                :: Print (fill L ("Removed user-" +:+ username args
                                    +:+ " from the following projects:"))
                :: l1
                ++ Print (fill L ("Removed user-" +:+ username args
                                    +:+ " from the following apps:"))
                :: l2).
      split.
      * f_equal. f_equal. repeat (rewrite <- app_assoc; simpl). reflexivity.
      * split; [|split; [done|]].
        -- repeat constructor. apply Forall_app. split; [done|]. by constructor.
        -- intros _ k [Hk|Hk]%elem_of_app.
           ++ do 2 apply elem_of_cons, or_intror. apply elem_of_app. left. by apply Hin1.
           ++ do 2 apply elem_of_cons, or_intror. apply elem_of_app. right.
              apply elem_of_cons. right. by apply Hin2.
Qed.

End removal.

(** ** Resource packaging without a folder *)

Section root_folder.
Context {W : Type} (P : Platform W) (L : Local).

(** X20: a manifest without ['folder'] has its archive uploaded to ["/"] of
    the destination project with no folder call; and a [resources] that is
    there but cannot be listed makes [upload_resources] raise what
    [os.listdir] raises before any call. *)
Theorem resources_go_to_the_root_folder (src_dir : string) (project : option string)
    (manifest : object) (s : state W) :
  load_json L (path_join src_dir "dxapp.json") = Ret manifest ->
  has_key manifest "runSpec" = true ->
  let resources_dir := path_join src_dir "resources" in
  let dest_project := destination L manifest project in
  path_exists L resources_dir = true ->
  (forall e,
      listdir L resources_dir = Raise e ->
      upload_resources P L src_dir project s = (Raise e, s))
  /\ (forall entry entries tar_name w1 w2,
        listdir L resources_dir = Ret (entry :: entries) ->
        manifest !! "folder" = None ->
        named_temporary_file P ".tar.gz" (world s) = (Ret tar_name, w1) ->
        tar P resources_dir tar_name w1 = (Ret tt, w2) ->
        let uploaded := upload_local_file P tar_name dest_project (JStr "/") w2 in
        upload_resources P L src_dir project s
        = (match uploaded.1 with
           | Ret archive_id => Ret (Some [bundle L archive_id])
           | Raise e => Raise e
           end,
           {| world := uploaded.2;
              trace := trace s ++ [NamedTemporaryFile ".tar.gz"; Tar resources_dir tar_name;
                                   UploadLocalFile tar_name dest_project (JStr "/")] |})).
Proof.
  intros Hload Hrun resources_dir dest_project Hex.
  destruct (upload_resources_run P L src_dir manifest project s Hload Hrun)
    as (applet_spec & Hfolder & Heq).
  fold resources_dir dest_project in Heq. rewrite Heq. clear Heq. split.
  - intros e Hls. unfold resources_present. by rewrite Hex, Hls.
  - intros entry entries tar_name w1 w2 Hls Hnone Htmp Htar uploaded.
    rewrite (resources_present_nonempty _ _ _ _ Hex Hls).
    unfold package_resources. rewrite run_bind, run_invoke, Htmp. simpl.
    rewrite run_bind, run_invoke. simpl. rewrite Htar. simpl.
    rewrite run_bind, Hfolder, Hnone. simpl.
    rewrite run_bind, run_invoke. simpl. fold uploaded.
    destruct uploaded as [[id|e] w3]; simpl; by rewrite <- !app_assoc.
Qed.

End root_folder.

Lemma removal_is_sent_and_reported_witness :
  exists report,
    remove_membership (Script.platform Script.fresh) (Script.machine Script.manifest [])
      Script.alice Script.start
    = (Ret tt,
       {| world := 3%nat;
          trace := [] ++ [OrgGetMemberAccess "org-acme" ("user-" +:+ "alice")]
                      ++ confirmation (Script.machine Script.manifest []) Script.alice
                      ++ [OrgRemoveMember "org-acme"
                            {| rm_user := "user-" +:+ "alice";
                               rm_revokeProjectPermissions := true;
                               rm_revokeAppPermissions := false |}]
                      ++ report |})
    /\ Print (String "009"%char "project-1") ∈ report.
Proof.
  destruct (removal_is_sent_and_reported (Script.platform Script.fresh)
              (Script.machine Script.manifest []) Script.alice Script.start)
    as [_ Hremoved].
  destruct (Hremoved 1%nat 2%nat
              {| res_id := "org-acme"; res_projects := ["project-1"]; res_apps := [] |}
              3%nat eq_refl eq_refl eq_refl)
    as (report & Hrun & _ & _ & Hlisted).
  exists report. split; [exact Hrun|].
  apply (Hlisted eq_refl). apply elem_of_cons. by left.
Defined.

Lemma resources_go_to_the_root_folder_witness :
  upload_resources (Script.platform Script.all_published)
    (Script.machine (Script.manifest_with []) ["lib"]) "/src/myapp" None Script.start
  = (Ret (Some [bundle (Script.machine (Script.manifest_with []) ["lib"]) "file-1"]),
     {| world := 3%nat;
        trace := [] ++ [NamedTemporaryFile ".tar.gz";
                        Tar (path_join "/src/myapp" "resources") "/tmp/tmpA.tar.gz";
                        UploadLocalFile "/tmp/tmpA.tar.gz" (JStr "project-0") (JStr "/")] |}).
Proof.
  destruct (resources_go_to_the_root_folder (Script.platform Script.all_published)
              (Script.machine (Script.manifest_with []) ["lib"]) "/src/myapp" None
              (Script.manifest_with []) Script.start)
    as [_ Hroot]; [vm_compute; reflexivity | vm_compute; reflexivity | reflexivity |].
  apply (Hroot "lib" [] "/tmp/tmpA.tar.gz" 1%nat 2%nat).
  - reflexivity.
  - vm_compute. reflexivity.
  - reflexivity.
  - reflexivity.
Defined.

(** * The rest of the two files *)

Section wide_runs.
Context {W : Type}.

Lemma run_wide_invoke {A} (c : wide_call) (f : W -> outcome A * W) (s : state (logged W)) :
  wide_invoke c f s
  = ((f (platform_world (world s))).1,
     {| world := {| platform_world := (f (platform_world (world s))).2;
                    issued := issued (world s) ++ [c] |};
        trace := trace s |}).
Proof. unfold wide_invoke. by destruct (f (platform_world (world s))). Qed.

End wide_runs.

(** ** [build] *)

Section building.
Context {W : Type} (Q : WidePlatform W) (E : BuildEnv).

(** X21: [build] runs [./configure] only when it is a file and executable,
    and then [make -C src_dir -jN] only when one of the three makefiles is
    there, in that order; a failing [configure] is raised and [make] is not
    run; with neither, nothing is run. *)
Theorem configure_runs_before_make (src_dir : string) (s : state (logged W)) :
  let config_script := path_join src_dir "configure" in
  let configure := CheckCall [config_script] in
  let make :=
    CheckCall ["make"; "-C"; src_dir; "-j" +:+ stdpp.pretty.pretty (NUM_CORES E)] in
  let made (s1 : state (logged W)) :=
    if has_makefile E src_dir then
      ((check_call Q (make_command E src_dir) (platform_world (world s1))).1,
       {| world :=
            {| platform_world :=
                 (check_call Q (make_command E src_dir) (platform_world (world s1))).2;
               issued := issued (world s1) ++ [make] |};
          trace := trace s1 |})
    else (Ret tt, s1) in
  build Q E src_dir s
  = if isfile E config_script && is_executable E config_script then
      let configured := check_call Q [config_script] (platform_world (world s)) in
      let s1 := {| world := {| platform_world := configured.2;
                               issued := issued (world s) ++ [configure] |};
                   trace := trace s |} in
      match configured.1 with
      | Ret _ => made s1
      | Raise e => (Raise e, s1)
      end
    else made s.
Proof.
  intros config_script configure make made. unfold build. fold config_script.
  rewrite run_bind.
  destruct (isfile E config_script && is_executable E config_script).
  - rewrite run_wide_invoke.
    destruct (check_call Q [config_script] (platform_world (world s))) as [[[]|e] w1];
      simpl; [|reflexivity].
    unfold made. destruct (has_makefile E src_dir); [|reflexivity].
    by rewrite run_wide_invoke.
  - simpl. unfold made. destruct (has_makefile E src_dir); [|reflexivity].
    by rewrite run_wide_invoke.
Qed.

End building.

(** ** [update_membership] and [find_orgs] *)

Section org_admin_facts.
Context {W : Type} (P : Platform W) (Q : WidePlatform W) (L : Local) (R : Printing).

(** X22: [update_membership] writes only after the membership probe
    succeeded: a failing probe is raised with the probe as the only call.
    The request names the one user [user-<username>], always with the level,
    and with each flag only when it was given: [allowBillableActivities] and
    [appAccess] are true exactly for the text ["true"]. *)
Theorem membership_is_probed_before_the_update (args : access_args)
    (s : state (logged W)) :
  let user := "user-" +:+ ua_username args in
  let probe := Base (OrgGetMemberAccess (ua_org_id args) user) in
  let input := _get_org_set_member_access_args args in
  (forall e w1,
      org_get_member_access P (ua_org_id args) user (platform_world (world s))
      = (Raise e, w1) ->
      update_membership P Q L args s
      = (Raise e, {| world := {| platform_world := w1;
                                 issued := issued (world s) ++ [probe] |};
                     trace := trace s |}))
  /\ (forall w1 id w2,
        org_get_member_access P (ua_org_id args) user (platform_world (world s))
        = (Ret tt, w1) ->
        org_set_member_access Q (ua_org_id args) input w1 = (Ret id, w2) ->
        update_membership P Q L args s
        = (Ret tt,
           {| world :=
                {| platform_world := w2;
                   issued :=
                     issued (world s)
                       ++ [probe; OrgSetMemberAccess (ua_org_id args) input;
                           Base (Print (if ua_brief args then id
                                        else fill L ("Updated membership of user-"
                                                       +:+ ua_username args +:+ " in "
                                                       +:+ ua_org_id args)))] |};
              trace := trace s |}))
  /\ (forall key, key <> user -> input !! key = None)
  /\ exists entry,
      input !! user = Some (JObj entry)
      /\ entry !! "level" = Some (JStr (ua_level args))
      /\ entry !! "allowBillableActivities"
         = (fun x => JBool (bool_decide (x = "true"))) <$> ua_allow_billable_activities args
      /\ entry !! "appAccess"
         = (fun x => JBool (bool_decide (x = "true"))) <$> ua_app_access args
      /\ entry !! "projectAccess" = JStr <$> ua_project_access args.
Proof.
  intros user probe input. split; [|split; [|split]].
  - intros e w1 Hprobe. unfold update_membership. fold user.
    by rewrite run_bind, run_wide_invoke, Hprobe.
  - intros w1 id w2 Hprobe Hset. unfold update_membership. fold user input.
    rewrite run_bind, run_wide_invoke, Hprobe. simpl.
    rewrite run_bind, run_wide_invoke. simpl. rewrite Hset. simpl.
    destruct (ua_brief args); unfold wide_print; simpl; by rewrite <- !app_assoc.
  - intros key Hne. unfold input, _get_org_set_member_access_args. fold user.
    by rewrite lookup_insert_ne.
  - unfold input, _get_org_set_member_access_args. fold user.
    eexists. split; [apply lookup_insert_eq|]. unfold is_true_text.
    destruct (ua_allow_billable_activities args), (ua_app_access args),
      (ua_project_access args); by simplify_map_eq.
Qed.

Lemma print_ids_run results ids (s : state (logged W)) :
  Forall2 (fun res id => res !! "id" = Some (JStr id)) results ids ->
  print_ids L results s
  = (Ret tt, {| world := {| platform_world := platform_world (world s);
                            issued := issued (world s)
                                        ++ ((fun id => Base (Print id)) <$> ids) |};
                trace := trace s |}).
Proof.
  intros Hids. revert s. induction Hids as [|res id results ids Hid _ IH]; intros s.
  - simpl. rewrite app_nil_r. by destruct s as [[] ?].
  - cbn [print_ids]. unfold getitem. rewrite Hid.
    rewrite run_bind. unfold lift at 1. cbn beta iota.
    rewrite run_bind. unfold wide_print at 1. cbn beta iota.
    rewrite IH. simpl. by rewrite <- app_assoc.
Qed.

Lemma print_lines_run args results lines (s : state (logged W)) :
  Forall2 (fun res line => org_line L R args res = Ret line) results lines ->
  print_lines L R args results s
  = (Ret tt, {| world := {| platform_world := platform_world (world s);
                            issued := issued (world s)
                                        ++ ((fun line => Base (Print line)) <$> lines) |};
                trace := trace s |}).
Proof.
  intros Hlines. revert s.
  induction Hlines as [|res line results lines Hline _ IH]; intros s.
  - simpl. rewrite app_nil_r. by destruct s as [[] ?].
  - cbn [print_lines]. rewrite Hline.
    rewrite run_bind. unfold lift at 1. cbn beta iota.
    rewrite run_bind. unfold wide_print at 1. cbn beta iota.
    rewrite IH. simpl. by rewrite <- app_assoc.
Qed.

(** X23: [find_orgs] asks for the level, for [allowBillableActivities] only
    when given, and for describes exactly when not brief.  With [json] it
    prints the one line of all results, brief or not; else in brief mode the
    ids, one per line in the order found; else one line per result: the id,
    the delimiter ([" : "] unless one is given) and the described name. *)
Theorem org_search_output (args : find_orgs_args) (s : state (logged W)) :
  let query : object :=
    let input := <["level" := JStr (fo_level args)]> ∅ in
    let input := match fo_with_billable_activities args with
                 | Some b => <["allowBillableActivities" := JBool b]> input
                 | None => input
                 end in
    if fo_brief args then input else <["describe" := JBool true]> input in
  forall results w1,
    find_orgs_results Q query (platform_world (world s)) = (Ret results, w1) ->
    let printed lines :=
      (Ret tt,
       {| world := {| platform_world := w1;
                      issued := issued (world s)
                                  ++ FindOrgs query :: ((fun l => Base (Print l)) <$> lines) |};
          trace := trace s |}) in
    (fo_json args = true -> find_orgs Q L R args s = printed [json_dumps R results])
    /\ (fo_json args = false -> fo_brief args = true ->
        forall ids,
          Forall2 (fun res id => res !! "id" = Some (JStr id)) results ids ->
          find_orgs Q L R args s = printed ids)
    /\ (fo_json args = false -> fo_brief args = false ->
        forall lines,
          Forall2 (fun res line =>
                     exists id name d,
                       res !! "id" = Some (JStr id)
                       /\ res !! "describe" = Some (JObj d)
                       /\ d !! "name" = Some (JStr name)
                       /\ line = id +:+ match fo_delimiter args with
                                        | Some "" | None => " : "
                                        | Some delimiter => DELIMITER R delimiter
                                        end +:+ name) results lines ->
          find_orgs Q L R args s = printed lines).
Proof.
  intros query results w1 Hfind printed.
  assert (find_orgs Q L R args s
          = (if fo_json args then wide_print (json_dumps R results)
             else if fo_brief args then print_ids L results
             else print_lines L R args results)
              {| world := {| platform_world := w1;
                             issued := issued (world s) ++ [FindOrgs query] |};
                 trace := trace s |}) as Hrun.
  { unfold find_orgs, _get_find_orgs_args. rewrite lookup_insert_eq.
    rewrite run_bind. unfold lift at 1. cbn beta iota.
    assert ((if negb (fo_brief args)
             then <["describe" := JBool true]>
                    match fo_with_billable_activities args with
                    | Some b => <["allowBillableActivities" := JBool b]>
                                  (<["level" := JStr (fo_level args)]> ∅)
                    | None => <["level" := JStr (fo_level args)]> ∅
                    end
             else match fo_with_billable_activities args with
                  | Some b => <["allowBillableActivities" := JBool b]>
                                (<["level" := JStr (fo_level args)]> ∅)
                  | None => <["level" := JStr (fo_level args)]> ∅
                  end) = query) as -> by (unfold query; by destruct (fo_brief args)).
    by rewrite run_bind, run_wide_invoke, Hfind. }
  rewrite Hrun. clear Hrun. split; [|split].
  - intros ->. unfold wide_print, printed. simpl. by rewrite <- app_assoc.
  - intros -> -> ids Hids. rewrite (print_ids_run _ _ _ Hids). unfold printed. simpl.
    by rewrite <- app_assoc.
  - intros -> -> lines Hlines. rewrite (print_lines_run args results lines).
    + unfold printed. simpl. by rewrite <- app_assoc.
    + eapply Forall2_impl; [exact Hlines|]. simpl.
      intros res line (id & name & d & Hid & Hd & Hname & ->).
      unfold org_line, described_name, getitem. rewrite Hid, Hd. simpl. rewrite Hname.
      simpl. do 2 f_equal.
      destruct (fo_delimiter args) as [[|]|]; reflexivity.
Qed.

End org_admin_facts.

Lemma membership_is_probed_before_the_update_witness :
  update_membership (Script.platform Script.not_a_member) Admin.wide
    (Script.machine Script.manifest []) Admin.bob Admin.start
  = (Raise (DXAPIError "ResourceNotFound" "not a member"),
     {| world := {| platform_world := 1%nat;
                    issued := [] ++ [Base (OrgGetMemberAccess "org-acme"
                                             ("user-" +:+ "bob"))] |};
        trace := [] |})
  /\ update_membership (Script.platform Script.all_published) Admin.wide
       (Script.machine Script.manifest []) Admin.bob Admin.start
     = (Ret tt,
        {| world := {| platform_world := 2%nat;
                       issued := [] ++ [Base (OrgGetMemberAccess "org-acme"
                                                ("user-" +:+ "bob"));
                                        OrgSetMemberAccess "org-acme"
                                          (_get_org_set_member_access_args Admin.bob);
                                        Base (Print "org-acme")] |};
           trace := [] |})
  /\ exists entry,
      _get_org_set_member_access_args Admin.bob !! ("user-" +:+ "bob") = Some (JObj entry)
      /\ entry !! "allowBillableActivities" = Some (JBool false)
      /\ entry !! "appAccess" = Some (JBool true)
      /\ entry !! "projectAccess" = None.
Proof.
  split; [|split].
  - destruct (membership_is_probed_before_the_update (Script.platform Script.not_a_member)
                Admin.wide (Script.machine Script.manifest []) Admin.bob Admin.start)
      as (Hfailed & _).
    apply (Hfailed (DXAPIError "ResourceNotFound" "not a member") 1%nat). reflexivity.
  - destruct (membership_is_probed_before_the_update (Script.platform Script.all_published)
                Admin.wide (Script.machine Script.manifest []) Admin.bob Admin.start)
      as (_ & Hupdated & _).
    apply (Hupdated 1%nat "org-acme" 2%nat); reflexivity.
  - destruct (membership_is_probed_before_the_update (Script.platform Script.all_published)
                Admin.wide (Script.machine Script.manifest []) Admin.bob Admin.start)
      as (_ & _ & _ & entry & Hentry & _ & Hbill & Happ & Hproj).
    exists entry. split; [exact Hentry|]. split; [exact Hbill|]. split; [exact Happ|].
    exact Hproj.
Defined.

Lemma org_search_output_witness :
  find_orgs Admin.wide (Script.machine Script.manifest []) Admin.printing Admin.search
    Admin.start
  = (Ret tt,
     {| world :=
          {| platform_world := 1%nat;
             issued := [] ++ FindOrgs (<["describe" := JBool true]>
                                         (<["level" := JStr "ADMIN"]> ∅))
                         :: ((fun l => Base (Print l))
                               <$> ["org-acme" +:+ " : " +:+ "Acme";
                                    "org-beta" +:+ " : " +:+ "Beta"]) |};
        trace := [] |}).
Proof.
  destruct (org_search_output Admin.wide (Script.machine Script.manifest []) Admin.printing
              Admin.search Admin.start [Admin.acme; Admin.beta] 1%nat eq_refl)
    as (_ & _ & Htext).
  apply (Htext eq_refl eq_refl). repeat constructor.
  - exists "org-acme", "Acme", (<["name" := JStr "Acme"]> ∅). by vm_compute.
  - exists "org-beta", "Beta", (<["name" := JStr "Beta"]> ∅). by vm_compute.
Defined.

Example build_runs_both :
  build Admin.wide Admin.autotools "/src/myapp" Admin.start
  = (Ret tt,
     {| world := {| platform_world := 2%nat;
                    issued := [CheckCall ["/src/myapp/configure"];
                               CheckCall ["make"; "-C"; "/src/myapp"; "-j4"]] |};
        trace := [] |}).
Proof. vm_compute. reflexivity. Qed.
